(** * LTA DataMall MCP server: analytics, persistence, sessions and dispatch

    A shallow embedding of [src/http-server.ts], [src/firebase-analytics.ts]
    and the stdio entry point, followed by the properties of the
    specification that were checked against it.

    Conventions of the embedding:
    - a JS object used as a counter table ([Record<string, number>]) is a
      [gmap string Z] holding its own numeric properties; a missing key
      reads as [None] (JS [undefined]). This typed view and the integer
      counters [Z] are exact for keys that are own or that a plain object
      does not inherit, and for integer counts within 2^53 in absolute
      value. Module [Plain] gives the updates on plain objects and JSON
      values without these restrictions, and the properties of counts are
      stated there;
    - an optional or possibly-undefined JS value is an [option];
    - a [string] is a sequence of code units below 256, as the values of
      HTTP headers are; only such characters are inspected by the code that
      is modelled;
    - wall-clock readings ([new Date()], [Date.now()]), generated session
      identifiers and the answers of the outside world (upstream API, file
      system, remote database) are explicit inputs. *)

From Stdlib Require Import ZArith String Ascii List Lia.
From stdpp Require Import gmap strings list fin_maps pretty.

Open Scope Z_scope.
Open Scope string_scope.

(** ** JavaScript primitives used by the sources *)

Module Js.

(** Truthiness of a string: every string but the empty one. *)
Definition truthy (s : string) : bool :=
  match s with
  | EmptyString => false
  | String _ _ => true
  end.

(** [o || d] where [o] is a string or [undefined]. *)
Definition or_str (o : option string) (d : string) : string :=
  match o with
  | Some s => if truthy s then s else d
  | None => d
  end.

(** [o1 || o2] where both sides are a string or [undefined]. *)
Definition or_opt (o1 o2 : option string) : option string :=
  match o1 with
  | Some s => if truthy s then Some s else o2
  | None => o2
  end.

(** [n || 0] where [n] is a number or [undefined]. *)
Definition or_zero (o : option Z) : Z :=
  match o with
  | Some n => if Z.eqb n 0 then 0 else n
  | None => 0
  end.

(** Truthiness of a number or [undefined]. *)
Definition truthy_num (o : option Z) : bool :=
  match o with
  | Some n => negb (Z.eqb n 0)
  | None => false
  end.

(** [s.substring(0, n)]. *)
Definition prefix (n : nat) (s : string) : string := String.substring 0 n s.

(** [s.split(',')[0]]: the characters before the first comma. *)
Fixpoint first_segment (s : string) : string :=
  match s with
  | EmptyString => EmptyString
  | String c r =>
      if Ascii.eqb c "," then EmptyString else String c (first_segment r)
  end.

(** The characters below 256 that [String.prototype.trim] removes: tab,
    line feed, vertical tab, form feed, carriage return, space and the
    no-break space U+00A0. *)
Definition is_space (c : ascii) : bool :=
  let n := nat_of_ascii c in
  (Nat.eqb n 32 || (Nat.leb 9 n && Nat.leb n 13) || Nat.eqb n 160)%bool.

Fixpoint trim_start (s : string) : string :=
  match s with
  | EmptyString => EmptyString
  | String c r => if is_space c then trim_start r else s
  end.

(** Removes the trailing white space: a character is kept when it is not
    white space or when something is kept after it. *)
Fixpoint trim_end (s : string) : string :=
  match s with
  | EmptyString => EmptyString
  | String c r =>
      match trim_end r with
      | EmptyString => if is_space c then EmptyString else String c EmptyString
      | String _ _ as r' => String c r'
      end
  end.

(** [s.trim()]. *)
Definition trim (s : string) : string := trim_end (trim_start s).

(** [s.replace(/c/g, tok)]: every occurrence of the character [c] is
    replaced by [tok], left to right. *)
Fixpoint replace_all (c : ascii) (tok : string) (s : string) : string :=
  match s with
  | EmptyString => EmptyString
  | String a r =>
      if Ascii.eqb a c then tok +:+ replace_all c tok r
      else String a (replace_all c tok r)
  end.

(** [(m[k] || 0) + n], stored back under [k], on a table of own integer
    counts: exact when [k] is own or not inherited and the sum is an integer
    a JS number holds exactly ([Plain.bump] is the update without these
    conditions, [bump_refines] the agreement). *)
Definition bump (k : string) (n : Z) (m : gmap string Z) : gmap string Z :=
  <[k := or_zero (m !! k) + n]> m.

(** Completion of a block: a value, or a thrown exception. *)
Inductive completion (E A : Type) : Type :=
| Normal (a : A)
| Throw (e : E).
Arguments Normal {E A} a.
Arguments Throw {E A} e.

(** [try { body } catch (e) { handler(e) }]. *)
Definition try_catch {E A} (body : completion E A)
    (handler : E -> completion E A) : completion E A :=
  match body with
  | Normal a => Normal a
  | Throw e => handler e
  end.

End Js.

(** ** The analytics aggregator ([src/http-server.ts]) *)

Module Analytics.

(** One entry of [recentToolCalls]. *)
Record ToolCallRecord : Type := {
  tool : string;
  timestamp : string;
  clientIp : string;
  userAgent : string;
}.

(** [interface AnalyticsData] of [firebase-analytics.ts]. *)
Record AnalyticsData : Type := {
  serverStartTime : string;
  totalRequests : Z;
  totalToolCalls : Z;
  requestsByMethod : gmap string Z;
  requestsByEndpoint : gmap string Z;
  toolCalls : gmap string Z;
  recentToolCalls : list ToolCallRecord;
  clientsByIp : gmap string Z;
  clientsByUserAgent : gmap string Z;
  hourlyRequests : gmap string Z;
  lastUpdated : option Z;
}.

(** [Partial<AnalyticsData>]: any field may be missing. *)
Record PartialAnalytics : Type := {
  p_serverStartTime : option string;
  p_totalRequests : option Z;
  p_totalToolCalls : option Z;
  p_requestsByMethod : option (gmap string Z);
  p_requestsByEndpoint : option (gmap string Z);
  p_toolCalls : option (gmap string Z);
  p_recentToolCalls : option (list ToolCallRecord);
  p_clientsByIp : option (gmap string Z);
  p_clientsByUserAgent : option (gmap string Z);
  p_hourlyRequests : option (gmap string Z);
  p_lastUpdated : option Z;
}.

(** The parts of an express [Request] that the server reads. *)
Record Request : Type := {
  method : string;
  query_apiKey : option string;
  header_session : option string;
  header_forwarded : option string;
  header_userAgent : option string;
  ip : option string;
}.

Definition MAX_RECENT_CALLS : nat := 100.

(** The module-level initial value of [analytics]; [start] is the clock
    reading at process start. *)
Definition initial (start : string) : AnalyticsData := {|
  serverStartTime := start;
  totalRequests := 0;
  totalToolCalls := 0;
  requestsByMethod := ∅;
  requestsByEndpoint := ∅;
  toolCalls := ∅;
  recentToolCalls := [];
  clientsByIp := ∅;
  clientsByUserAgent := ∅;
  hourlyRequests := ∅;
  lastUpdated := None;
|}.

(** [ensureAnalyticsStructure]; [now] is the clock reading used when the
    start time is missing. *)
Definition ensureAnalyticsStructure (now : string) (data : PartialAnalytics)
  : AnalyticsData := {|
  serverStartTime := Js.or_str (p_serverStartTime data) now;
  totalRequests := Js.or_zero (p_totalRequests data);
  totalToolCalls := Js.or_zero (p_totalToolCalls data);
  requestsByMethod := default ∅ (p_requestsByMethod data);
  requestsByEndpoint := default ∅ (p_requestsByEndpoint data);
  toolCalls := default ∅ (p_toolCalls data);
  recentToolCalls := default [] (p_recentToolCalls data);
  clientsByIp := default ∅ (p_clientsByIp data);
  clientsByUserAgent := default ∅ (p_clientsByUserAgent data);
  hourlyRequests := default ∅ (p_hourlyRequests data);
  lastUpdated := None;
|}.

(** [(req.headers['x-forwarded-for'])?.split(',')[0]?.trim() || req.ip
    || 'unknown']. *)
Definition client_ip (req : Request) : string :=
  Js.or_str
    (Js.or_opt (option_map (fun h => Js.trim (Js.first_segment h))
                           (header_forwarded req))
               (ip req))
    "unknown".

(** [(req.headers['user-agent'] || 'unknown').substring(0, 50)]. *)
Definition user_agent (req : Request) : string :=
  Js.prefix 50 (Js.or_str (header_userAgent req) "unknown").

(** [trackRequest]; [now] is [new Date().toISOString()]. *)
Definition trackRequest (now : string) (req : Request) (endpoint : string)
    (a : AnalyticsData) : AnalyticsData := {|
  serverStartTime := serverStartTime a;
  totalRequests := totalRequests a + 1;
  totalToolCalls := totalToolCalls a;
  requestsByMethod := Js.bump (method req) 1 (requestsByMethod a);
  requestsByEndpoint := Js.bump endpoint 1 (requestsByEndpoint a);
  toolCalls := toolCalls a;
  recentToolCalls := recentToolCalls a;
  clientsByIp := Js.bump (client_ip req) 1 (clientsByIp a);
  clientsByUserAgent := Js.bump (user_agent req) 1 (clientsByUserAgent a);
  hourlyRequests := Js.bump (Js.prefix 13 now) 1 (hourlyRequests a);
  lastUpdated := lastUpdated a;
|}.

(** The record built by [trackToolCall]. *)
Definition mk_record (now : string) (toolName : string) (req : Request)
  : ToolCallRecord := {|
  tool := toolName;
  timestamp := now;
  clientIp := client_ip req;
  userAgent := user_agent req;
|}.

(** [recentToolCalls.unshift(r)], then one [pop()] when the length
    exceeds [MAX_RECENT_CALLS]. *)
Definition push_recent (r : ToolCallRecord) (l : list ToolCallRecord)
  : list ToolCallRecord :=
  let l' := r :: l in
  if Nat.ltb MAX_RECENT_CALLS (length l') then removelast l' else l'.

(** [trackToolCall]. *)
Definition trackToolCall (now : string) (toolName : string) (req : Request)
    (a : AnalyticsData) : AnalyticsData := {|
  serverStartTime := serverStartTime a;
  totalRequests := totalRequests a;
  totalToolCalls := totalToolCalls a + 1;
  requestsByMethod := requestsByMethod a;
  requestsByEndpoint := requestsByEndpoint a;
  toolCalls := Js.bump toolName 1 (toolCalls a);
  recentToolCalls := push_recent (mk_record now toolName req) (recentToolCalls a);
  clientsByIp := clientsByIp a;
  clientsByUserAgent := clientsByUserAgent a;
  hourlyRequests := hourlyRequests a;
  lastUpdated := lastUpdated a;
|}.

(** One invocation of [trackToolCall]: clock reading, tool name, request. *)
Definition call : Type := (string * string * Request)%type.

Definition record_of (c : call) : ToolCallRecord :=
  let '(now, name, req) := c in mk_record now name req.

(** A sequence of [trackToolCall] invocations, oldest first. *)
Definition trackToolCalls (cs : list call) (a : AnalyticsData) : AnalyticsData :=
  fold_left (fun acc c => let '(now, name, req) := c in
                          trackToolCall now name req acc) cs a.

(** The two merge loops of the import handler:
    [for (const [k, count] of Object.entries(delta)) m[k] = (m[k] || 0) + count],
    on tables of own integer counts ([Plain.merge] is the loop over the
    entries of any JSON value, in their order). *)
Definition merge_counts (delta : gmap string Z) (m : gmap string Z)
  : gmap string Z :=
  map_fold (fun k count acc => Js.bump k count acc) m delta.

(** [if (n) total += n], for an integer [n] and an integer total, exact
    while the sum is an integer a JS number holds exactly
    ([Plain.add_if_truthy] is the update on any JSON value). *)
Definition add_if_truthy (n : option Z) (total : Z) : Z :=
  if Js.truthy_num n then total + default 0 n else total.

(** [if (delta) merge], for a table that may be missing from the body. *)
Definition merge_if_present (delta : option (gmap string Z)) (m : gmap string Z)
  : gmap string Z :=
  match delta with
  | Some d => merge_counts d m
  | None => m
  end.

(** The updates made to [analytics] by the body of
    [app.post('/analytics/import')], before [saveAnalytics()]. *)
Definition importAnalytics (importData : PartialAnalytics) (a : AnalyticsData)
  : AnalyticsData := {|
  serverStartTime := serverStartTime a;
  totalRequests := add_if_truthy (p_totalRequests importData) (totalRequests a);
  totalToolCalls := add_if_truthy (p_totalToolCalls importData) (totalToolCalls a);
  requestsByMethod :=
    merge_if_present (p_requestsByMethod importData) (requestsByMethod a);
  requestsByEndpoint := requestsByEndpoint a;
  toolCalls := merge_if_present (p_toolCalls importData) (toolCalls a);
  recentToolCalls := recentToolCalls a;
  clientsByIp := clientsByIp a;
  clientsByUserAgent := clientsByUserAgent a;
  hourlyRequests := hourlyRequests a;
  lastUpdated := lastUpdated a;
|}.

(** The JSON read-out of [GET /analytics], seen as an import body: every
    field of the aggregator is present. *)
Definition snapshot (a : AnalyticsData) : PartialAnalytics := {|
  p_serverStartTime := Some (serverStartTime a);
  p_totalRequests := Some (totalRequests a);
  p_totalToolCalls := Some (totalToolCalls a);
  p_requestsByMethod := Some (requestsByMethod a);
  p_requestsByEndpoint := Some (requestsByEndpoint a);
  p_toolCalls := Some (toolCalls a);
  p_recentToolCalls := Some (recentToolCalls a);
  p_clientsByIp := Some (clientsByIp a);
  p_clientsByUserAgent := Some (clientsByUserAgent a);
  p_hourlyRequests := Some (hourlyRequests a);
  p_lastUpdated := lastUpdated a;
|}.

End Analytics.

(** ** Remote persistence ([src/firebase-analytics.ts]) *)

Module Firebase.
Import Analytics.

(** [sanitizeKey]: six global replacements, in the order of the source. *)
Definition sanitizeKey (key : string) : string :=
  Js.replace_all "/" "_slash_"
    (Js.replace_all "]" "_rb_"
      (Js.replace_all "[" "_lb_"
        (Js.replace_all "#" "_hash_"
          (Js.replace_all "$" "_dollar_"
            (Js.replace_all "." "_dot_" key))))).

(** The loop of [sanitizeObjectKeys] over a list of entries: each entry is
    stored under its sanitized key, a later entry overwriting an earlier
    one with the same sanitized key. *)
Definition sanitize_entries (entries : list (string * Z)) : gmap string Z :=
  fold_left (fun acc kv => <[sanitizeKey (fst kv) := snd kv]> acc) entries ∅.

(** [sanitizeObjectKeys] on a counter table. The values are numbers, so
    the branch that recurses into nested objects is never taken. A table
    does not carry the order in which its keys were inserted, which
    [Object.entries] follows: the entries are visited here in the order of
    [map_to_list], [sanitize_entries] is the loop for any order, and what is
    stated about the written tables is stated for every order. *)
Definition sanitizeObjectKeys (obj : gmap string Z) : gmap string Z :=
  sanitize_entries (map_to_list obj).

(** Module state: [firebaseEnabled] and whether [analyticsRef] is set. *)
Record State : Type := {
  firebaseEnabled : bool;
  analyticsRef : bool;
}.

(** A JSON value found where a snapshot is expected. *)
Inductive JsonDoc : Type :=
| DocNull
| DocOther (truthy : bool)
| DocObject (p : PartialAnalytics).

Definition doc_truthy (d : JsonDoc) : bool :=
  match d with
  | DocNull => false
  | DocOther t => t
  | DocObject _ => true
  end.

(** Outcome of [analyticsRef.once('value')] followed by [snapshot.val()]. *)
Inductive RemoteRead : Type :=
| ReadFails
| ReadValue (d : JsonDoc).


(** The module state before [initializeFirebase] runs. *)
Definition initial : State := {| firebaseEnabled := false; analyticsRef := false |}.


(** [loadFromFirebase]: the stored document, or [None] for [null]. *)
Definition loadFromFirebase (fb : State) (rd : RemoteRead) : option JsonDoc :=
  if (negb (firebaseEnabled fb) || negb (analyticsRef fb))%bool then None
  else
    match rd with
    | ReadFails => None
    | ReadValue d => if doc_truthy d then Some d else None
    end.

(** The object [sanitizedData] built by [saveToFirebase]; [now] is
    [Date.now()]. *)
Definition sanitizedData (now : Z) (a : AnalyticsData) : AnalyticsData := {|
  serverStartTime := serverStartTime a;
  totalRequests := totalRequests a;
  totalToolCalls := totalToolCalls a;
  requestsByMethod := sanitizeObjectKeys (requestsByMethod a);
  requestsByEndpoint := sanitizeObjectKeys (requestsByEndpoint a);
  toolCalls := sanitizeObjectKeys (toolCalls a);
  recentToolCalls := recentToolCalls a;
  clientsByIp := sanitizeObjectKeys (clientsByIp a);
  clientsByUserAgent := sanitizeObjectKeys (clientsByUserAgent a);
  hourlyRequests := sanitizeObjectKeys (hourlyRequests a);
  lastUpdated := Some now;
|}.

(** [saveToFirebase]: the payload handed to [analyticsRef.set], if any, and
    the boolean result; [setOk] says whether [set] resolves. *)
Definition saveToFirebase (fb : State) (setOk : bool) (now : Z)
    (a : AnalyticsData) : option AnalyticsData * bool :=
  if (negb (firebaseEnabled fb) || negb (analyticsRef fb))%bool then (None, false)
  else (Some (sanitizedData now a), setOk).

(** The six characters that the remote store refuses in a key. *)
Definition forbidden : list ascii := ["."; "$"; "#"; "["; "]"; "/"]%char.

(** Specification side, for comparison with [sanitizeKey]: the token that
    stands for one character, every character outside the six standing for
    itself. *)
Definition escape_char (c : ascii) : string :=
  if Ascii.eqb c "." then "_dot_"
  else if Ascii.eqb c "$" then "_dollar_"
  else if Ascii.eqb c "#" then "_hash_"
  else if Ascii.eqb c "[" then "_lb_"
  else if Ascii.eqb c "]" then "_rb_"
  else if Ascii.eqb c "/" then "_slash_"
  else String c EmptyString.

(** Specification side: a single pass over the key that replaces each
    character on its own. *)
Fixpoint escape (s : string) : string :=
  match s with
  | EmptyString => EmptyString
  | String c r => escape_char c +:+ escape r
  end.

(** Specification side: [c] occurs in [s]. *)
Fixpoint occurs (c : ascii) (s : string) : bool :=
  match s with
  | EmptyString => false
  | String a r => (Ascii.eqb a c || occurs c r)%bool
  end.

(** Specification side: no forbidden character occurs in [s]. *)
Definition clean (s : string) : bool :=
  forallb (fun c => negb (occurs c s)) forbidden.

(** Specification side: every key of the table [m] is free of the
    forbidden characters. *)
Definition keys_clean (m : gmap string Z) : Prop :=
  forall k, is_Some (m !! k) -> clean k = true.

(** Specification side: [out] is the table [t] under sanitized keys. Every
    entry of [out] is the count of some key of [t], under that key's
    sanitized name; every key of [t] has its sanitized name in [out], and
    keeps its count there when no other key of [t] has the same sanitized
    name; no key of [out] holds a forbidden character. The name [__proto__]
    is left out of the second part: an assignment to it on a plain object
    stores nothing. *)
Definition sanitized_image (t out : gmap string Z) : Prop :=
  (forall k' v, out !! k' = Some v ->
                exists k, t !! k = Some v /\ sanitizeKey k = k')
  /\ (forall k v, t !! k = Some v -> sanitizeKey k <> "__proto__" ->
                  is_Some (out !! sanitizeKey k)
                  /\ ((forall k2, is_Some (t !! k2) ->
                                  sanitizeKey k2 = sanitizeKey k -> k2 = k) ->
                      out !! sanitizeKey k = Some v))
  /\ keys_clean out.

(** Specification side: the six counter tables of an aggregator, which
    [saveToFirebase] sanitizes. *)
Definition tables (a : AnalyticsData) : list (gmap string Z) :=
  [requestsByMethod a; requestsByEndpoint a; toolCalls a; clientsByIp a;
   clientsByUserAgent a; hourlyRequests a].

End Firebase.

(** ** Tool dispatch *)

Module Tools.
Import Js.

(** One upstream HTTP GET: [axios.get(url, { params, headers })]. A
    parameter whose value is [undefined] is written [None]. *)
Record UpstreamRequest : Type := {
  url : string;
  params : list (string * option string);
  accountKey : string;
}.

(** What [await axios.get(...)] does: it resolves with a body (given here
    as the text [JSON.stringify(response.data, null, 2)]), rejects with an
    axios error (carrying [error.response?.data?.Message], if any, and
    [error.message]), or rejects with something that is not an axios
    error. *)
Inductive UpstreamAnswer : Type :=
| Resolved (text : string)
| AxiosError (responseMessage : option string) (message : string)
| OtherError (e : string).

Definition Upstream : Type := UpstreamRequest -> UpstreamAnswer.

(** The result envelope: the text parts of [content] and [isError], which
    is absent on success. *)
Record ToolResult : Type := {
  content : list string;
  isError : option bool;
}.

(** What a handler can throw. *)
Inductive Fault : Type :=
| UnknownToolError (message : string)
| McpMethodNotFound (message : string)
| TypeError
| Rethrown (e : string).

(** The [arguments] object of a call; [None] when the request has none. *)
Definition Args : Type := option (gmap string string).

(** A handler's run: the upstream requests it made, and how it ended. *)
Definition Run : Type := (list UpstreamRequest * completion Fault ToolResult)%type.

(** [a ?? b]. *)
Definition nullish (a : option string) (b : string) : string :=
  match a with
  | Some s => s
  | None => b
  end.

(** The mapping of an upstream answer made by the [try]/[catch] around
    [axios.get]. *)
Definition map_answer (ans : UpstreamAnswer) : completion Fault ToolResult :=
  match ans with
  | Resolved text => Normal {| content := [text]; isError := None |}
  | AxiosError m message =>
      Normal {| content := ["LTA API error: " +:+ nullish m message];
                isError := Some true |}
  | OtherError e => Throw (Rethrown e)
  end.

(** [makeRequest] of [registerTools] in [http-server.ts]. *)
Definition makeRequest (up : Upstream) (ltaApiKey : string) (u : string)
    (ps : list (string * option string)) : Run :=
  let rq := {| url := u; params := ps; accountKey := ltaApiKey |} in
  ([rq], map_answer (up rq)).

(** [...(serviceNo && { ServiceNo: serviceNo })]. *)
Definition spread_serviceNo (serviceNo : option string)
  : list (string * option string) :=
  match serviceNo with
  | Some s => if truthy s then [("ServiceNo", Some s)] else []
  | None => []
  end.

(** [const { ... } = args]: destructuring [undefined] throws. *)
Definition destructure (args : Args) (k : gmap string string -> Run) : Run :=
  match args with
  | Some o => k o
  | None => ([], Throw TypeError)
  end.

Definition base : string := "https://datamall2.mytransport.sg/ltaodataservice/".

(** The tool names advertised by the [ListToolsRequestSchema] handler, in
    order. *)
Definition tool_names : list string :=
  ["bus_arrival"; "station_crowding"; "train_alerts"; "carpark_availability";
   "travel_times"; "traffic_incidents"; "station_crowd_forecast"].

(** The values of the [enum] of [trainLine] in the advertised schema. *)
Definition train_lines : list string :=
  ["CCL"; "CEL"; "CGL"; "DTL"; "EWL"; "NEL"; "NSL"; "BPL"; "SLRT"; "PLRT"; "TEL"].

(** The [CallToolRequestSchema] handler of [http-server.ts]. *)
Definition callTool (up : Upstream) (ltaApiKey : string) (name : string)
    (args : Args) : Run :=
  if String.eqb name "bus_arrival" then
    destructure args (fun o =>
      makeRequest up ltaApiKey (base +:+ "v3/BusArrival")
        (("BusStopCode", o !! "busStopCode") :: spread_serviceNo (o !! "serviceNo")))
  else if String.eqb name "station_crowding" then
    destructure args (fun o =>
      makeRequest up ltaApiKey (base +:+ "PCDRealTime")
        [("TrainLine", o !! "trainLine")])
  else if String.eqb name "train_alerts" then
    makeRequest up ltaApiKey (base +:+ "TrainServiceAlerts") []
  else if String.eqb name "carpark_availability" then
    makeRequest up ltaApiKey (base +:+ "CarParkAvailabilityv2") []
  else if String.eqb name "travel_times" then
    makeRequest up ltaApiKey (base +:+ "EstTravelTimes") []
  else if String.eqb name "traffic_incidents" then
    makeRequest up ltaApiKey (base +:+ "TrafficIncidents") []
  else if String.eqb name "station_crowd_forecast" then
    destructure args (fun o =>
      makeRequest up ltaApiKey (base +:+ "PCDForecast")
        [("TrainLine", o !! "trainLine")])
  else ([], Throw (UnknownToolError ("Unknown tool: " +:+ name))).

End Tools.

(** ** The stdio entry point *)

Module Stdio.
Import Js Tools.

(** The [try { axios.get } catch] block that every case of the stdio
    handler repeats. *)
Definition get (up : Upstream) (ltaApiKey : string) (u : string)
    (ps : list (string * option string)) : Run :=
  let rq := {| url := u; params := ps; accountKey := ltaApiKey |} in
  ([rq],
   match up rq with
   | Resolved text => Normal {| content := [text]; isError := None |}
   | AxiosError m message =>
       Normal {| content := ["LTA API error: " +:+ nullish m message];
                 isError := Some true |}
   | OtherError e => Throw (Rethrown e)
   end).

(** The [CallToolRequestSchema] handler of [createServer]. *)
Definition callTool (up : Upstream) (ltaApiKey : string) (name : string)
    (args : Args) : Run :=
  if String.eqb name "bus_arrival" then
    destructure args (fun o =>
      get up ltaApiKey (base +:+ "v3/BusArrival")
        (("BusStopCode", o !! "busStopCode") :: spread_serviceNo (o !! "serviceNo")))
  else if String.eqb name "station_crowding" then
    destructure args (fun o =>
      get up ltaApiKey (base +:+ "PCDRealTime") [("TrainLine", o !! "trainLine")])
  else if String.eqb name "train_alerts" then
    get up ltaApiKey (base +:+ "TrainServiceAlerts") []
  else if String.eqb name "carpark_availability" then
    get up ltaApiKey (base +:+ "CarParkAvailabilityv2") []
  else if String.eqb name "travel_times" then
    get up ltaApiKey (base +:+ "EstTravelTimes") []
  else if String.eqb name "traffic_incidents" then
    get up ltaApiKey (base +:+ "TrafficIncidents") []
  else if String.eqb name "station_crowd_forecast" then
    destructure args (fun o =>
      get up ltaApiKey (base +:+ "PCDForecast") [("TrainLine", o !! "trainLine")])
  else ([], Throw (McpMethodNotFound ("Unknown tool: " +:+ name))).

(** [createServer]: the key comes from the environment and its absence is
    an error. *)
Definition createServer (envKey : option string)
  : completion string string :=
  match envKey with
  | Some k => if truthy k then Normal k
              else Throw "LTA_API_KEY environment variable is required"
  | None => Throw "LTA_API_KEY environment variable is required"
  end.

End Stdio.

(** ** The HTTP server ([src/http-server.ts]) *)

Module Server.
Import Js Analytics Tools.

(** A live [StreamableHTTPServerTransport] together with what the closures
    attached to it captured when it was created: the key given to
    [registerTools], and the [sessionId] read from the creating request,
    which [transport.onclose] uses. *)
Record Transport : Type := {
  boundKey : string;
  creatorSession : option string;
}.

(** The mutable state of the process: the module variables [analytics] and
    [transports], the state of the Firebase module, and the documents last
    written to the local file and to the remote store. *)
Record State : Type := {
  analytics : AnalyticsData;
  transports : gmap string Transport;
  firebase : Firebase.State;
  localFile : option AnalyticsData;
  remoteDoc : option AnalyticsData;
}.

Definition set_analytics (a : AnalyticsData) (st : State) : State :=
  {| analytics := a; transports := transports st; firebase := firebase st;
     localFile := localFile st; remoteDoc := remoteDoc st |}.

Definition set_transports (ts : gmap string Transport) (st : State) : State :=
  {| analytics := analytics st; transports := ts; firebase := firebase st;
     localFile := localFile st; remoteDoc := remoteDoc st |}.

(** [getApiKey]; [DEFAULT_LTA_API_KEY] is [process.env.LTA_API_KEY || '']. *)
Definition getApiKey (DEFAULT_LTA_API_KEY : string) (req : Request) : string :=
  or_str (query_apiKey req) DEFAULT_LTA_API_KEY.

(** What the SDK transport does with a request, as far as this server can
    observe it: the callbacks and handlers it invokes, in order. *)
Inductive SdkEvent : Type :=
| SessionInitialized (id : string)
| CallToolRequest (name : string) (args : Args)
| ListToolsRequest
| Closed.

(** [transport.onclose]: [if (sessionId) transports.delete(sessionId)],
    where [sessionId] is the header of the request that created the
    transport. *)
Definition onclose (t : Transport) (ts : gmap string Transport)
  : gmap string Transport :=
  match creatorSession t with
  | Some sid => if truthy sid then delete sid ts else ts
  | None => ts
  end.

(** What handling a request has produced so far. *)
Record Handling : Type := {
  state : State;
  upstream_log : list UpstreamRequest;
  results : list (completion Fault ToolResult);
}.

(** The effect of one callback of the transport [t]. *)
Definition sdk_step (up : Upstream) (t : Transport) (h : Handling)
    (ev : SdkEvent) : Handling :=
  match ev with
  | SessionInitialized id =>
      {| state := set_transports (<[id := t]> (transports (state h))) (state h);
         upstream_log := upstream_log h; results := results h |}
  | CallToolRequest name args =>
      let '(reqs, r) := callTool up (boundKey t) name args in
      {| state := state h;
         upstream_log := upstream_log h ++ reqs;
         results := results h ++ [r] |}
  | ListToolsRequest => h
  | Closed =>
      {| state := set_transports (onclose t (transports (state h))) (state h);
         upstream_log := upstream_log h; results := results h |}
  end.

(** [transport.handleRequest(req, res, req.body)]. *)
Definition handleRequest (up : Upstream) (t : Transport) (evs : list SdkEvent)
    (st : State) : Handling :=
  fold_left (sdk_step up t) evs
    {| state := st; upstream_log := []; results := [] |}.

(** The answer of an endpoint: a JSON error with its status, the reply of
    the transport, or the reply of the import endpoint. *)
Inductive Response : Type :=
| JsonError (status : nat) (error : string)
| TransportReply (rs : list (completion Fault ToolResult))
| ImportReply (totalRequests totalToolCalls : Z).

(** [sessionId && transports.has(sessionId)], then [transports.get]. *)
Definition find_session (req : Request) (ts : gmap string Transport)
  : option Transport :=
  match header_session req with
  | Some sid => if truthy sid then ts !! sid else None
  | None => None
  end.

Definition is_get_or_delete (m : string) : bool :=
  (String.eqb m "GET" || String.eqb m "DELETE")%bool.

(** [app.all('/mcp')]. [now] is the clock reading of [trackRequest], [up]
    the upstream API, [evs] what the SDK does with the request. *)
Definition mcp (DEFAULT_LTA_API_KEY : string) (now : string) (up : Upstream)
    (evs : list SdkEvent) (req : Request) (st : State)
  : State * Response * list UpstreamRequest :=
  let st1 := set_analytics (trackRequest now req "/mcp" (analytics st)) st in
  let ltaApiKey := getApiKey DEFAULT_LTA_API_KEY req in
  if negb (truthy ltaApiKey) then
    (st1, JsonError 500 "Server configuration error: No LTA API key available", [])
  else
    match find_session req (transports st1) with
    | Some t =>
        let h := handleRequest up t evs st1 in
        (state h, TransportReply (results h), upstream_log h)
    | None =>
        if is_get_or_delete (method req) then
          (st1, JsonError 400 "No active session. Send a POST request first.", [])
        else
          let t := {| boundKey := ltaApiKey;
                      creatorSession := header_session req |} in
          let h := handleRequest up t evs st1 in
          (state h, TransportReply (results h), upstream_log h)
    end.

(** The outside world at a save: whether [ensureDataDir] and
    [writeFileSync] succeed, whether the remote [set] resolves, and
    [Date.now()]. *)
Record SaveEnv : Type := {
  dirOk : bool;
  writeOk : bool;
  setOk : bool;
  nowMs : Z;
}.

(** [saveAnalytics]. *)
Definition saveAnalytics (env : SaveEnv) (st : State) : State :=
  if (dirOk env && writeOk env)%bool then
    let st1 := {| analytics := analytics st; transports := transports st;
                  firebase := firebase st;
                  localFile := Some (analytics st);
                  remoteDoc := remoteDoc st |} in
    match Firebase.saveToFirebase (firebase st) (setOk env) (nowMs env)
            (analytics st) with
    | (Some doc, true) =>
        {| analytics := analytics st1; transports := transports st1;
           firebase := firebase st1; localFile := localFile st1;
           remoteDoc := Some doc |}
    | _ => st1
    end
  else st.

(** [app.post('/analytics/import')]; [None] is a request without a body,
    on which the first property access throws. *)
Definition analytics_import (env : SaveEnv) (body : option PartialAnalytics)
    (st : State) : State * Response :=
  match body with
  | None => (st, JsonError 400 "Failed to import analytics")
  | Some importData =>
      let st1 := set_analytics (importAnalytics importData (analytics st)) st in
      let st2 := saveAnalytics env st1 in
      (st2, ImportReply (totalRequests (analytics st2))
                        (totalToolCalls (analytics st2)))
  end.

(** What [readFileSync] and [JSON.parse] find at [ANALYTICS_FILE]. *)
Inductive FileRead : Type :=
| FileAbsent
| FileUnreadable
| FileText (parsed : option Firebase.JsonDoc).

(** The outside world at startup. *)
Record LoadEnv : Type := {
  remoteRead : Firebase.RemoteRead;
  loadDirOk : bool;
  fileRead : FileRead;
  loadNow : string;
}.

(** A document with no field of a snapshot. *)
Definition no_fields : PartialAnalytics := {|
  p_serverStartTime := None; p_totalRequests := None;
  p_totalToolCalls := None; p_requestsByMethod := None;
  p_requestsByEndpoint := None; p_toolCalls := None;
  p_recentToolCalls := None; p_clientsByIp := None;
  p_clientsByUserAgent := None; p_hourlyRequests := None;
  p_lastUpdated := None;
|}.

(** [ensureAnalyticsStructure] applied to a parsed document: reading a
    property of [null] throws, any other value that is not an object has
    no property. *)
Definition ensure_doc (now : string) (d : Firebase.JsonDoc)
  : completion Fault AnalyticsData :=
  match d with
  | Firebase.DocNull => Throw TypeError
  | Firebase.DocOther _ => Normal (ensureAnalyticsStructure now no_fields)
  | Firebase.DocObject p => Normal (ensureAnalyticsStructure now p)
  end.

(** The [try] block of [loadAnalytics]: the new value of [analytics]. *)
Definition loadAnalytics_body (env : LoadEnv) (st : State)
  : completion Fault AnalyticsData :=
  match Firebase.loadFromFirebase (firebase st) (remoteRead env) with
  | Some firebaseData => ensure_doc (loadNow env) firebaseData
  | None =>
      if loadDirOk env then
        match fileRead env with
        | FileAbsent => Normal (analytics st)
        | FileUnreadable => Throw (Rethrown "readFileSync")
        | FileText None => Throw (Rethrown "JSON.parse")
        | FileText (Some loaded) => ensure_doc (loadNow env) loaded
        end
      else Throw (Rethrown "mkdirSync")
  end.

(** [loadAnalytics]: the [catch] logs the error and returns. *)
Definition loadAnalytics (env : LoadEnv) (st : State) : completion Fault State :=
  try_catch
    (match loadAnalytics_body env st with
     | Normal a => Normal (set_analytics a st)
     | Throw e => Throw e
     end)
    (fun _ => Normal st).





End Server.

(** ** Concrete inputs used by the examples *)

Module Scenario.
Import Analytics Tools.

(** An aggregator that has counted one request to [/mcp]. *)
Definition one_request : AnalyticsData := {|
  serverStartTime := "2025-01-01T00:00:00.000Z";
  totalRequests := 1;
  totalToolCalls := 0;
  requestsByMethod := {[ "POST" := 1 ]};
  requestsByEndpoint := {[ "/mcp" := 1 ]};
  toolCalls := ∅;
  recentToolCalls := [];
  clientsByIp := {[ "10.0.0.1" := 1 ]};
  clientsByUserAgent := {[ "curl" := 1 ]};
  hourlyRequests := {[ "2025-01-01T00" := 1 ]};
  lastUpdated := None;
|}.

(** An upstream that answers every request with HTTP 200. *)
Definition upstream_ok : Upstream := fun _ => Resolved "{ Services: [] }".

(** An upstream that answers every request with HTTP 401 and a message. *)
Definition upstream_401 : Upstream :=
  fun _ => AxiosError (Some "Invalid AccountKey")
                      "Request failed with status code 401".

(** A request on [/mcp] with the given verb, key and session header. *)
Definition request (verb : string) (key session : option string) : Request := {|
  method := verb;
  query_apiKey := key;
  header_session := session;
  header_forwarded := None;
  header_userAgent := Some "curl";
  ip := Some "10.0.0.1";
|}.

(** A server with one live session [s1], created with the key [key-A]. *)
Definition live : Server.State := {|
  Server.analytics := Analytics.initial "2025-01-01T00:00:00.000Z";
  Server.transports :=
    {[ "s1" := {| Server.boundKey := "key-A"; Server.creatorSession := None |} ]};
  Server.firebase := Firebase.initial;
  Server.localFile := None;
  Server.remoteDoc := None;
|}.


Definition now : string := "2025-01-01T10:00:00.000Z".

(** One [trackToolCall] invocation, numbered by its clock reading. *)
Definition nth_call (n : nat) : call :=
  (String (ascii_of_nat (48 + n mod 10)) EmptyString, "bus_arrival",
   request "POST" None (Some "s1")).

End Scenario.

(** ** Uptime ([getUptime] of [src/http-server.ts]) *)

Module Uptime.

Definition MS_PER_MINUTE : Z := 1000 * 60.
Definition MS_PER_HOUR : Z := 1000 * 60 * 60.
Definition MS_PER_DAY : Z := 1000 * 60 * 60 * 24.

(** The three numbers computed from [diff = now - start]. [Math.floor] of a
    quotient by a positive number is [Z.div]; [%] takes the sign of the
    dividend, as [Z.rem] does. *)
Definition parts (diff : Z) : Z * Z * Z :=
  (diff / MS_PER_DAY,
   Z.rem diff MS_PER_DAY / MS_PER_HOUR,
   Z.rem diff MS_PER_HOUR / MS_PER_MINUTE).

(** The text returned for the three numbers. *)
Definition render (p : Z * Z * Z) : string :=
  let '(days, hours, minutes) := p in
  if Z.ltb 0 days then
    pretty days +:+ "d " +:+ pretty hours +:+ "h " +:+ pretty minutes +:+ "m"
  else if Z.ltb 0 hours then
    pretty hours +:+ "h " +:+ pretty minutes +:+ "m"
  else pretty minutes +:+ "m".

(** [getUptime]. [start] is [new Date(analytics.serverStartTime).getTime()],
    [None] when the stored text is no date (the JS value is then [NaN], every
    comparison with it is false and it prints as [NaN]); [now] is
    [Date.now()]. *)
Definition getUptime (start : option Z) (now : Z) : string :=
  match start with
  | Some s => render (parts (now - s))
  | None => "NaNm"
  end.

End Uptime.

(** ** The other endpoints of the HTTP server *)

Module Http.
Import Analytics Tools Server.

(** [app.get('/')]: [trackRequest(req, '/')], then a fixed document. *)
Definition root (now : string) (req : Request) (st : State) : State :=
  set_analytics (trackRequest now req "/" (analytics st)) st.

(** The [tools] array of the document served at [/]. *)
Definition root_tools : list string :=
  ["bus_arrival"; "station_crowding"; "train_alerts"; "carpark_availability";
   "travel_times"; "traffic_incidents"; "station_crowd_forecast"].

(** [app.get('/health')]: [trackRequest(req, '/health')], then a status
    document. *)
Definition health (now : string) (req : Request) (st : State) : State :=
  set_analytics (trackRequest now req "/health" (analytics st)) st.

(** Specification side: the close handler of the transport deletes nothing,
    because the request that created it carried no session id. *)
Definition closes_nothing (t : Transport) : bool :=
  match creatorSession t with
  | Some sid => negb (Js.truthy sid)
  | None => true
  end.

(** Specification side: the request carries no session id. *)
Definition no_session_header (req : Request) : bool :=
  match header_session req with
  | Some sid => negb (Js.truthy sid)
  | None => true
  end.

(** Specification side: no transport of the mapping deletes anything when
    it closes. *)
Definition inert (ts : gmap string Transport) : Prop :=
  forall k t, ts !! k = Some t -> closes_nothing t = true.

End Http.

(** ** Sequences of aggregator updates *)

Module Trace.
Import Analytics.

(** One update of the aggregator. *)
Inductive Event : Type :=
| Requested (now : string) (req : Request) (endpoint : string)
| ToolCalled (now : string) (toolName : string) (req : Request).

Definition step (e : Event) (a : AnalyticsData) : AnalyticsData :=
  match e with
  | Requested now req endpoint => trackRequest now req endpoint a
  | ToolCalled now toolName req => trackToolCall now toolName req a
  end.

(** A sequence of updates, oldest first. *)
Definition run (es : list Event) (a : AnalyticsData) : AnalyticsData :=
  fold_left (fun acc e => step e acc) es a.

(** Specification side: the sum of the counts of a table. *)
Definition sum_values (m : gmap string Z) : Z :=
  map_fold (fun _ v acc => v + acc) 0 m.

(** Specification side: every request table sums to [totalRequests] and the
    tool table sums to [totalToolCalls]. *)
Definition balanced (a : AnalyticsData) : Prop :=
  sum_values (requestsByMethod a) = totalRequests a
  /\ sum_values (requestsByEndpoint a) = totalRequests a
  /\ sum_values (clientsByIp a) = totalRequests a
  /\ sum_values (clientsByUserAgent a) = totalRequests a
  /\ sum_values (hourlyRequests a) = totalRequests a
  /\ sum_values (toolCalls a) = totalToolCalls a.

(** Specification side: how many invocations of [cs] name the tool. *)
Definition calls_of (name : string) (cs : list call) : nat :=
  count_occ string_dec (map (fun c => snd (fst c)) cs) name.

End Trace.

(** ** Text predicates used to state properties *)

Module Text.

(** Specification side: the first and the last character of a text. *)
Definition first_char (s : string) : option ascii :=
  match s with
  | EmptyString => None
  | String c _ => Some c
  end.

Fixpoint last_char (s : string) : option ascii :=
  match s with
  | EmptyString => None
  | String c r =>
      match last_char r with
      | Some x => Some x
      | None => Some c
      end
  end.

(** Specification side: the text starts or ends with white space. *)
Definition padded (s : string) : bool :=
  (match first_char s with Some c => Js.is_space c | None => false end
   || match last_char s with Some c => Js.is_space c | None => false end)%bool.

(** Specification side: what a record of the history must satisfy. *)
Definition well_formed_record (r : Analytics.ToolCallRecord) : Prop :=
  Analytics.clientIp r <> EmptyString
  /\ Analytics.userAgent r <> EmptyString
  /\ (String.length (Analytics.userAgent r) <= 50)%nat.

End Text.

(** ** Counter updates on plain objects and JSON values

    The tables of [analytics] are plain objects and the body of an import
    is any JSON document. This module gives the same updates as module
    [Analytics] without assuming integer counts on own keys: a slot may hold
    a string, a key may name a property inherited from [Object.prototype],
    and a sum may leave the integers that a JS number holds exactly. Where
    the outcome depends on what is not tracked (the characters of such a
    string, the rounding of an inexact sum, a conversion that may throw) the
    update is [None]. *)

Module Plain.
Import Analytics.

(** The property names that every plain object inherits from
    [Object.prototype] in Node. *)
Definition inherited_names : list string :=
  ["constructor"; "__defineGetter__"; "__defineSetter__"; "hasOwnProperty";
   "__lookupGetter__"; "__lookupSetter__"; "isPrototypeOf";
   "propertyIsEnumerable"; "toString"; "valueOf"; "__proto__"; "toLocaleString"].

Definition inherited (k : string) : bool :=
  existsb (String.eqb k) inherited_names.

(** The integers that a JS number holds exactly and whose sums are exact. *)
Definition MAX_EXACT : Z := 9007199254740992.

Definition exact (n : Z) : bool :=
  (Z.leb (- MAX_EXACT) n && Z.leb n MAX_EXACT)%bool.

(** What a counter slot holds: an exact integer, or a string. A string gets
    there only as the result of [+] with an operand that is no number, so it
    is never empty; its characters are not tracked. *)
Inductive slot : Type :=
| Count (n : Z)
| Text.

(** A JSON value met where a count is expected. [JOther] stands for every
    other value: a number that is no exact integer, an array or an object;
    all of them are truthy. *)
Inductive json : Type :=
| JInt (n : Z)
| JString (s : string)
| JBool (b : bool)
| JNull
| JOther.

(** The value of [m[k] || 0]: a number, a string, or an object or function
    found on the prototype. *)
Inductive operand : Type :=
| ONum (n : Z)
| OText
| OObject.

Definition read_or_zero (m : gmap string slot) (k : string) : operand :=
  match m !! k with
  | Some (Count n) => ONum n
  | Some Text => OText
  | None => if inherited k then OObject else ONum 0
  end.

(** A sum of integers, when the JS number is that integer. *)
Definition number (n : Z) : option slot :=
  if exact n then Some (Count n) else None.

(** [l + r]: numbers add, [true] counts as 1, [false] and [null] as 0, and
    anything added to or with a string, a function or an object is a
    string. *)
Definition plus (l : operand) (r : json) : option slot :=
  match l, r with
  | _, JOther => None
  | ONum a, JInt b => if (exact a && exact b)%bool then number (a + b) else None
  | ONum a, JBool b => if exact a then number (a + (if b then 1 else 0)) else None
  | ONum a, JNull => number a
  | ONum _, JString _ => Some Text
  | OText, _ => Some Text
  | OObject, _ => Some Text
  end.

(** [m[k] = v]: an assignment to [__proto__] that is not an own property
    goes to the setter of the prototype, which ignores a number or a
    string. *)
Definition store (k : string) (v : slot) (m : gmap string slot)
  : gmap string slot :=
  match m !! k with
  | None => if String.eqb k "__proto__" then m else <[k := v]> m
  | Some _ => <[k := v]> m
  end.

(** [m[k] = (m[k] || 0) + r]. *)
Definition bump (k : string) (r : json) (m : gmap string slot)
  : option (gmap string slot) :=
  match plus (read_or_zero m k) r with
  | Some v => Some (store k v m)
  | None => None
  end.

(** [total++]: a string would first be converted to a number. *)
Definition incr (total : slot) : option slot :=
  match total with
  | Count n => if exact n then number (n + 1) else None
  | Text => None
  end.

Definition operand_of (s : slot) : operand :=
  match s with
  | Count n => ONum n
  | Text => OText
  end.

(** Truthiness of a JSON value. *)
Definition truthy (r : json) : bool :=
  match r with
  | JInt n => negb (Z.eqb n 0)
  | JString s => Js.truthy s
  | JBool b => b
  | JNull => false
  | JOther => true
  end.

(** [if (r) total += r], where [r] may be missing. *)
Definition add_if_truthy (r : option json) (total : slot) : option slot :=
  match r with
  | Some v => if truthy v then plus (operand_of total) v else Some total
  | None => Some total
  end.

(** [for (const [k, count] of entries) m[k] = (m[k] || 0) + count]. *)
Fixpoint merge (entries : list (string * json)) (m : gmap string slot)
  : option (gmap string slot) :=
  match entries with
  | [] => Some m
  | (k, count) :: rest =>
      match bump k count m with
      | Some m' => merge rest m'
      | None => None
      end
  end.

(** [if (table) merge], where [table] is the list [Object.entries] gives
    for a truthy value and [None] stands for a missing or falsy one. *)
Definition merge_if_present (table : option (list (string * json)))
    (m : gmap string slot) : option (gmap string slot) :=
  match table with
  | Some entries => merge entries m
  | None => Some m
  end.

(** The aggregator as the objects it is made of. *)
Record Data : Type := {
  serverStartTime : string;
  totalRequests : slot;
  totalToolCalls : slot;
  requestsByMethod : gmap string slot;
  requestsByEndpoint : gmap string slot;
  toolCalls : gmap string slot;
  recentToolCalls : list ToolCallRecord;
  clientsByIp : gmap string slot;
  clientsByUserAgent : gmap string slot;
  hourlyRequests : gmap string slot;
  lastUpdated : option Z;
}.

(** The four fields of an import body that the handler reads. *)
Record Body : Type := {
  b_totalRequests : option json;
  b_totalToolCalls : option json;
  b_toolCalls : option (list (string * json));
  b_requestsByMethod : option (list (string * json));
}.

(** [trackRequest], in the order of its statements. *)
Definition trackRequest (now : string) (req : Request) (endpoint : string)
    (d : Data) : option Data :=
  match incr (totalRequests d) with
  | None => None
  | Some total =>
  match bump (method req) (JInt 1) (requestsByMethod d) with
  | None => None
  | Some byMethod =>
  match bump endpoint (JInt 1) (requestsByEndpoint d) with
  | None => None
  | Some byEndpoint =>
  match bump (client_ip req) (JInt 1) (clientsByIp d) with
  | None => None
  | Some byIp =>
  match bump (user_agent req) (JInt 1) (clientsByUserAgent d) with
  | None => None
  | Some byAgent =>
  match bump (Js.prefix 13 now) (JInt 1) (hourlyRequests d) with
  | None => None
  | Some hourly =>
      Some {| serverStartTime := serverStartTime d;
              totalRequests := total;
              totalToolCalls := totalToolCalls d;
              requestsByMethod := byMethod;
              requestsByEndpoint := byEndpoint;
              toolCalls := toolCalls d;
              recentToolCalls := recentToolCalls d;
              clientsByIp := byIp;
              clientsByUserAgent := byAgent;
              hourlyRequests := hourly;
              lastUpdated := lastUpdated d |}
  end end end end end end.

(** [trackToolCall]. *)
Definition trackToolCall (now : string) (toolName : string) (req : Request)
    (d : Data) : option Data :=
  match incr (totalToolCalls d) with
  | None => None
  | Some total =>
  match bump toolName (JInt 1) (toolCalls d) with
  | None => None
  | Some tools =>
      Some {| serverStartTime := serverStartTime d;
              totalRequests := totalRequests d;
              totalToolCalls := total;
              requestsByMethod := requestsByMethod d;
              requestsByEndpoint := requestsByEndpoint d;
              toolCalls := tools;
              recentToolCalls :=
                push_recent (mk_record now toolName req) (recentToolCalls d);
              clientsByIp := clientsByIp d;
              clientsByUserAgent := clientsByUserAgent d;
              hourlyRequests := hourlyRequests d;
              lastUpdated := lastUpdated d |}
  end end.

(** A sequence of [trackToolCall] invocations, oldest first. *)
Fixpoint trackToolCalls (cs : list call) (d : Data) : option Data :=
  match cs with
  | [] => Some d
  | (now, name, req) :: rest =>
      match trackToolCall now name req d with
      | Some d' => trackToolCalls rest d'
      | None => None
      end
  end.

(** The updates of the body of [app.post('/analytics/import')], in the
    order of its statements. *)
Definition importAnalytics (b : Body) (d : Data) : option Data :=
  match add_if_truthy (b_totalRequests b) (totalRequests d) with
  | None => None
  | Some requests =>
  match add_if_truthy (b_totalToolCalls b) (totalToolCalls d) with
  | None => None
  | Some calls =>
  match merge_if_present (b_toolCalls b) (toolCalls d) with
  | None => None
  | Some tools =>
  match merge_if_present (b_requestsByMethod b) (requestsByMethod d) with
  | None => None
  | Some byMethod =>
      Some {| serverStartTime := serverStartTime d;
              totalRequests := requests;
              totalToolCalls := calls;
              requestsByMethod := byMethod;
              requestsByEndpoint := requestsByEndpoint d;
              toolCalls := tools;
              recentToolCalls := recentToolCalls d;
              clientsByIp := clientsByIp d;
              clientsByUserAgent := clientsByUserAgent d;
              hourlyRequests := hourlyRequests d;
              lastUpdated := lastUpdated d |}
  end end end end.

(** An aggregator of integer counts, as the objects it is made of. *)
Definition lift (a : AnalyticsData) : Data := {|
  serverStartTime := Analytics.serverStartTime a;
  totalRequests := Count (Analytics.totalRequests a);
  totalToolCalls := Count (Analytics.totalToolCalls a);
  requestsByMethod := Count <$> Analytics.requestsByMethod a;
  requestsByEndpoint := Count <$> Analytics.requestsByEndpoint a;
  toolCalls := Count <$> Analytics.toolCalls a;
  recentToolCalls := Analytics.recentToolCalls a;
  clientsByIp := Count <$> Analytics.clientsByIp a;
  clientsByUserAgent := Count <$> Analytics.clientsByUserAgent a;
  hourlyRequests := Count <$> Analytics.hourlyRequests a;
  lastUpdated := Analytics.lastUpdated a;
|}.

(** Specification side: [es] lists the entries of the table [t], each key
    once, in some order. *)
Definition enumerates (es : list (string * Z)) (t : gmap string Z) : Prop :=
  NoDup es.*1 /\ forall k v, (k, v) ∈ es <-> t !! k = Some v.

Definition json_entries (es : list (string * Z)) : list (string * json) :=
  map (fun kv => (fst kv, JInt (snd kv))) es.

(** An import body of integer counts as the JSON document that carries it;
    [et] and [em] give the order of the entries of its two tables. *)
Definition json_of (d : PartialAnalytics) (et em : list (string * Z)) : Body := {|
  b_totalRequests := JInt <$> p_totalRequests d;
  b_totalToolCalls := JInt <$> p_totalToolCalls d;
  b_toolCalls := match p_toolCalls d with
                 | Some _ => Some (json_entries et)
                 | None => None
                 end;
  b_requestsByMethod := match p_requestsByMethod d with
                        | Some _ => Some (json_entries em)
                        | None => None
                        end;
|}.

(** Specification side: [et] and [em] list the entries of the two tables of
    the body. *)
Definition ordered (d : PartialAnalytics) (et em : list (string * Z)) : Prop :=
  (forall t, p_toolCalls d = Some t -> enumerates et t)
  /\ (forall t, p_requestsByMethod d = Some t -> enumerates em t).

(** Specification side: the key [k] of the table [m] is own, or names
    nothing that a plain object inherits. *)
Definition plain_key (m : gmap string Z) (k : string) : Prop :=
  is_Some (m !! k) \/ inherited k = false.

(** Specification side: adding [n] to [total] stays within the exact
    integers. *)
Definition fits_sum (total n : Z) : Prop :=
  exact total = true /\ exact n = true /\ exact (total + n) = true.

(** Specification side: adding [n] under the key [k] of [m] reads an own or
    missing slot and stays within the exact integers. *)
Definition fits (m : gmap string Z) (k : string) (n : Z) : Prop :=
  plain_key m k /\ fits_sum (default 0 (m !! k)) n.

(** Specification side: merging the table [t] into [m] does so for each of
    its entries. *)
Definition fits_table (t : option (gmap string Z)) (m : gmap string Z) : Prop :=
  forall t' k v, t = Some t' -> t' !! k = Some v -> fits m k v.

(** Specification side: the import of [d] into [a] stays on own or
    uninherited keys and within the exact integers. *)
Definition import_fits (d : PartialAnalytics) (a : AnalyticsData) : Prop :=
  fits_sum (Analytics.totalRequests a) (default 0 (p_totalRequests d))
  /\ fits_sum (Analytics.totalToolCalls a) (default 0 (p_totalToolCalls d))
  /\ fits_table (p_toolCalls d) (Analytics.toolCalls a)
  /\ fits_table (p_requestsByMethod d) (Analytics.requestsByMethod a).

(** Specification side: counting the request stays on own or uninherited
    keys and within the exact integers. *)
Definition request_fits (now : string) (req : Request) (endpoint : string)
    (a : AnalyticsData) : Prop :=
  fits_sum (Analytics.totalRequests a) 1
  /\ fits (Analytics.requestsByMethod a) (method req) 1
  /\ fits (Analytics.requestsByEndpoint a) endpoint 1
  /\ fits (Analytics.clientsByIp a) (client_ip req) 1
  /\ fits (Analytics.clientsByUserAgent a) (user_agent req) 1
  /\ fits (Analytics.hourlyRequests a) (Js.prefix 13 now) 1.

(** Specification side: counting the tool call stays on an own or
    uninherited key and within the exact integers. *)
Definition tool_call_fits (toolName : string) (a : AnalyticsData) : Prop :=
  fits_sum (Analytics.totalToolCalls a) 1
  /\ fits (Analytics.toolCalls a) toolName 1.

(** One update of the aggregator, and a sequence of updates, oldest
    first. *)
Definition step (e : Trace.Event) (d : Data) : option Data :=
  match e with
  | Trace.Requested now req endpoint => trackRequest now req endpoint d
  | Trace.ToolCalled now toolName req => trackToolCall now toolName req d
  end.

Fixpoint run (es : list Trace.Event) (d : Data) : option Data :=
  match es with
  | [] => Some d
  | e :: rest =>
      match step e d with
      | Some d' => run rest d'
      | None => None
      end
  end.

(** Specification side: every update of the sequence stays on own or
    uninherited keys and within the exact integers, one after the other. *)
Definition step_fits (e : Trace.Event) (a : AnalyticsData) : Prop :=
  match e with
  | Trace.Requested now req endpoint => request_fits now req endpoint a
  | Trace.ToolCalled _ toolName _ => tool_call_fits toolName a
  end.

Fixpoint within (es : list Trace.Event) (a : AnalyticsData) : Prop :=
  match es with
  | [] => True
  | e :: rest => step_fits e a /\ within rest (Trace.step e a)
  end.

(** Specification side: a count that is not negative and stays an exact
    integer when [n] is added to it. *)
Definition room (n : nat) (v : Z) : Prop :=
  0 <= v /\ v + Z.of_nat n <= MAX_EXACT.

Definition table_room (n : nat) (m : gmap string Z) : Prop :=
  forall k v, m !! k = Some v -> room n v.

(** Specification side: the keys that the update counts are own keys of
    the tables of [a] or names that a plain object does not inherit. *)
Definition keys_plain (e : Trace.Event) (a : AnalyticsData) : Prop :=
  match e with
  | Trace.Requested now req endpoint =>
      plain_key (Analytics.requestsByMethod a) (method req)
      /\ plain_key (Analytics.requestsByEndpoint a) endpoint
      /\ plain_key (Analytics.clientsByIp a) (client_ip req)
      /\ plain_key (Analytics.clientsByUserAgent a) (user_agent req)
      /\ plain_key (Analytics.hourlyRequests a) (Js.prefix 13 now)
  | Trace.ToolCalled _ toolName _ => plain_key (Analytics.toolCalls a) toolName
  end.

(** Specification side: the updates [es] count under such keys only, and
    start from counts that are not negative and leave room for one more per
    update. *)
Definition in_range (es : list Trace.Event) (a : AnalyticsData) : Prop :=
  (forall e, In e es -> keys_plain e a)
  /\ room (length es) (Analytics.totalRequests a)
  /\ room (length es) (Analytics.totalToolCalls a)
  /\ table_room (length es) (Analytics.requestsByMethod a)
  /\ table_room (length es) (Analytics.requestsByEndpoint a)
  /\ table_room (length es) (Analytics.toolCalls a)
  /\ table_room (length es) (Analytics.clientsByIp a)
  /\ table_room (length es) (Analytics.clientsByUserAgent a)
  /\ table_room (length es) (Analytics.hourlyRequests a).

(** An invocation of [trackToolCall] as an update. *)
Definition called (c : call) : Trace.Event :=
  let '(now, name, req) := c in Trace.ToolCalled now name req.

(** Specification side: importing [d1] and then [d2] stays on own or
    uninherited keys and within the exact integers at both steps. *)
Definition imports_fit (d1 d2 : PartialAnalytics) (a : AnalyticsData) : Prop :=
  import_fits d1 a /\ import_fits d2 (Analytics.importAnalytics d1 a).

(** A body without any of the four fields, and a body whose totals are
    zero and whose tables are empty. *)
Definition empty_body : Body :=
  {| b_totalRequests := None; b_totalToolCalls := None;
     b_toolCalls := None; b_requestsByMethod := None |}.

Definition zero_body : Body :=
  {| b_totalRequests := Some (JInt 0); b_totalToolCalls := Some (JInt 0);
     b_toolCalls := Some []; b_requestsByMethod := Some [] |}.

End Plain.
(** ** More concrete inputs *)

Module Samples.
Import Analytics.

(** A request that came through a proxy. *)
Definition proxied : Request := {|
  method := "POST";
  query_apiKey := None;
  header_session := None;
  header_forwarded := Some " 203.0.113.9 , 10.0.0.1";
  header_userAgent := None;
  ip := Some "10.0.0.1";
|}.

(** A request whose [X-Forwarded-For] entry is a tab and a no-break
    space. *)
Definition blank_forwarded : Request := {|
  method := "GET";
  query_apiKey := None;
  header_session := None;
  header_forwarded :=
    Some (String (ascii_of_nat 9) (String (ascii_of_nat 160) ", 10.9.9.9"));
  header_userAgent := None;
  ip := Some "10.0.0.1";
|}.

(** A save whose file write fails. *)
Definition failing_save : Server.SaveEnv :=
  {| Server.dirOk := true; Server.writeOk := false;
     Server.setOk := true; Server.nowMs := 0 |}.

(** An upstream that cannot be reached: the name does not resolve, and
    axios rejects with an error that carries no response. *)
Definition upstream_unreachable : Tools.Upstream :=
  fun _ => Tools.AxiosError None "getaddrinfo ENOTFOUND datamall2.mytransport.sg".

(** The Firebase module once [initializeFirebase] has succeeded. *)
Definition firebase_on : Firebase.State :=
  {| Firebase.firebaseEnabled := true; Firebase.analyticsRef := true |}.

(** A table with two keys of one sanitized name, and its entries in the two
    orders of insertion. *)
Definition colliding : gmap string Z := {[ "a.b" := 1; "a_dot_b" := 2 ]}.
Definition colliding_first : list (string * Z) := [("a.b", 1); ("a_dot_b", 2)].
Definition colliding_last : list (string * Z) := [("a_dot_b", 2); ("a.b", 1)].

(** An aggregator that has counted three requests and two tool calls. *)
Definition busy : AnalyticsData := {|
  serverStartTime := "2025-01-01T00:00:00.000Z";
  totalRequests := 3;
  totalToolCalls := 2;
  requestsByMethod := {[ "POST" := 2; "GET" := 1 ]};
  requestsByEndpoint := {[ "/mcp" := 2; "/health" := 1 ]};
  toolCalls := {[ "bus_arrival" := 2 ]};
  recentToolCalls := [];
  clientsByIp := {[ "10.0.0.1" := 3 ]};
  clientsByUserAgent := {[ "curl" := 3 ]};
  hourlyRequests := {[ "2025-01-01T00" := 3 ]};
  lastUpdated := None;
|}.

(** A body from a satellite instance: one more request and one call of a
    tool not seen yet. *)
Definition satellite : PartialAnalytics := {|
  p_serverStartTime := None;
  p_totalRequests := Some 1;
  p_totalToolCalls := Some 1;
  p_requestsByMethod := Some {[ "POST" := 1 ]};
  p_requestsByEndpoint := None;
  p_toolCalls := Some {[ "train_alerts" := 1 ]};
  p_recentToolCalls := None;
  p_clientsByIp := None;
  p_clientsByUserAgent := None;
  p_hourlyRequests := None;
  p_lastUpdated := None;
|}.

End Samples.

(** * Properties *)

Import Js Analytics.

(** ** The rolling history *)

Section RecentCalls.

Lemma push_recent_take (r : ToolCallRecord) (l : list ToolCallRecord) :
  (length l <= MAX_RECENT_CALLS)%nat ->
  push_recent r l = firstn MAX_RECENT_CALLS (r :: l).
Proof.
  intros Hl. unfold push_recent.
  destruct (Nat.ltb MAX_RECENT_CALLS (length (r :: l))) eqn:E.
  - apply Nat.ltb_lt in E. cbn [length] in E.
    assert (Hlen : length (r :: l) = S MAX_RECENT_CALLS) by (cbn [length]; lia).
    rewrite removelast_firstn_len, Hlen. reflexivity.
  - apply Nat.ltb_ge in E. symmetry. apply firstn_all2. exact E.
Qed.

Lemma push_recent_length (r : ToolCallRecord) (l : list ToolCallRecord) :
  (length l <= MAX_RECENT_CALLS)%nat ->
  (length (push_recent r l) <= MAX_RECENT_CALLS)%nat.
Proof.
  intros Hl. rewrite push_recent_take by exact Hl. apply firstn_le_length.
Qed.

Lemma firstn_app_firstn {A} (n m : nat) (pre l : list A) :
  (n <= m)%nat ->
  firstn n (pre ++ firstn m l) = firstn n (pre ++ l).
Proof.
  revert n. induction pre as [|p pre IH]; intros n Hn.
  - cbn [app]. rewrite firstn_firstn. f_equal. lia.
  - destruct n as [|n]; [reflexivity|].
    cbn [app firstn]. f_equal. apply IH. lia.
Qed.

Lemma trackToolCalls_recent (cs : list call) (a : AnalyticsData) :
  (length (recentToolCalls a) <= MAX_RECENT_CALLS)%nat ->
  recentToolCalls (trackToolCalls cs a)
  = firstn MAX_RECENT_CALLS (rev (map record_of cs) ++ recentToolCalls a).
Proof.
  revert a. induction cs as [|[[now name] req] cs IH]; intros a Ha.
  - cbn. symmetry. apply firstn_all2. exact Ha.
  - unfold trackToolCalls in *. cbn [fold_left].
    rewrite IH.
    + cbn [recentToolCalls trackToolCall map rev record_of].
      rewrite push_recent_take by exact Ha.
      rewrite <- app_assoc. cbn [app].
      apply firstn_app_firstn. lia.
    + cbn [recentToolCalls trackToolCall]. apply push_recent_length. exact Ha.
Qed.

(** What one [trackToolCall] does: both counters go up by one and one
    record, built from the invocation, enters the history at the front. *)
Lemma trackToolCall_records_once (now name : string) (req : Request)
    (a : AnalyticsData) :
  (length (recentToolCalls a) < MAX_RECENT_CALLS)%nat ->
  let a' := trackToolCall now name req a in
  totalToolCalls a' = totalToolCalls a + 1
  /\ toolCalls a' !! name = Some (default 0 (toolCalls a !! name) + 1)
  /\ (forall other, other <> name -> toolCalls a' !! other = toolCalls a !! other)
  /\ recentToolCalls a' = mk_record now name req :: recentToolCalls a.
Proof.
  intros Hlen. cbn zeta. cbn [trackToolCall totalToolCalls toolCalls recentToolCalls].
  unfold bump. split; [reflexivity|]. split; [|split].
  - rewrite lookup_insert_eq. f_equal. f_equal.
    destruct (toolCalls a !! name) as [n|]; [|reflexivity]. cbn.
    destruct (Z.eqb_spec n 0); congruence.
  - intros other Hne. apply lookup_insert_ne. congruence.
  - rewrite push_recent_take by lia. apply firstn_all2. cbn [length]. lia.
Qed.

End RecentCalls.

(** C7. Starting from a history within the capacity (as the initial empty
    one is), after any sequence of [trackToolCall] invocations the history
    holds at most [MAX_RECENT_CALLS] = 100 records; it consists of the
    records created by the invocations, unchanged and most recent first,
    followed by the older ones, cut at 100; once 100 or more invocations
    have been made, it is exactly the 100 newest records. *)
Theorem recent_calls_bounded_newest_first (cs : list call) (a : AnalyticsData) :
  (length (recentToolCalls a) <= MAX_RECENT_CALLS)%nat ->
  MAX_RECENT_CALLS = 100%nat
  /\ (length (recentToolCalls (trackToolCalls cs a)) <= 100)%nat
  /\ recentToolCalls (trackToolCalls cs a)
     = firstn 100 (rev (map record_of cs) ++ recentToolCalls a)
  /\ ((100 <= length cs)%nat ->
      recentToolCalls (trackToolCalls cs a) = firstn 100 (rev (map record_of cs))).
Proof.
  intros Ha. pose proof (trackToolCalls_recent cs a Ha) as H.
  change MAX_RECENT_CALLS with 100%nat in H.
  split; [reflexivity|]. split; [|split].
  - rewrite H. apply firstn_le_length.
  - exact H.
  - intros Hcs. rewrite H, firstn_app.
    rewrite length_rev, length_map. replace (100 - length cs)%nat with 0%nat by lia.
    cbn [firstn]. apply app_nil_r.
Qed.

(** ** The import endpoint *)

Section ImportEndpoint.

Lemma or_zero_default (o : option Z) : or_zero o = default 0 o.
Proof.
  destruct o as [n|]; [|reflexivity]. cbn.
  destruct (Z.eqb_spec n 0); congruence.
Qed.

Lemma add_if_truthy_sum (n : option Z) (total : Z) :
  add_if_truthy n total = total + default 0 n.
Proof.
  unfold add_if_truthy, truthy_num. destruct n as [n|]; cbn; [|lia].
  destruct (Z.eqb_spec n 0); cbn; lia.
Qed.

Lemma merge_counts_lookup (delta m : gmap string Z) (k : string) :
  merge_counts delta m !! k
  = match delta !! k with
    | Some count => Some (default 0 (m !! k) + count)
    | None => m !! k
    end.
Proof.
  unfold merge_counts. revert k.
  apply (map_fold_weak_ind
           (fun (r : gmap string Z) (d : gmap string Z) =>
              forall k, r !! k = match d !! k with
                                 | Some count => Some (default 0 (m !! k) + count)
                                 | None => m !! k
                                 end)).
  - intros k. rewrite lookup_empty. reflexivity.
  - intros i x d r Hi IH k. unfold bump.
    destruct (decide (i = k)) as [->|Hne].
    + rewrite !lookup_insert_eq. rewrite or_zero_default, IH, Hi. reflexivity.
    + rewrite !lookup_insert_ne by exact Hne. apply IH.
Qed.

Lemma merge_counts_empty (delta : gmap string Z) : merge_counts delta ∅ = delta.
Proof.
  apply map_eq. intros k. rewrite merge_counts_lookup, lookup_empty.
  destruct (delta !! k) as [c|]; [|reflexivity]. cbn [default]. f_equal; lia.
Qed.

Lemma merge_counts_self (m : gmap string Z) :
  merge_counts m m = (fun v => 2 * v) <$> m.
Proof.
  apply map_eq. intros k. rewrite merge_counts_lookup, lookup_fmap.
  destruct (m !! k) as [c|]; [|reflexivity]. simpl. f_equal; lia.
Qed.

Lemma saveAnalytics_analytics (env : Server.SaveEnv) (st : Server.State) :
  Server.analytics (Server.saveAnalytics env st) = Server.analytics st.
Proof.
  unfold Server.saveAnalytics.
  destruct (Server.dirOk env && Server.writeOk env)%bool; [|reflexivity].
  destruct (Firebase.saveToFirebase _ _ _ _) as [[doc|] [|]]; reflexivity.
Qed.

Lemma saveAnalytics_localFile (env : Server.SaveEnv) (st : Server.State) :
  Server.localFile (Server.saveAnalytics env st)
  = if (Server.dirOk env && Server.writeOk env)%bool
    then Some (Server.analytics st)
    else Server.localFile st.
Proof.
  unfold Server.saveAnalytics.
  destruct (Server.dirOk env && Server.writeOk env)%bool; [|reflexivity].
  destruct (Firebase.saveToFirebase _ _ _ _) as [[doc|] [|]]; reflexivity.
Qed.

End ImportEndpoint.

(** ** Plain objects and the typed tables *)

Section PlainObjects.

Lemma exact_bounds (n : Z) :
  Plain.exact n = true <-> - Plain.MAX_EXACT <= n <= Plain.MAX_EXACT.
Proof. unfold Plain.exact. rewrite andb_true_iff, !Z.leb_le. tauto. Qed.

Lemma plus_counts (a b : Z) :
  Plain.fits_sum a b ->
  Plain.plus (Plain.ONum a) (Plain.JInt b) = Some (Plain.Count (a + b)).
Proof.
  intros (Ha & Hb & Hab). cbn [Plain.plus]. rewrite Ha, Hb. cbn [andb].
  unfold Plain.number. now rewrite Hab.
Qed.

Lemma incr_counts (n : Z) :
  Plain.fits_sum n 1 -> Plain.incr (Plain.Count n) = Some (Plain.Count (n + 1)).
Proof.
  intros (Ha & _ & Hab). cbn [Plain.incr]. rewrite Ha.
  unfold Plain.number. now rewrite Hab.
Qed.

Lemma not_inherited_proto (k : string) :
  Plain.inherited k = false -> String.eqb k "__proto__" = false.
Proof.
  intros H. destruct (String.eqb_spec k "__proto__") as [->|]; [|reflexivity].
  discriminate H.
Qed.

Lemma read_or_zero_counts (m : gmap string Z) (k : string) :
  Plain.plain_key m k ->
  Plain.read_or_zero (Plain.Count <$> m) k = Plain.ONum (default 0 (m !! k)).
Proof.
  unfold Plain.read_or_zero. rewrite lookup_fmap.
  destruct (m !! k) as [v|] eqn:E; cbn -[Plain.inherited]; [reflexivity|].
  intros [[? H]| ->]; [|reflexivity]. congruence.
Qed.

Lemma store_counts (k : string) (v : Z) (m : gmap string Z) :
  Plain.plain_key m k ->
  Plain.store k (Plain.Count v) (Plain.Count <$> m) = Plain.Count <$> <[k := v]> m.
Proof.
  unfold Plain.store. rewrite lookup_fmap, fmap_insert. intros H.
  destruct (m !! k) as [w|] eqn:E; cbn -[String.eqb]; [reflexivity|].
  destruct H as [[? H]|H]; [congruence|].
  now rewrite (not_inherited_proto k H).
Qed.

(** On an own or uninherited key and within the exact integers, the update
    of a plain object is the update of the typed table. *)
Lemma bump_refines (k : string) (n : Z) (m : gmap string Z) :
  Plain.fits m k n ->
  Plain.bump k (Plain.JInt n) (Plain.Count <$> m)
  = Some (Plain.Count <$> Js.bump k n m).
Proof.
  intros [Hk Hn]. unfold Plain.bump.
  rewrite (read_or_zero_counts m k Hk), (plus_counts _ _ Hn).
  rewrite (store_counts k _ m Hk). unfold Js.bump. now rewrite or_zero_default.
Qed.

Lemma plain_key_bump (k j : string) (n : Z) (m : gmap string Z) :
  Plain.plain_key m j -> Plain.plain_key (Js.bump k n m) j.
Proof.
  intros [H|H]; [left|now right]. unfold Js.bump.
  destruct (decide (k = j)) as [->|Hne].
  - rewrite lookup_insert_eq. eauto.
  - now rewrite lookup_insert_ne.
Qed.

Lemma fits_bump_other (k j : string) (n v : Z) (m : gmap string Z) :
  k <> j -> Plain.fits m j v -> Plain.fits (Js.bump k n m) j v.
Proof.
  intros Hne [Hk Hs]. split; [now apply plain_key_bump|].
  unfold Js.bump. now rewrite lookup_insert_ne.
Qed.

(** An inherited name that is not an own key: the slot becomes a string,
    and for [__proto__] nothing is stored. *)
Lemma bump_inherited (k : string) (r : Plain.json) (m : gmap string Plain.slot) :
  Plain.inherited k = true -> m !! k = None -> r <> Plain.JOther ->
  Plain.bump k r m
  = Some (if String.eqb k "__proto__" then m else <[k := Plain.Text]> m).
Proof.
  intros Hk Hm Hr. unfold Plain.bump, Plain.read_or_zero, Plain.store.
  rewrite Hm, Hk. destruct r; cbn [Plain.plus]; try reflexivity. congruence.
Qed.

(** A count given as a string: the slot becomes a string. *)
Lemma bump_string (k s : string) (m : gmap string Plain.slot) :
  Plain.bump k (Plain.JString s) m = Some (Plain.store k Plain.Text m).
Proof.
  unfold Plain.bump. destruct (Plain.read_or_zero m k); reflexivity.
Qed.

Lemma add_if_truthy_refines (n : option Z) (total : Z) :
  Plain.fits_sum total (default 0 n) ->
  Plain.add_if_truthy (Plain.JInt <$> n) (Plain.Count total)
  = Some (Plain.Count (add_if_truthy n total)).
Proof.
  intros H. unfold add_if_truthy, truthy_num.
  destruct n as [v|]; cbn [fmap option_fmap option_map Plain.add_if_truthy
                             Plain.truthy Plain.operand_of]; [|reflexivity].
  destruct (negb (Z.eqb v 0)); [|reflexivity].
  cbn [default from_option] in *. unfold id in *. now apply plus_counts.
Qed.

Local Abbreviation bump_entry :=
  (fun (acc : gmap string Z) (kv : string * Z) => Js.bump kv.1 kv.2 acc).

Lemma merge_refines_list (es : list (string * Z)) (m : gmap string Z) :
  NoDup es.*1 ->
  (forall k v, (k, v) ∈ es -> Plain.fits m k v) ->
  Plain.merge (Plain.json_entries es) (Plain.Count <$> m)
  = Some (Plain.Count <$> fold_left bump_entry es m).
Proof.
  revert m. induction es as [|[k v] es IH]; intros m Hnd Hfit; [reflexivity|].
  rewrite fmap_cons in Hnd. apply NoDup_cons in Hnd as [Hk Hnd].
  cbn [Plain.json_entries map Plain.merge fold_left fst snd].
  rewrite (bump_refines k v m) by (apply Hfit; left).
  apply IH; [exact Hnd|]. intros k' v' Hin.
  apply fits_bump_other; [|apply Hfit; now right].
  intros ->. apply Hk. apply (list_elem_of_fmap_2 fst) in Hin. exact Hin.
Qed.

Lemma fold_bump_notin (es : list (string * Z)) (m : gmap string Z) (k : string) :
  k ∉ es.*1 -> fold_left bump_entry es m !! k = m !! k.
Proof.
  revert m. induction es as [|[k1 v1] es IH]; intros m Hk; [reflexivity|].
  rewrite fmap_cons in Hk. apply not_elem_of_cons in Hk as [Hne Hk].
  cbn [fold_left fst snd]. rewrite (IH _ Hk). unfold Js.bump.
  apply lookup_insert_ne. cbn in Hne. congruence.
Qed.

Lemma fold_bump_in (es : list (string * Z)) (m : gmap string Z) (k : string)
    (v : Z) :
  NoDup es.*1 -> (k, v) ∈ es ->
  fold_left bump_entry es m !! k = Some (default 0 (m !! k) + v).
Proof.
  revert m. induction es as [|[k1 v1] es IH]; intros m Hnd Hin; [inversion Hin|].
  rewrite fmap_cons in Hnd. apply NoDup_cons in Hnd as [Hk Hnd].
  cbn [fold_left fst snd]. apply elem_of_cons in Hin as [[= <- <-]|Hin].
  - rewrite fold_bump_notin by exact Hk. unfold Js.bump.
    now rewrite lookup_insert_eq, or_zero_default.
  - rewrite (IH _ Hnd Hin). unfold Js.bump. rewrite lookup_insert_ne; [reflexivity|].
    intros ->. apply Hk. apply (list_elem_of_fmap_2 fst) in Hin. exact Hin.
Qed.

(** The loop over the entries of a table yields the same table whatever
    the order of the entries. *)
Lemma fold_bump_merge_counts (es : list (string * Z)) (t m : gmap string Z) :
  Plain.enumerates es t -> fold_left bump_entry es m = merge_counts t m.
Proof.
  intros [Hnd Hes]. apply map_eq. intros k. rewrite merge_counts_lookup.
  destruct (t !! k) as [v|] eqn:E.
  - apply fold_bump_in; [exact Hnd|]. now apply Hes.
  - apply fold_bump_notin. intros Hin.
    apply list_elem_of_fmap in Hin as ([k' v'] & -> & Hin).
    apply Hes in Hin. cbn [fst] in E. congruence.
Qed.

Lemma merge_refines (es : list (string * Z)) (t m : gmap string Z) :
  Plain.enumerates es t ->
  (forall k v, t !! k = Some v -> Plain.fits m k v) ->
  Plain.merge (Plain.json_entries es) (Plain.Count <$> m)
  = Some (Plain.Count <$> merge_counts t m).
Proof.
  intros Hes Hfit. rewrite <- (fold_bump_merge_counts es t m Hes).
  apply merge_refines_list; [apply Hes|].
  intros k v Hin. apply Hfit. now apply Hes.
Qed.

(** On integer bodies, own or uninherited keys and exact sums, the import
    on plain objects is the import on the typed aggregator. *)
Lemma import_refines (d : PartialAnalytics) (a : AnalyticsData)
    (et em : list (string * Z)) :
  Plain.ordered d et em -> Plain.import_fits d a ->
  Plain.importAnalytics (Plain.json_of d et em) (Plain.lift a)
  = Some (Plain.lift (importAnalytics d a)).
Proof.
  intros [Het Hem] (Hr & Hc & Ht & Hm). unfold Plain.importAnalytics.
  cbn [Plain.json_of Plain.b_totalRequests Plain.b_totalToolCalls
       Plain.b_toolCalls Plain.b_requestsByMethod Plain.lift
       Plain.totalRequests Plain.totalToolCalls Plain.toolCalls
       Plain.requestsByMethod].
  rewrite (add_if_truthy_refines _ _ Hr), (add_if_truthy_refines _ _ Hc).
  assert (Et : Plain.merge_if_present
                 match p_toolCalls d with
                 | Some _ => Some (Plain.json_entries et)
                 | None => None
                 end (Plain.Count <$> toolCalls a)
               = Some (Plain.Count <$> merge_if_present (p_toolCalls d) (toolCalls a))).
  { destruct (p_toolCalls d) as [t|] eqn:E;
      cbn [Plain.merge_if_present merge_if_present]; [|reflexivity].
    apply merge_refines; [now apply Het|]. intros k v Hk. now apply (Ht t). }
  assert (Em : Plain.merge_if_present
                 match p_requestsByMethod d with
                 | Some _ => Some (Plain.json_entries em)
                 | None => None
                 end (Plain.Count <$> requestsByMethod a)
               = Some (Plain.Count
                         <$> merge_if_present (p_requestsByMethod d)
                               (requestsByMethod a))).
  { destruct (p_requestsByMethod d) as [t|] eqn:E;
      cbn [Plain.merge_if_present merge_if_present]; [|reflexivity].
    apply merge_refines; [now apply Hem|]. intros k v Hk. now apply (Hm t). }
  rewrite Et, Em. reflexivity.
Qed.

Lemma trackRequest_refines (now : string) (req : Request) (endpoint : string)
    (a : AnalyticsData) :
  Plain.request_fits now req endpoint a ->
  Plain.trackRequest now req endpoint (Plain.lift a)
  = Some (Plain.lift (trackRequest now req endpoint a)).
Proof.
  intros (H0 & H1 & H2 & H3 & H4 & H5). unfold Plain.trackRequest.
  cbn [Plain.lift Plain.totalRequests Plain.requestsByMethod
       Plain.requestsByEndpoint Plain.clientsByIp Plain.clientsByUserAgent
       Plain.hourlyRequests].
  rewrite (incr_counts _ H0), (bump_refines _ _ _ H1), (bump_refines _ _ _ H2),
    (bump_refines _ _ _ H3), (bump_refines _ _ _ H4), (bump_refines _ _ _ H5).
  reflexivity.
Qed.

Lemma trackToolCall_refines (now name : string) (req : Request)
    (a : AnalyticsData) :
  Plain.tool_call_fits name a ->
  Plain.trackToolCall now name req (Plain.lift a)
  = Some (Plain.lift (trackToolCall now name req a)).
Proof.
  intros (H0 & H1). unfold Plain.trackToolCall.
  cbn [Plain.lift Plain.totalToolCalls Plain.toolCalls].
  rewrite (incr_counts _ H0), (bump_refines _ _ _ H1). reflexivity.
Qed.

Lemma run_refines (es : list Trace.Event) (a : AnalyticsData) :
  Plain.within es a ->
  Plain.run es (Plain.lift a) = Some (Plain.lift (Trace.run es a)).
Proof.
  revert a. induction es as [|e es IH]; intros a H; [reflexivity|].
  destruct H as [H1 H2]. cbn [Plain.run].
  assert (E : Plain.step e (Plain.lift a) = Some (Plain.lift (Trace.step e a))).
  { destruct e as [now req endpoint|now name req]; cbn [Plain.step Trace.step].
    - now apply trackRequest_refines.
    - now apply trackToolCall_refines. }
  rewrite E. now apply IH.
Qed.

Lemma enumerates_singleton (k : string) (v : Z) :
  Plain.enumerates [(k, v)] {[ k := v ]}.
Proof.
  split.
  - cbn. apply NoDup_singleton.
  - intros k' v'. rewrite list_elem_of_singleton, lookup_singleton_Some.
    split; [intros [= -> ->]; auto|intros [-> ->]; reflexivity].
Qed.

End PlainObjects.

(** C4, as stated, fails: the per-endpoint table is a map-valued counter
    field, yet merging the aggregator's own snapshot leaves its count at 1
    instead of 2, and merging the snapshot into a zeroed aggregator leaves
    the table empty instead of reproducing it. *)
Lemma import_skips_endpoint_counters :
  requestsByEndpoint Scenario.one_request !! "/mcp" = Some 1
  /\ requestsByEndpoint (importAnalytics (snapshot Scenario.one_request) Scenario.one_request) !! "/mcp"
     = Some 1
  /\ requestsByEndpoint
       (importAnalytics (snapshot Scenario.one_request) (initial "2025-02-01T00:00:00.000Z"))
     !! "/mcp" = None.
Proof.
  cbn [importAnalytics requestsByEndpoint Scenario.one_request initial snapshot].
  rewrite lookup_singleton_eq, lookup_empty. auto.
Qed.

(** C4, amended. The import is additive on the four fields it handles, for
    a body of integer counts, as long as every key merged is an own key of
    the table or a name that a plain object does not inherit and every count
    and sum is an integer within 2^53 in absolute value. Under these
    conditions, whatever the order of the entries of the body, the two
    scalar counters are summed (a missing one counts as zero), the per-tool
    and per-method tables are merged key by key (a missing key counts as
    zero, a missing table changes nothing), and every other field is left as
    it was. Hence merging the aggregator's own snapshot doubles these four
    fields, and merging a snapshot into a zeroed aggregator reproduces these
    four fields exactly. Outside these conditions the merge is not additive:
    a count given as a string makes the slot a string, and so does any count
    under an inherited name that is not an own key, except that nothing is
    stored under [__proto__]. *)
Theorem import_additive_on_four_fields (d : PartialAnalytics) (a : AnalyticsData)
    (et em : list (string * Z)) :
  Plain.ordered d et em ->
  Plain.import_fits d a ->
  (exists a',
      Plain.importAnalytics (Plain.json_of d et em) (Plain.lift a)
      = Some (Plain.lift a')
      /\ (totalRequests a' = totalRequests a + default 0 (p_totalRequests d)
          /\ totalToolCalls a' = totalToolCalls a + default 0 (p_totalToolCalls d)
          /\ (forall k, toolCalls a' !! k
                        = match p_toolCalls d with
                          | Some t =>
                              match t !! k with
                              | Some count => Some (default 0 (toolCalls a !! k) + count)
                              | None => toolCalls a !! k
                              end
                          | None => toolCalls a !! k
                          end)
          /\ (forall k, requestsByMethod a' !! k
                        = match p_requestsByMethod d with
                          | Some t =>
                              match t !! k with
                              | Some count =>
                                  Some (default 0 (requestsByMethod a !! k) + count)
                              | None => requestsByMethod a !! k
                              end
                          | None => requestsByMethod a !! k
                          end))
      /\ (serverStartTime a' = serverStartTime a
          /\ requestsByEndpoint a' = requestsByEndpoint a
          /\ recentToolCalls a' = recentToolCalls a
          /\ clientsByIp a' = clientsByIp a
          /\ clientsByUserAgent a' = clientsByUserAgent a
          /\ hourlyRequests a' = hourlyRequests a
          /\ lastUpdated a' = lastUpdated a)
      /\ (d = snapshot a ->
          totalRequests a' = 2 * totalRequests a
          /\ totalToolCalls a' = 2 * totalToolCalls a
          /\ toolCalls a' = (fun v => 2 * v) <$> toolCalls a
          /\ requestsByMethod a' = (fun v => 2 * v) <$> requestsByMethod a)
      /\ (forall b start, d = snapshot b -> a = initial start ->
          totalRequests a' = totalRequests b
          /\ totalToolCalls a' = totalToolCalls b
          /\ toolCalls a' = toolCalls b
          /\ requestsByMethod a' = requestsByMethod b))
  /\ (forall k s t,
        Plain.merge [(k, Plain.JString s)] t = Some (Plain.store k Plain.Text t))
  /\ (forall k n t,
        Plain.inherited k = true -> t !! k = None ->
        Plain.merge [(k, Plain.JInt n)] t
        = Some (if String.eqb k "__proto__" then t else <[k := Plain.Text]> t)).
Proof.
  intros Hord Hfit. split; [|split].
  - exists (importAnalytics d a). split; [now apply import_refines|].
    unfold importAnalytics. cbn [totalRequests totalToolCalls toolCalls
      requestsByMethod serverStartTime requestsByEndpoint recentToolCalls
      clientsByIp clientsByUserAgent hourlyRequests lastUpdated].
    rewrite !add_if_truthy_sum.
    split; [|split; [|split]].
    + split; [reflexivity|]. split; [reflexivity|]. split.
      * intros k. destruct (p_toolCalls d) as [t|]; cbn [merge_if_present];
          [|reflexivity].
        apply merge_counts_lookup.
      * intros k. destruct (p_requestsByMethod d) as [t|]; cbn [merge_if_present];
          [|reflexivity].
        apply merge_counts_lookup.
    + repeat split.
    + intros ->. cbn [snapshot p_totalRequests p_totalToolCalls p_toolCalls
        p_requestsByMethod merge_if_present default from_option]. unfold id.
      repeat split; try lia; apply merge_counts_self.
    + intros b start -> ->. cbn [snapshot initial p_totalRequests p_totalToolCalls
        p_toolCalls p_requestsByMethod merge_if_present default from_option
        totalRequests totalToolCalls toolCalls requestsByMethod]. unfold id.
      repeat split; try lia; apply merge_counts_empty.
  - intros k s t. cbn [Plain.merge]. now rewrite bump_string.
  - intros k n t Hk Ht. cbn [Plain.merge].
    rewrite (bump_inherited k (Plain.JInt n) t Hk Ht) by discriminate. reflexivity.
Qed.

Lemma import_additive_witness :
  Plain.ordered Samples.satellite [("train_alerts", 1)] [("POST", 1)]
  /\ Plain.import_fits Samples.satellite Samples.busy
  /\ exists a',
      Plain.importAnalytics
        (Plain.json_of Samples.satellite [("train_alerts", 1)] [("POST", 1)])
        (Plain.lift Samples.busy)
      = Some (Plain.lift a')
      /\ totalRequests a' = 4.
Proof.
  assert (Hord : Plain.ordered Samples.satellite [("train_alerts", 1)] [("POST", 1)]).
  { split; intros t [= <-]; apply enumerates_singleton. }
  assert (Hfit : Plain.import_fits Samples.satellite Samples.busy).
  { split; [repeat split|]. split; [repeat split|].
    split; intros t k v [= <-] Hk; apply lookup_singleton_Some in Hk as [<- <-];
      (split; [right; reflexivity|repeat split]). }
  split; [exact Hord|]. split; [exact Hfit|].
  destruct (proj1 (import_additive_on_four_fields Samples.satellite Samples.busy
                     [("train_alerts", 1)] [("POST", 1)] Hord Hfit))
    as (a' & Ha & (Hr & _) & _).
  exists a'. split; [exact Ha|exact Hr].
Defined.

(** C10. Whatever the body of [POST /analytics/import] holds, and whether it
    is accepted or rejected, the handler leaves [serverStartTime],
    [requestsByEndpoint], [clientsByIp], [clientsByUserAgent],
    [hourlyRequests] and [recentToolCalls] as they were: only
    [totalRequests], [totalToolCalls], [toolCalls] and [requestsByMethod]
    can differ afterwards. *)
Theorem import_frame (env : Server.SaveEnv) (body : option PartialAnalytics)
    (st : Server.State) :
  let a := Server.analytics st in
  let a' := Server.analytics (fst (Server.analytics_import env body st)) in
  serverStartTime a' = serverStartTime a
  /\ requestsByEndpoint a' = requestsByEndpoint a
  /\ clientsByIp a' = clientsByIp a
  /\ clientsByUserAgent a' = clientsByUserAgent a
  /\ hourlyRequests a' = hourlyRequests a
  /\ recentToolCalls a' = recentToolCalls a
  /\ lastUpdated a' = lastUpdated a.
Proof.
  cbn zeta. unfold Server.analytics_import.
  destruct body as [importData|]; cbn [fst].
  - rewrite saveAnalytics_analytics. cbn. auto 10.
  - auto 10.
Qed.

(** ** Key sanitization *)

Section Sanitize.
Import Firebase.

Lemma append_assoc' (a b c : string) : (a +:+ b) +:+ c = a +:+ (b +:+ c).
Proof.
  induction a as [|x a IH]; [reflexivity|].
  change (String x ((a +:+ b) +:+ c) = String x (a +:+ (b +:+ c))).
  f_equal. exact IH.
Qed.

Lemma replace_all_app (c : ascii) (tok a b : string) :
  replace_all c tok (a +:+ b) = replace_all c tok a +:+ replace_all c tok b.
Proof.
  induction a as [|x a IH]; [reflexivity|].
  change (String x a +:+ b) with (String x (a +:+ b)).
  cbn [replace_all]. rewrite IH. destruct (Ascii.eqb x c); [|reflexivity].
  now rewrite append_assoc'.
Qed.

Lemma sanitizeKey_cons (c : ascii) (r : string) :
  sanitizeKey (String c r) = escape_char c +:+ sanitizeKey r.
Proof.
  unfold sanitizeKey, escape_char.
  cbn [replace_all].
  destruct (Ascii.eqb c ".") eqn:E1;
    [rewrite !replace_all_app; reflexivity|cbn [replace_all]].
  destruct (Ascii.eqb c "$") eqn:E2;
    [rewrite !replace_all_app; reflexivity|cbn [replace_all]].
  destruct (Ascii.eqb c "#") eqn:E3;
    [rewrite !replace_all_app; reflexivity|cbn [replace_all]].
  destruct (Ascii.eqb c "[") eqn:E4;
    [rewrite !replace_all_app; reflexivity|cbn [replace_all]].
  destruct (Ascii.eqb c "]") eqn:E5;
    [rewrite !replace_all_app; reflexivity|cbn [replace_all]].
  destruct (Ascii.eqb c "/") eqn:E6; reflexivity.
Qed.

Lemma sanitizeKey_escape (key : string) : sanitizeKey key = escape key.
Proof.
  induction key as [|c r IH]; [reflexivity|].
  rewrite sanitizeKey_cons. cbn [escape]. now rewrite IH.
Qed.

Lemma occurs_app (c : ascii) (a b : string) :
  occurs c (a +:+ b) = (occurs c a || occurs c b)%bool.
Proof.
  induction a as [|x a IH]; [reflexivity|].
  change (String x a +:+ b) with (String x (a +:+ b)).
  cbn [occurs]. rewrite IH. now rewrite orb_assoc.
Qed.

Lemma escape_char_clean (x c : ascii) :
  In c forbidden -> occurs c (escape_char x) = false.
Proof.
  intros Hc. unfold escape_char.
  destruct (Ascii.eqb x ".") eqn:E1;
    [cbn in Hc; intuition (subst; reflexivity)|].
  destruct (Ascii.eqb x "$") eqn:E2;
    [cbn in Hc; intuition (subst; reflexivity)|].
  destruct (Ascii.eqb x "#") eqn:E3;
    [cbn in Hc; intuition (subst; reflexivity)|].
  destruct (Ascii.eqb x "[") eqn:E4;
    [cbn in Hc; intuition (subst; reflexivity)|].
  destruct (Ascii.eqb x "]") eqn:E5;
    [cbn in Hc; intuition (subst; reflexivity)|].
  destruct (Ascii.eqb x "/") eqn:E6;
    [cbn in Hc; intuition (subst; reflexivity)|].
  cbn [occurs]. rewrite orb_false_r.
  cbn in Hc. intuition (subst; assumption).
Qed.

Lemma escape_occurs (s : string) (c : ascii) :
  In c forbidden -> occurs c (escape s) = false.
Proof.
  intros Hc. induction s as [|x r IH]; [reflexivity|].
  cbn [escape]. rewrite occurs_app, IH, escape_char_clean by exact Hc.
  reflexivity.
Qed.

Lemma sanitizeKey_clean (key : string) : clean (sanitizeKey key) = true.
Proof.
  rewrite sanitizeKey_escape. unfold clean. apply forallb_forall.
  intros c Hc. rewrite escape_occurs by exact Hc. reflexivity.
Qed.

Lemma sanitize_fold_keys (entries : list (string * Z)) (acc : gmap string Z) :
  keys_clean acc ->
  keys_clean (fold_left (fun acc kv => <[sanitizeKey (fst kv) := snd kv]> acc)
                        entries acc).
Proof.
  revert acc. induction entries as [|[k v] es IH]; intros acc Hacc; [exact Hacc|].
  cbn [fold_left]. apply IH. intros k' Hk'. cbn [fst snd] in Hk'.
  destruct (decide (sanitizeKey k = k')) as [<-|Hne].
  - apply sanitizeKey_clean.
  - rewrite lookup_insert_ne in Hk' by exact Hne. apply Hacc, Hk'.
Qed.

Lemma sanitize_entries_clean (entries : list (string * Z)) :
  keys_clean (sanitize_entries entries).
Proof.
  apply sanitize_fold_keys. intros k Hk. rewrite lookup_empty in Hk.
  destruct Hk as [? Hk]. discriminate.
Qed.

Lemma sanitizeObjectKeys_clean (obj : gmap string Z) :
  keys_clean (sanitizeObjectKeys obj).
Proof. apply sanitize_entries_clean. Qed.

Lemma clean_cons (c : ascii) (r : string) :
  clean (String c r) = true -> escape_char c = String c EmptyString /\ clean r = true.
Proof.
  unfold clean. rewrite !forallb_forall. intros H. split.
  - unfold escape_char.
    assert (Hc : forall f, In f forbidden -> Ascii.eqb c f = false).
    { intros f Hf. specialize (H f Hf). cbn [occurs] in H.
      apply negb_true_iff, orb_false_elim in H. tauto. }
    rewrite !Hc by (cbn; tauto). reflexivity.
  - intros f Hf. specialize (H f Hf). cbn [occurs] in H.
    apply negb_true_iff, orb_false_elim in H. apply negb_true_iff. tauto.
Qed.

Lemma escape_clean (s : string) : clean s = true -> escape s = s.
Proof.
  induction s as [|c r IH]; [reflexivity|]. intros H.
  apply clean_cons in H as [Hc Hr]. cbn [escape]. rewrite Hc, (IH Hr). reflexivity.
Qed.

Lemma sanitizeKey_clean_id (k : string) : clean k = true -> sanitizeKey k = k.
Proof. intros H. rewrite sanitizeKey_escape. now apply escape_clean. Qed.

Local Abbreviation ins :=
  (fun (acc : gmap string Z) (kv : string * Z) => <[sanitizeKey (fst kv) := snd kv]> acc).

Lemma fold_ins_notin (l : list (string * Z)) (acc : gmap string Z) (k : string) :
  (forall kv, kv ∈ l -> sanitizeKey kv.1 <> k) ->
  fold_left ins l acc !! k = acc !! k.
Proof.
  revert acc. induction l as [|kv l IH]; intros acc H; [reflexivity|].
  cbn [fold_left]. rewrite IH.
  - apply lookup_insert_ne. apply H. left.
  - intros kv' Hin. apply H. now right.
Qed.

Lemma fold_ins_in (l : list (string * Z)) (acc : gmap string Z) (k0 : string) (v : Z) :
  NoDup ((fun kv => sanitizeKey kv.1) <$> l) ->
  (k0, v) ∈ l ->
  fold_left ins l acc !! sanitizeKey k0 = Some v.
Proof.
  revert acc. induction l as [|kv l IH]; intros acc Hnd Hin.
  - inversion Hin.
  - rewrite fmap_cons in Hnd. apply NoDup_cons in Hnd as [Hnotin Hnd].
    cbn [fold_left]. apply elem_of_cons in Hin as [<-|Hin].
    + rewrite fold_ins_notin.
      * cbn [fst snd]. apply lookup_insert_eq.
      * intros kv' Hkv' Heq. apply Hnotin. cbn [fst].
        rewrite <- Heq. apply (list_elem_of_fmap_2 (fun kv => sanitizeKey kv.1)).
        exact Hkv'.
    + now apply IH.
Qed.

Lemma fold_ins_from (l : list (string * Z)) (acc : gmap string Z) (k : string) (v : Z) :
  fold_left ins l acc !! k = Some v ->
  acc !! k = Some v \/ exists k0, (k0, v) ∈ l /\ sanitizeKey k0 = k.
Proof.
  revert acc. induction l as [|[k1 v1] l IH]; intros acc H; [now left|].
  cbn [fold_left] in H. apply IH in H as [H|(k0 & Hin & Hk)].
  - cbn [fst snd] in H.
    destruct (decide (sanitizeKey k1 = k)) as [Heq|Hne].
    + rewrite Heq, lookup_insert_eq in H. injection H as ->.
      right. exists k1. split; [left|exact Heq].
    + rewrite lookup_insert_ne in H by exact Hne. now left.
  - right. exists k0. split; [now right|exact Hk].
Qed.

Lemma fold_ins_keeps (l : list (string * Z)) (acc : gmap string Z) (k : string) :
  is_Some (acc !! k) -> is_Some (fold_left ins l acc !! k).
Proof.
  revert acc. induction l as [|kv l IH]; intros acc H; [exact H|].
  cbn [fold_left]. apply IH.
  destruct (decide (sanitizeKey kv.1 = k)) as [<-|Hne].
  - rewrite lookup_insert_eq. eauto.
  - now rewrite lookup_insert_ne.
Qed.

Lemma fold_ins_some (l : list (string * Z)) (acc : gmap string Z) (k0 : string) (v : Z) :
  (k0, v) ∈ l -> is_Some (fold_left ins l acc !! sanitizeKey k0).
Proof.
  revert acc. induction l as [|kv l IH]; intros acc Hin; [inversion Hin|].
  cbn [fold_left]. apply elem_of_cons in Hin as [<-|Hin]; [|now apply IH].
  apply fold_ins_keeps. cbn [fst snd]. rewrite lookup_insert_eq. eauto.
Qed.

Lemma fold_ins_alone (l : list (string * Z)) (acc : gmap string Z) (k0 : string)
    (v : Z) :
  NoDup l.*1 ->
  (forall k2 v2, (k2, v2) ∈ l -> sanitizeKey k2 = sanitizeKey k0 -> k2 = k0) ->
  (k0, v) ∈ l ->
  fold_left ins l acc !! sanitizeKey k0 = Some v.
Proof.
  revert acc. induction l as [|[k1 v1] l IH]; intros acc Hnd Hinj Hin.
  - inversion Hin.
  - rewrite fmap_cons in Hnd. apply NoDup_cons in Hnd as [Hnotin Hnd].
    cbn [fold_left fst snd]. apply elem_of_cons in Hin as [[= <- <-]|Hin].
    + rewrite fold_ins_notin; [apply lookup_insert_eq|].
      intros [k2 v2] Hin2 Heq. apply Hnotin. cbn [fst] in *.
      rewrite <- (Hinj k2 v2); [|now right|exact Heq].
      apply (list_elem_of_fmap_2 fst) in Hin2. exact Hin2.
    + apply IH; [exact Hnd| |exact Hin].
      intros k2 v2 Hin2. apply (Hinj k2 v2). now right.
Qed.

(** The loop of [sanitizeObjectKeys] yields the table under sanitized
    keys, in whatever order the entries are visited. *)
Lemma sanitize_entries_image (es : list (string * Z)) (t : gmap string Z) :
  Plain.enumerates es t -> sanitized_image t (sanitize_entries es).
Proof.
  intros [Hnd Hes]. split; [|split].
  - intros k' v H. apply (fold_ins_from _ ∅) in H as [H|(k0 & Hin & Hk)].
    + rewrite lookup_empty in H. discriminate.
    + exists k0. split; [now apply Hes|exact Hk].
  - intros k v Hk _. apply Hes in Hk. split.
    + now apply (fold_ins_some _ ∅ k v).
    + intros Hinj. apply (fold_ins_alone _ ∅); [exact Hnd| |exact Hk].
      intros k2 v2 Hin2. apply Hinj. apply Hes in Hin2. eauto.
  - apply sanitize_entries_clean.
Qed.

Lemma enumerates_map_to_list (t : gmap string Z) :
  Plain.enumerates (map_to_list t) t.
Proof.
  split; [apply NoDup_fst_map_to_list|].
  intros k v. apply elem_of_map_to_list.
Qed.

Lemma sanitizeObjectKeys_image (t : gmap string Z) :
  sanitized_image t (sanitizeObjectKeys t).
Proof. apply sanitize_entries_image, enumerates_map_to_list. Qed.

Lemma enumerates_cons (k : string) (v : Z) (es : list (string * Z))
    (t : gmap string Z) :
  k ∉ es.*1 -> Plain.enumerates es t ->
  Plain.enumerates ((k, v) :: es) (<[k := v]> t).
Proof.
  intros Hk [Hnd Hes]. split.
  - rewrite fmap_cons. apply NoDup_cons. split; [exact Hk|exact Hnd].
  - intros k' v'. rewrite elem_of_cons, lookup_insert_Some, Hes. split.
    + intros [[= -> ->]|H]; [now left|]. right. split; [|exact H].
      intros ->. apply Hk. apply Hes in H.
      apply (list_elem_of_fmap_2 fst) in H. exact H.
    + intros [[-> ->]|[_ H]]; [now left|now right].
Qed.

End Sanitize.

(** C9. [sanitizeKey] replaces each occurrence of [.], [$], [#], [[], []]
    and [/] by [_dot_], [_dollar_], [_hash_], [_lb_], [_rb_] and [_slash_],
    and leaves every other character alone; its result holds none of the six
    characters. The loop of [sanitizeObjectKeys], in whatever order it visits
    the entries of a table, yields that table under sanitized keys: every
    written entry is the count of one of its keys under that key's sanitized
    name, every key is written under its sanitized name ([__proto__] apart,
    under which an assignment stores nothing), with its own count when no
    other key has the same sanitized name, and no written key holds one of
    the six characters. When Firebase is enabled and has its
    reference, [saveToFirebase] hands to the remote store a document whose
    six tables are the in-memory tables under sanitized keys, whose other
    fields are those of [analytics] and whose [lastUpdated] is the clock
    reading; otherwise it writes nothing. The sanitized tables are new ones:
    a save leaves the [analytics] object, and so the keys of its tables, as
    they were, and the local file receives that object with its keys as they
    are. *)
Theorem remote_keys_sanitized_at_boundary (es : list (string * Z))
    (t : gmap string Z) (fb : Firebase.State) (setOk : bool) (now : Z)
    (a : AnalyticsData) (env : Server.SaveEnv) (st : Server.State) :
  Plain.enumerates es t ->
  (forall key, Firebase.sanitizeKey key = Firebase.escape key
               /\ Firebase.clean (Firebase.sanitizeKey key) = true)
  /\ Firebase.sanitized_image t (Firebase.sanitize_entries es)
  /\ (exists doc,
        Firebase.saveToFirebase fb setOk now a
        = (if (Firebase.firebaseEnabled fb && Firebase.analyticsRef fb)%bool
           then (Some doc, setOk)
           else (None, false))
        /\ Firebase.sanitized_image (requestsByMethod a) (requestsByMethod doc)
        /\ Firebase.sanitized_image (requestsByEndpoint a) (requestsByEndpoint doc)
        /\ Firebase.sanitized_image (toolCalls a) (toolCalls doc)
        /\ Firebase.sanitized_image (clientsByIp a) (clientsByIp doc)
        /\ Firebase.sanitized_image (clientsByUserAgent a) (clientsByUserAgent doc)
        /\ Firebase.sanitized_image (hourlyRequests a) (hourlyRequests doc)
        /\ serverStartTime doc = serverStartTime a
        /\ totalRequests doc = totalRequests a
        /\ totalToolCalls doc = totalToolCalls a
        /\ recentToolCalls doc = recentToolCalls a
        /\ lastUpdated doc = Some now)
  /\ Server.analytics (Server.saveAnalytics env st) = Server.analytics st
  /\ Server.localFile (Server.saveAnalytics env st)
     = (if (Server.dirOk env && Server.writeOk env)%bool
        then Some (Server.analytics st)
        else Server.localFile st).
Proof.
  intros Hes.
  split; [intros key; split; [apply sanitizeKey_escape|apply sanitizeKey_clean]|].
  split; [now apply sanitize_entries_image|].
  split; [|split; [apply saveAnalytics_analytics|apply saveAnalytics_localFile]].
  exists (Firebase.sanitizedData now a). split.
  - unfold Firebase.saveToFirebase.
    destruct (Firebase.firebaseEnabled fb), (Firebase.analyticsRef fb); reflexivity.
  - cbn [Firebase.sanitizedData requestsByMethod requestsByEndpoint toolCalls
         clientsByIp clientsByUserAgent hourlyRequests serverStartTime
         totalRequests totalToolCalls recentToolCalls lastUpdated].
    repeat (split; [apply sanitizeObjectKeys_image|]). repeat split.
Qed.

Lemma remote_keys_witness :
  Plain.enumerates Samples.colliding_first Samples.colliding
  /\ Firebase.sanitized_image Samples.colliding
       (Firebase.sanitize_entries Samples.colliding_first)
  /\ Firebase.sanitize_entries Samples.colliding_first !! "a_dot_b" = Some 2
  /\ Firebase.sanitize_entries Samples.colliding_last !! "a_dot_b" = Some 1.
Proof.
  assert (H : Plain.enumerates Samples.colliding_first Samples.colliding).
  { apply enumerates_cons; [|apply enumerates_singleton].
    cbn. rewrite list_elem_of_singleton. discriminate. }
  split; [exact H|]. split.
  - exact (proj1 (proj2 (remote_keys_sanitized_at_boundary
                           Samples.colliding_first Samples.colliding
                           Samples.firebase_on true 0 Samples.busy
                           Samples.failing_save Scenario.live H))).
  - split; vm_compute; reflexivity.
Defined.

(** ** Tool dispatch *)

Section Dispatch.
Import Tools.

(** Case analysis along the [switch] on the tool name. *)
Ltac by_tool name :=
  destruct (String.eqb name "bus_arrival") eqn:?E1;
  [|destruct (String.eqb name "station_crowding") eqn:?E2;
    [|destruct (String.eqb name "train_alerts") eqn:?E3;
      [|destruct (String.eqb name "carpark_availability") eqn:?E4;
        [|destruct (String.eqb name "travel_times") eqn:?E5;
          [|destruct (String.eqb name "traffic_incidents") eqn:?E6;
            [|destruct (String.eqb name "station_crowd_forecast") eqn:?E7]]]]]].

Lemma registered_tool_matches (name : string) :
  In name tool_names ->
  String.eqb name "bus_arrival" = false ->
  String.eqb name "station_crowding" = false ->
  String.eqb name "train_alerts" = false ->
  String.eqb name "carpark_availability" = false ->
  String.eqb name "travel_times" = false ->
  String.eqb name "traffic_incidents" = false ->
  String.eqb name "station_crowd_forecast" = false ->
  False.
Proof.
  intros Hin H1 H2 H3 H4 H5 H6 H7.
  apply String.eqb_neq in H1, H2, H3, H4, H5, H6, H7.
  cbn in Hin. intuition congruence.
Qed.

Lemma makeRequest_shape (up : Upstream) (key u : string)
    (ps : list (string * option string)) :
  makeRequest up key u ps
  = ([{| url := u; params := ps; accountKey := key |}],
     map_answer (up {| url := u; params := ps; accountKey := key |})).
Proof. reflexivity. Qed.

Lemma stdio_get_makeRequest (up : Upstream) (key u : string)
    (ps : list (string * option string)) :
  Stdio.get up key u ps = makeRequest up key u ps.
Proof. reflexivity. Qed.

(** Every run of the handler makes at most one upstream request, with the
    key it was registered with, and ends as [map_answer] says. *)
Lemma callTool_run (up : Upstream) (key name : string) (args : Args) :
  (exists rq, callTool up key name args = ([rq], map_answer (up rq))
              /\ accountKey rq = key)
  \/ (exists e, callTool up key name args = ([], Throw e)).
Proof.
  unfold callTool. by_tool name;
    try (destruct args as [o|]; cbn [destructure]);
    try (left; eexists; split; [apply makeRequest_shape | reflexivity]);
    right; eexists; reflexivity.
Qed.

Lemma stdio_callTool_run (up : Upstream) (key name : string) (args : Args) :
  (exists rq, Stdio.callTool up key name args = ([rq], map_answer (up rq))
              /\ accountKey rq = key)
  \/ (exists e, Stdio.callTool up key name args = ([], Throw e)).
Proof.
  unfold Stdio.callTool. by_tool name;
    try (destruct args as [o|]; cbn [destructure]);
    try (left; eexists; split; [apply makeRequest_shape | reflexivity]);
    right; eexists; reflexivity.
Qed.

Lemma callTool_registered (up : Upstream) (key name : string)
    (o : gmap string string) :
  In name tool_names ->
  exists rq, callTool up key name (Some o) = ([rq], map_answer (up rq))
             /\ accountKey rq = key.
Proof.
  intros Hin. unfold callTool. by_tool name; cbn [destructure];
    try (eexists; split; [apply makeRequest_shape | reflexivity]).
  exfalso. eauto using registered_tool_matches.
Qed.

End Dispatch.

(** C3, as stated, fails: the split between a reported result and a thrown
    fault does not tell an upstream that could not be reached from one that
    answered with an error. When the host name does not resolve, axios
    rejects with an axios error that carries no response, and both handlers
    return normally a result with [isError = true], just as they do when the
    upstream answers HTTP 401; nothing is thrown. *)
Lemma unreachable_upstream_reported_not_thrown :
  let rq := {| Tools.url := Tools.base +:+ "TrainServiceAlerts";
               Tools.params := [];
               Tools.accountKey := "key" |} in
  let unreachable :=
    Normal {| Tools.content :=
                ["LTA API error: getaddrinfo ENOTFOUND datamall2.mytransport.sg"];
              Tools.isError := Some true |} in
  let answered :=
    Normal {| Tools.content := ["LTA API error: Invalid AccountKey"];
              Tools.isError := Some true |} in
  Tools.callTool Samples.upstream_unreachable "key" "train_alerts" None
  = ([rq], unreachable)
  /\ Stdio.callTool Samples.upstream_unreachable "key" "train_alerts" None
     = ([rq], unreachable)
  /\ Tools.callTool Scenario.upstream_401 "key" "train_alerts" None
     = ([rq], answered)
  /\ Stdio.callTool Scenario.upstream_401 "key" "train_alerts" None
     = ([rq], answered).
Proof. cbn zeta. repeat split; vm_compute; reflexivity. Qed.

(** C3, amended. An invocation of an advertised tool that carries an
    arguments object, or names a tool without parameters, makes one upstream
    GET with the registered key, in the HTTP server's handler and in the
    stdio handler alike, and ends as the answer to that GET decides. When
    the GET is rejected with an axios error, whether the upstream answered
    with an error status or could not be reached at all, the handler returns
    normally a result with [isError = true] whose text is [LTA API error: ]
    followed by the message of the upstream body, or by the message of the
    error when there is no response or no message in it. When it is rejected
    with anything that is not an axios error, the handler throws that same
    error. When it resolves, the result carries the body and no [isError]. *)
Theorem upstream_error_reported_or_rethrown (up : Tools.Upstream)
    (key name : string) (args : Tools.Args) :
  In name Tools.tool_names ->
  (args = None ->
   In name ["train_alerts"; "carpark_availability"; "travel_times";
            "traffic_incidents"]) ->
  exists rq,
    Tools.accountKey rq = key
    /\ (let outcome :=
          match up rq with
          | Tools.Resolved text =>
              Normal {| Tools.content := [text]; Tools.isError := None |}
          | Tools.AxiosError (Some upstreamMessage) _ =>
              Normal {| Tools.content := ["LTA API error: " +:+ upstreamMessage];
                        Tools.isError := Some true |}
          | Tools.AxiosError None message =>
              Normal {| Tools.content := ["LTA API error: " +:+ message];
                        Tools.isError := Some true |}
          | Tools.OtherError e => Throw (Tools.Rethrown e)
          end in
        Tools.callTool up key name args = ([rq], outcome)
        /\ Stdio.callTool up key name args = ([rq], outcome)).
Proof.
  intros Hin Hargs.
  assert (Hmap : forall ans,
            Tools.map_answer ans
            = match ans with
              | Tools.Resolved text =>
                  Normal {| Tools.content := [text]; Tools.isError := None |}
              | Tools.AxiosError (Some upstreamMessage) _ =>
                  Normal {| Tools.content := ["LTA API error: " +:+ upstreamMessage];
                            Tools.isError := Some true |}
              | Tools.AxiosError None message =>
                  Normal {| Tools.content := ["LTA API error: " +:+ message];
                            Tools.isError := Some true |}
              | Tools.OtherError e => Throw (Tools.Rethrown e)
              end).
  { intros [text|[m|] message|e]; reflexivity. }
  assert (Hobj : forall tool, String.eqb name tool = true ->
            ~ In tool ["train_alerts"; "carpark_availability"; "travel_times";
                       "traffic_incidents"] ->
            exists o, args = Some o).
  { intros tool Heq Hnot. apply String.eqb_eq in Heq as ->.
    destruct args as [o|]; [eauto|]. exfalso. apply Hnot, Hargs. reflexivity. }
  cbn zeta. unfold Tools.callTool, Stdio.callTool.
  destruct (String.eqb name "bus_arrival") eqn:E1;
  [|destruct (String.eqb name "station_crowding") eqn:E2;
    [|destruct (String.eqb name "train_alerts") eqn:E3;
      [|destruct (String.eqb name "carpark_availability") eqn:E4;
        [|destruct (String.eqb name "travel_times") eqn:E5;
          [|destruct (String.eqb name "traffic_incidents") eqn:E6;
            [|destruct (String.eqb name "station_crowd_forecast") eqn:E7]]]]]];
    try match goal with
        | E : String.eqb name ?tool = true |- context [Tools.destructure] =>
            destruct (Hobj tool E) as [o ->];
            [cbn; intuition discriminate|cbn [Tools.destructure]]
        end;
    try (eexists; split; [|split;
           [rewrite makeRequest_shape, Hmap; reflexivity
           |rewrite stdio_get_makeRequest, makeRequest_shape, Hmap; reflexivity]];
         reflexivity).
  exfalso. eauto using registered_tool_matches.
Qed.

(** The scenario of the specification: HTTP 401 with a message. *)
Lemma upstream_error_witness :
  In "bus_arrival" Tools.tool_names
  /\ exists rq,
      Tools.accountKey rq = "bad-key"
      /\ Tools.callTool Scenario.upstream_401 "bad-key" "bus_arrival"
           (Some {[ "busStopCode" := "83139" ]})
         = ([rq], Normal {| Tools.content := ["LTA API error: Invalid AccountKey"];
                            Tools.isError := Some true |})
      /\ Stdio.callTool Scenario.upstream_401 "bad-key" "bus_arrival"
           (Some {[ "busStopCode" := "83139" ]})
         = ([rq], Normal {| Tools.content := ["LTA API error: Invalid AccountKey"];
                            Tools.isError := Some true |}).
Proof.
  assert (Hin : In "bus_arrival" Tools.tool_names) by (cbn; auto).
  split; [exact Hin|].
  destruct (upstream_error_reported_or_rethrown Scenario.upstream_401 "bad-key"
              "bus_arrival" (Some {[ "busStopCode" := "83139" ]}) Hin)
    as (rq & Hk & H1 & H2); [discriminate|].
  exists rq. split; [exact Hk|]. split; [exact H1|exact H2].
Defined.

(** C2, as stated, fails: [station_crowding] with a [trainLine] outside the
    advertised enumeration is not rejected; the upstream GET is made with
    the value as given and its answer is returned as an ordinary result. *)
Lemma station_crowding_bad_line_reaches_upstream :
  ~ In "ZZZ" Tools.train_lines
  /\ Tools.callTool Scenario.upstream_ok "key" "station_crowding"
       (Some {[ "trainLine" := "ZZZ" ]})
     = ([{| Tools.url := "https://datamall2.mytransport.sg/ltaodataservice/PCDRealTime";
            Tools.params := [("TrainLine", Some "ZZZ")];
            Tools.accountKey := "key" |}],
        Normal {| Tools.content := ["{ Services: [] }"]; Tools.isError := None |}).
Proof.
  split; [|vm_compute; reflexivity].
  cbn. intuition discriminate.
Qed.

(** C2, amended. The handler checks no parameter. For a registered tool and
    any arguments object, with required parameters missing or values outside
    an enumeration as well, it makes exactly one upstream GET, with the
    registered key and the supplied values passed as they are (a missing
    one as [undefined]), and ends as the upstream's answer decides. Only a
    call without any arguments object stops before the upstream call, for
    the three tools that read a parameter, and it does so with a
    [TypeError]. *)
Theorem dispatch_forwards_unchecked (up : Tools.Upstream) (key name : string)
    (o : gmap string string) :
  In name Tools.tool_names ->
  (exists rq,
      Tools.callTool up key name (Some o) = ([rq], Tools.map_answer (up rq))
      /\ Tools.accountKey rq = key)
  /\ fst (Tools.callTool up key "station_crowding" (Some o))
     = [{| Tools.url := Tools.base +:+ "PCDRealTime";
           Tools.params := [("TrainLine", o !! "trainLine")];
           Tools.accountKey := key |}]
  /\ fst (Tools.callTool up key "station_crowd_forecast" (Some o))
     = [{| Tools.url := Tools.base +:+ "PCDForecast";
           Tools.params := [("TrainLine", o !! "trainLine")];
           Tools.accountKey := key |}]
  /\ fst (Tools.callTool up key "bus_arrival" (Some o))
     = [{| Tools.url := Tools.base +:+ "v3/BusArrival";
           Tools.params := ("BusStopCode", o !! "busStopCode")
                           :: Tools.spread_serviceNo (o !! "serviceNo");
           Tools.accountKey := key |}]
  /\ Tools.callTool up key "station_crowding" None = ([], Throw Tools.TypeError)
  /\ Tools.callTool up key "station_crowd_forecast" None = ([], Throw Tools.TypeError)
  /\ Tools.callTool up key "bus_arrival" None = ([], Throw Tools.TypeError).
Proof.
  intros Hin. split; [|repeat split].
  destruct (callTool_registered up key name o Hin) as (rq & H1 & H2).
  exists rq. auto.
Qed.

Lemma dispatch_forwards_witness :
  In "bus_arrival" Tools.tool_names
  /\ exists rq,
      Tools.callTool Scenario.upstream_ok "key" "bus_arrival" (Some ∅)
      = ([rq], Tools.map_answer (Scenario.upstream_ok rq))
      /\ Tools.accountKey rq = "key".
Proof.
  assert (Hin : In "bus_arrival" Tools.tool_names) by (cbn; auto).
  split; [exact Hin|].
  exact (proj1 (dispatch_forwards_unchecked Scenario.upstream_ok "key"
                  "bus_arrival" ∅ Hin)).
Defined.

(** ** The [/mcp] endpoint *)

Section Endpoint.
Import Tools Server.

Lemma sdk_step_analytics (up : Upstream) (t : Transport) (h : Handling)
    (ev : SdkEvent) :
  analytics (state (sdk_step up t h ev)) = analytics (state h).
Proof.
  destruct ev as [id|name args| |]; cbn [sdk_step]; try reflexivity.
  destruct (callTool up (boundKey t) name args) as [reqs r]. reflexivity.
Qed.

Lemma fold_sdk_analytics (up : Upstream) (t : Transport) (evs : list SdkEvent)
    (h : Handling) :
  analytics (state (fold_left (sdk_step up t) evs h)) = analytics (state h).
Proof.
  revert h. induction evs as [|ev evs IH]; intros h; [reflexivity|].
  cbn [fold_left]. rewrite IH. apply sdk_step_analytics.
Qed.

(** No callback of the transport touches the aggregator. *)
Lemma handleRequest_analytics (up : Upstream) (t : Transport)
    (evs : list SdkEvent) (st : State) :
  analytics (state (handleRequest up t evs st)) = analytics st.
Proof. unfold handleRequest. now rewrite fold_sdk_analytics. Qed.

(** The aggregator after a request on [/mcp] is the one left by
    [trackRequest], whatever the transport did. *)
Lemma mcp_analytics (dflt now : string) (up : Upstream) (evs : list SdkEvent)
    (req : Request) (st : State) :
  analytics (mcp dflt now up evs req st).1.1
  = trackRequest now req "/mcp" (analytics st).
Proof.
  unfold mcp.
  destruct (negb (truthy (getApiKey dflt req))); [reflexivity|].
  destruct (find_session req _) as [t|]; cbn [fst].
  - now rewrite handleRequest_analytics.
  - destruct (is_get_or_delete (method req)); cbn [fst]; [reflexivity|].
    now rewrite handleRequest_analytics.
Qed.

Lemma callTool_keys (up : Upstream) (key name : string) (args : Args)
    (rq : UpstreamRequest) :
  In rq (fst (callTool up key name args)) -> accountKey rq = key.
Proof.
  destruct (callTool_run up key name args) as [(rq' & -> & Hk)|(e & ->)];
    cbn [fst In]; intuition congruence.
Qed.

Lemma fold_sdk_keys (up : Upstream) (t : Transport) (evs : list SdkEvent)
    (h : Handling) :
  (forall rq, In rq (upstream_log h) -> accountKey rq = boundKey t) ->
  forall rq, In rq (upstream_log (fold_left (sdk_step up t) evs h)) ->
             accountKey rq = boundKey t.
Proof.
  revert h. induction evs as [|ev evs IH]; intros h Hh; [exact Hh|].
  cbn [fold_left]. apply IH.
  destruct ev as [id|name args| |]; cbn [sdk_step upstream_log]; try exact Hh.
  destruct (callTool up (boundKey t) name args) as [reqs r] eqn:E.
  cbn [upstream_log]. intros rq Hin. apply in_app_or in Hin as [Hin|Hin].
  - now apply Hh.
  - apply (callTool_keys up (boundKey t) name args). now rewrite E.
Qed.

(** Every upstream request made through a transport carries the key that
    was given to [registerTools] when the transport was created. *)
Lemma handleRequest_keys (up : Upstream) (t : Transport) (evs : list SdkEvent)
    (st : State) (rq : UpstreamRequest) :
  In rq (upstream_log (handleRequest up t evs st)) -> accountKey rq = boundKey t.
Proof.
  unfold handleRequest. apply fold_sdk_keys. intros ? [].
Qed.

(** The close handler of a transport created by a request that carried no
    session header removes nothing. *)
Lemma onclose_without_header (t : Transport) (ts : gmap string Transport) :
  creatorSession t = None -> onclose t ts = ts.
Proof. intros H. unfold onclose. now rewrite H. Qed.




End Endpoint.

(** C1 fails on the code: [trackToolCall] has no caller. A [bus_arrival]
    invocation on a live session, answered by the upstream with HTTP 200,
    returns the body as a result and makes its upstream request, yet
    [toolCalls["bus_arrival"]], [totalToolCalls] and [recentToolCalls] are
    what they were before; only the request counters of [trackRequest]
    moved. *)
Theorem bus_arrival_call_not_recorded :
  let req := Scenario.request "POST" None (Some "s1") in
  let evs := [Server.CallToolRequest "bus_arrival"
                (Some {[ "busStopCode" := "83139" ]})] in
  let r := Server.mcp "default-key" Scenario.now Scenario.upstream_ok evs req
             Scenario.live in
  r.1.2 = Server.TransportReply
            [Normal {| Tools.content := ["{ Services: [] }"]; Tools.isError := None |}]
  /\ length r.2 = 1%nat
  /\ toolCalls (Server.analytics r.1.1) !! "bus_arrival" = None
  /\ toolCalls (Server.analytics Scenario.live) !! "bus_arrival" = None
  /\ totalToolCalls (Server.analytics r.1.1) = 0
  /\ recentToolCalls (Server.analytics r.1.1) = []
  /\ totalRequests (Server.analytics r.1.1) = 1.
Proof.
  cbn zeta. rewrite mcp_analytics.
  split; [vm_compute; reflexivity|].
  split; [vm_compute; reflexivity|].
  cbn [toolCalls totalToolCalls recentToolCalls totalRequests trackRequest
       Server.analytics Scenario.live Analytics.initial].
  rewrite lookup_empty. auto.
Qed.




(** C6, as stated, fails: a request on the live session [s1], created with
    [key-A], that carries [?apiKey=key-B] has its tool call sent upstream
    with [key-A], not with the key of the request. *)
Lemma follow_up_request_uses_session_key :
  let req := Scenario.request "POST" (Some "key-B") (Some "s1") in
  let evs := [Server.CallToolRequest "train_alerts" None] in
  Server.getApiKey "default-key" req = "key-B"
  /\ map Tools.accountKey
       (Server.mcp "default-key" Scenario.now Scenario.upstream_ok evs req
          Scenario.live).2
     = ["key-A"].
Proof. cbn zeta. split; vm_compute; reflexivity. Qed.

(** C6, amended. The key resolved for a request on [/mcp] is its [apiKey]
    query parameter when present and non-empty, otherwise the process-wide
    default. When that key is empty the request is answered with HTTP 500,
    and no transport, tool handler or upstream is reached. Otherwise every
    upstream call made while the request is handled carries the key bound
    to its session: for a session created by this request, the key resolved
    for it; for a session that exists already, the key resolved when that
    session was created. *)
Theorem credential_resolved_per_request_bound_per_session (dflt now : string)
    (up : Tools.Upstream) (evs : list Server.SdkEvent) (req : Request)
    (st : Server.State) :
  let r := Server.mcp dflt now up evs req st in
  Server.getApiKey dflt req
  = match query_apiKey req with
    | Some k => if truthy k then k else dflt
    | None => dflt
    end
  /\ (truthy (Server.getApiKey dflt req) = false ->
      r.1.2 = Server.JsonError 500
                "Server configuration error: No LTA API key available"
      /\ r.2 = []
      /\ Server.transports r.1.1 = Server.transports st)
  /\ (forall rq, In rq r.2 ->
        Tools.accountKey rq
        = match Server.find_session req (Server.transports st) with
          | Some t => Server.boundKey t
          | None => Server.getApiKey dflt req
          end).
Proof.
  cbn zeta. split; [reflexivity|]. unfold Server.mcp. split.
  - intros ->. cbn [negb fst snd]. auto.
  - intros rq.
    destruct (negb (truthy (Server.getApiKey dflt req))); cbn [snd]; [intros []|].
    cbn [Server.transports Server.set_analytics].
    destruct (Server.find_session req (Server.transports st)) as [t|]; cbn [snd].
    + apply handleRequest_keys.
    + destruct (Server.is_get_or_delete (method req)); cbn [snd]; [intros []|].
      intros Hin. now apply handleRequest_keys in Hin.
Qed.

Lemma credential_witness :
  let req := Scenario.request "POST" None None in
  truthy (Server.getApiKey EmptyString req) = false
  /\ (Server.mcp EmptyString Scenario.now Scenario.upstream_ok
        [Server.CallToolRequest "train_alerts" None] req Scenario.live).1.2
     = Server.JsonError 500 "Server configuration error: No LTA API key available".
Proof.
  cbn zeta. split; [reflexivity|].
  exact (proj1 (proj1 (proj2 (credential_resolved_per_request_bound_per_session
                                EmptyString Scenario.now Scenario.upstream_ok
                                [Server.CallToolRequest "train_alerts" None]
                                (Scenario.request "POST" None None) Scenario.live))
                      eq_refl)).
Defined.

(** ** Startup *)

Section Startup.
Import Server.


Lemma loadAnalytics_normal (env : LoadEnv) (st : State) :
  exists st', loadAnalytics env st = Normal st'
              /\ transports st' = transports st
              /\ firebase st' = firebase st.
Proof.
  unfold loadAnalytics. destruct (loadAnalytics_body env st) as [a|e];
    cbn [try_catch]; eexists; split; reflexivity || (split; reflexivity).
Qed.


End Startup.



(** A history of 101 invocations on a fresh aggregator. *)
Lemma recent_calls_witness :
  let cs := map Scenario.nth_call (seq 0 101) in
  let a := Analytics.initial "2025-01-01T00:00:00.000Z" in
  (length (recentToolCalls a) <= MAX_RECENT_CALLS)%nat
  /\ (length (recentToolCalls (trackToolCalls cs a)) <= 100)%nat
  /\ recentToolCalls (trackToolCalls cs a) = firstn 100 (rev (map record_of cs)).
Proof.
  cbn zeta.
  assert (H0 : (length (recentToolCalls
                          (Analytics.initial "2025-01-01T00:00:00.000Z"))
                <= MAX_RECENT_CALLS)%nat) by (cbn; lia).
  split; [exact H0|].
  destruct (recent_calls_bounded_newest_first
              (map Scenario.nth_call (seq 0 101))
              (Analytics.initial "2025-01-01T00:00:00.000Z") H0)
    as (_ & Hlen & _ & Hnew).
  split; [exact Hlen|]. apply Hnew.
  rewrite length_map, length_seq. lia.
Defined.

(** * Further properties of the code *)

(** ** The two tool handlers *)

(** Case analysis along the [switch] of a handler. *)
Ltac split_by_tool name :=
  destruct (String.eqb name "bus_arrival") eqn:?E1;
  [|destruct (String.eqb name "station_crowding") eqn:?E2;
    [|destruct (String.eqb name "train_alerts") eqn:?E3;
      [|destruct (String.eqb name "carpark_availability") eqn:?E4;
        [|destruct (String.eqb name "travel_times") eqn:?E5;
          [|destruct (String.eqb name "traffic_incidents") eqn:?E6;
            [|destruct (String.eqb name "station_crowd_forecast") eqn:?E7]]]]]].

Section Handlers.
Import Tools.

Lemma destructure_not_unknown (args : Args) (k : gmap string string -> Run)
    (msg : string) :
  (forall o, k o <> ([], Throw (UnknownToolError msg))) ->
  destructure args k <> ([], Throw (UnknownToolError msg)).
Proof. intros Hk. destruct args as [o|]; cbn; [apply Hk|discriminate]. Qed.

Lemma destructure_not_missing (args : Args) (k : gmap string string -> Run)
    (msg : string) :
  (forall o, k o <> ([], Throw (McpMethodNotFound msg))) ->
  destructure args k <> ([], Throw (McpMethodNotFound msg)).
Proof. intros Hk. destruct args as [o|]; cbn; [apply Hk|discriminate]. Qed.

Lemma spread_serviceNo_in (x : option string) (p : string) (v : option string) :
  In (p, v) (spread_serviceNo x) ->
  p = "ServiceNo" /\ v = x /\ exists s, v = Some s /\ s <> EmptyString.
Proof.
  unfold spread_serviceNo. destruct x as [s|]; [|intros []].
  destruct s as [|c r]; cbn; [intros []|].
  intros [H|[]]. injection H as <- <-. repeat split. eexists. split; [reflexivity|].
  discriminate.
Qed.

End Handlers.

(** X1. The handlers accept exactly the advertised tool names. For a name
    that is not advertised the HTTP handler throws [Unknown tool: <name>]
    and the stdio handler throws [MethodNotFound] with the same text, and
    neither makes an upstream request; for an advertised name neither ever
    ends that way, whatever the arguments and the upstream. *)
Theorem unknown_tool_iff_not_advertised (up : Tools.Upstream) (key name : string)
    (args : Tools.Args) :
  (~ In name Tools.tool_names
   <-> Tools.callTool up key name args
       = ([], Throw (Tools.UnknownToolError ("Unknown tool: " +:+ name))))
  /\ (~ In name Tools.tool_names
      <-> Stdio.callTool up key name args
          = ([], Throw (Tools.McpMethodNotFound ("Unknown tool: " +:+ name)))).
Proof.
  assert (Hreg : forall lit, String.eqb name lit = true ->
                             In lit Tools.tool_names -> ~ ~ In name Tools.tool_names).
  { intros lit H Hin Hn. apply Hn. apply String.eqb_eq in H. now subst. }
  split; split.
  - intros Hn. unfold Tools.callTool. split_by_tool name;
      try (exfalso; eapply Hreg; [eassumption| |exact Hn]; cbn; tauto).
    reflexivity.
  - intros H Hin. unfold Tools.callTool in H. revert H. split_by_tool name;
      try (apply destructure_not_unknown; intros o; discriminate);
      try discriminate.
    eauto using registered_tool_matches.
  - intros Hn. unfold Stdio.callTool. split_by_tool name;
      try (exfalso; eapply Hreg; [eassumption| |exact Hn]; cbn; tauto).
    reflexivity.
  - intros H Hin. unfold Stdio.callTool in H. revert H. split_by_tool name;
      try (apply destructure_not_missing; intros o; discriminate);
      try discriminate.
    eauto using registered_tool_matches.
Qed.

Lemma unknown_tool_witness :
  ~ In "bus_departure" Tools.tool_names
  /\ Tools.callTool Scenario.upstream_ok "k" "bus_departure" None
     = ([], Throw (Tools.UnknownToolError "Unknown tool: bus_departure")).
Proof.
  assert (Hn : ~ In "bus_departure" Tools.tool_names)
    by (cbn; intuition discriminate).
  split; [exact Hn|].
  exact (proj1 (proj1 (unknown_tool_iff_not_advertised Scenario.upstream_ok "k"
                         "bus_departure" None)) Hn).
Defined.

(** X2. The HTTP handler and the stdio handler are the same function on
    every advertised tool: same upstream request, same result, same thrown
    error, for all arguments, keys and upstream answers. *)
Theorem http_and_stdio_handlers_agree (up : Tools.Upstream) (key name : string)
    (args : Tools.Args) :
  In name Tools.tool_names ->
  Stdio.callTool up key name args = Tools.callTool up key name args.
Proof.
  intros Hin. unfold Stdio.callTool, Tools.callTool.
  split_by_tool name; try reflexivity.
  exfalso. eauto using registered_tool_matches.
Qed.

Lemma http_and_stdio_handlers_witness :
  In "travel_times" Tools.tool_names
  /\ Stdio.callTool Scenario.upstream_401 "k" "travel_times" None
     = Tools.callTool Scenario.upstream_401 "k" "travel_times" None.
Proof.
  assert (Hin : In "travel_times" Tools.tool_names) by (cbn; tauto).
  split; [exact Hin|].
  exact (http_and_stdio_handlers_agree Scenario.upstream_401 "k" "travel_times"
           None Hin).
Defined.

(** X3. An invocation makes at most one upstream request. Its URL is fixed
    by the tool name alone, under the DataMall base address: neither the
    arguments, the key nor the upstream can change it. It carries the key
    the handler was registered with, and every query parameter it sends is
    [BusStopCode], [ServiceNo] or [TrainLine] with the value of the argument
    [busStopCode], [serviceNo] or [trainLine]; [ServiceNo] is sent only with
    a non-empty value. *)
Theorem upstream_request_fixed_by_tool (up up' : Tools.Upstream)
    (key key' name : string) (args args' : Tools.Args) :
  let log := fst (Tools.callTool up key name args) in
  let log' := fst (Tools.callTool up' key' name args') in
  (length log <= 1)%nat
  /\ (forall rq rq', In rq log -> In rq' log' -> Tools.url rq = Tools.url rq')
  /\ (forall rq, In rq log ->
        Tools.accountKey rq = key
        /\ (exists path, Tools.url rq = Tools.base +:+ path)
        /\ forall p v, In (p, v) (Tools.params rq) ->
             let o := default ∅ args in
             (p = "BusStopCode" /\ v = o !! "busStopCode")
             \/ (p = "TrainLine" /\ v = o !! "trainLine")
             \/ (p = "ServiceNo" /\ v = o !! "serviceNo"
                 /\ exists s, v = Some s /\ s <> EmptyString)).
Proof.
  cbn zeta. unfold Tools.callTool.
  split_by_tool name; destruct args as [o|], args' as [o'|];
    cbn [Tools.destructure Tools.makeRequest fst length In];
    (split; [lia|]);
    (split; [intros rq rq' H H'; try tauto;
             destruct H as [<-|[]]; destruct H' as [<-|[]]; reflexivity|]);
    intros rq H; try tauto; destruct H as [<-|[]];
    cbn [Tools.accountKey Tools.url Tools.params];
    (split; [reflexivity|]); (split; [eexists; reflexivity|]);
    intros p v Hin; cbn [default from_option] in *; unfold id.
  all: try (destruct Hin as [Hin|Hin];
            [injection Hin as <- <-; tauto|]).
  all: try (destruct Hin).
  all: apply spread_serviceNo_in in Hin; tauto.
Qed.

Lemma upstream_request_witness :
  let rq := {| Tools.url := Tools.base +:+ "TrainServiceAlerts";
               Tools.params := []; Tools.accountKey := "k" |} in
  In rq (fst (Tools.callTool Scenario.upstream_ok "k" "train_alerts" None))
  /\ Tools.accountKey rq = "k".
Proof.
  cbn zeta.
  assert (Hin : In {| Tools.url := Tools.base +:+ "TrainServiceAlerts";
                      Tools.params := []; Tools.accountKey := "k" |}
                  (fst (Tools.callTool Scenario.upstream_ok "k" "train_alerts" None)))
    by (left; reflexivity).
  split; [exact Hin|].
  exact (proj1 (proj2 (proj2 (upstream_request_fixed_by_tool Scenario.upstream_ok
                                Scenario.upstream_ok "k" "k" "train_alerts" None None))
                  _ Hin)).
Defined.

(** X4. A handler returns a result only after its upstream request was
    answered. On success the result is the body text alone, with [isError]
    absent; [isError] is present, and then [true], exactly when the upstream
    rejected the request with an axios error. *)
Theorem result_follows_upstream_answer (up : Tools.Upstream) (key name : string)
    (args : Tools.Args) (r : Tools.ToolResult) :
  snd (Tools.callTool up key name args) = Normal r ->
  exists rq,
    fst (Tools.callTool up key name args) = [rq]
    /\ length (Tools.content r) = 1%nat
    /\ ((exists text, up rq = Tools.Resolved text
                      /\ r = {| Tools.content := [text]; Tools.isError := None |})
        \/ (exists m message, up rq = Tools.AxiosError m message
                              /\ Tools.isError r = Some true)).
Proof.
  destruct (callTool_run up key name args) as [(rq & -> & _)|(e & ->)];
    cbn [fst snd]; [|discriminate].
  intros H. exists rq. split; [reflexivity|].
  unfold Tools.map_answer in H. destruct (up rq) as [text|m message|e];
    [| |discriminate]; injection H as <-; (split; [reflexivity|]).
  - left. eauto.
  - right. eauto.
Qed.

Lemma result_follows_upstream_witness :
  exists rq,
    fst (Tools.callTool Scenario.upstream_ok "k" "train_alerts" None) = [rq]
    /\ Scenario.upstream_ok rq = Tools.Resolved "{ Services: [] }".
Proof.
  destruct (result_follows_upstream_answer Scenario.upstream_ok "k" "train_alerts"
              None {| Tools.content := ["{ Services: [] }"]; Tools.isError := None |}
              eq_refl) as (rq & Hlog & _ & _).
  exists rq. split; [exact Hlog|reflexivity].
Defined.

(** ** The aggregator over sequences of updates *)

Section Aggregator.
Import Trace.

Lemma sum_values_empty : sum_values ∅ = 0.
Proof. apply map_fold_empty. Qed.

Lemma sum_values_insert_fresh (k : string) (v : Z) (m : gmap string Z) :
  m !! k = None -> sum_values (<[k := v]> m) = v + sum_values m.
Proof.
  intros H. unfold sum_values.
  apply (map_fold_insert_L (fun _ v acc => v + acc)); [|exact H].
  intros. lia.
Qed.

Lemma sum_values_lookup (k : string) (v : Z) (m : gmap string Z) :
  m !! k = Some v -> sum_values m = v + sum_values (delete k m).
Proof.
  intros H. unfold sum_values.
  apply (map_fold_delete_L (fun _ v acc => v + acc)); [|exact H].
  intros. lia.
Qed.

Lemma sum_values_bump (k : string) (n : Z) (m : gmap string Z) :
  sum_values (bump k n m) = sum_values m + n.
Proof.
  unfold bump. rewrite <- insert_delete_eq.
  rewrite sum_values_insert_fresh by apply lookup_delete_eq.
  rewrite or_zero_default.
  destruct (m !! k) as [v|] eqn:E; cbn [default from_option]; unfold id.
  - rewrite (sum_values_lookup k v m E). lia.
  - rewrite delete_id by exact E. lia.
Qed.

Lemma step_balanced (e : Event) (a : AnalyticsData) :
  balanced a -> balanced (step e a).
Proof.
  unfold balanced. intros (H1 & H2 & H3 & H4 & H5 & H6).
  destruct e as [now req endpoint|now name req];
    cbn [step trackRequest trackToolCall requestsByMethod requestsByEndpoint
         clientsByIp clientsByUserAgent hourlyRequests toolCalls totalRequests
         totalToolCalls];
    rewrite ?sum_values_bump; repeat split; lia.
Qed.

Lemma run_balanced (es : list Event) (a : AnalyticsData) :
  balanced a -> balanced (run es a).
Proof.
  revert a. induction es as [|e es IH]; intros a Ha; [exact Ha|].
  unfold run in *. cbn [fold_left]. apply IH, step_balanced, Ha.
Qed.

Lemma bump_lookup (k j : string) (n : Z) (m : gmap string Z) :
  default 0 (bump k n m !! j)
  = default 0 (m !! j) + (if decide (k = j) then n else 0).
Proof.
  unfold bump. destruct (decide (k = j)) as [->|Hne].
  - rewrite lookup_insert_eq, or_zero_default. reflexivity.
  - rewrite lookup_insert_ne by exact Hne. lia.
Qed.

Lemma room_fits_sum (n : nat) (v : Z) : Plain.room (S n) v -> Plain.fits_sum v 1.
Proof.
  unfold Plain.room, Plain.fits_sum. rewrite !exact_bounds.
  unfold Plain.MAX_EXACT. lia.
Qed.

Lemma room_less (n : nat) (v : Z) : Plain.room (S n) v -> Plain.room n v.
Proof. unfold Plain.room. lia. Qed.

Lemma room_next (n : nat) (v : Z) : Plain.room (S n) v -> Plain.room n (v + 1).
Proof. unfold Plain.room. lia. Qed.

Lemma table_room_less (n : nat) (m : gmap string Z) :
  Plain.table_room (S n) m -> Plain.table_room n m.
Proof. intros H k v Hk. apply room_less, (H k v Hk). Qed.

Lemma table_room_fits (n : nat) (m : gmap string Z) (k : string) :
  Plain.plain_key m k -> Plain.table_room (S n) m -> Plain.fits m k 1.
Proof.
  intros Hk Hm. split; [exact Hk|].
  destruct (m !! k) as [v|] eqn:E; cbn [default from_option]; unfold id.
  - apply (room_fits_sum n), (Hm k v E).
  - repeat split.
Qed.

Lemma table_room_bump (n : nat) (total : Z) (m : gmap string Z) (k : string) :
  Plain.room (S n) total -> Plain.table_room (S n) m ->
  Plain.table_room n (bump k 1 m).
Proof.
  intros Ht Hm j v. unfold bump. destruct (decide (k = j)) as [->|Hne].
  - rewrite lookup_insert_eq, or_zero_default. intros [= <-].
    destruct (m !! j) as [w|] eqn:E; cbn [default from_option]; unfold id.
    + apply room_next, (Hm j w E).
    + unfold Plain.room in *. lia.
  - rewrite lookup_insert_ne by exact Hne. intros Hj.
    apply room_less, (Hm j v Hj).
Qed.

Lemma keys_plain_step (e e' : Event) (a : AnalyticsData) :
  Plain.keys_plain e' a -> Plain.keys_plain e' (step e a).
Proof.
  destruct e as [now req endpoint|now name req],
           e' as [now' req' endpoint'|now' name' req'];
    cbn [Plain.keys_plain step trackRequest trackToolCall requestsByMethod
         requestsByEndpoint clientsByIp clientsByUserAgent hourlyRequests
         toolCalls]; intros H; try exact H.
  - destruct H as (H1 & H2 & H3 & H4 & H5).
    repeat split; now apply plain_key_bump.
  - now apply plain_key_bump.
Qed.

(** Updates that are in range stay so, one after the other. *)
Lemma in_range_step (e : Event) (es : list Event) (a : AnalyticsData) :
  Plain.in_range (e :: es) a ->
  Plain.step_fits e a /\ Plain.in_range es (step e a).
Proof.
  intros (Hk & Hr & Hc & H1 & H2 & H3 & H4 & H5 & H6). cbn [length] in *.
  pose proof (Hk e (or_introl eq_refl)) as He.
  pose proof (room_fits_sum _ _ Hr) as Fr.
  pose proof (room_fits_sum _ _ Hc) as Fc.
  split.
  - destruct e as [now req endpoint|now name req];
      cbn [Plain.step_fits Plain.keys_plain] in *.
    + destruct He as (K1 & K2 & K3 & K4 & K5).
      split; [exact Fr|].
      split; [eapply table_room_fits; eassumption|].
      split; [eapply table_room_fits; eassumption|].
      split; [eapply table_room_fits; eassumption|].
      split; eapply table_room_fits; eassumption.
    + split; [exact Fc|]. eapply table_room_fits; eassumption.
  - split; [intros e' He'; apply keys_plain_step, Hk; now right|].
    destruct e as [now req endpoint|now name req];
      cbn [step trackRequest trackToolCall totalRequests totalToolCalls
           requestsByMethod requestsByEndpoint toolCalls clientsByIp
           clientsByUserAgent hourlyRequests].
    + split; [apply room_next, Hr|]. split; [apply room_less, Hc|].
      split; [apply (table_room_bump _ _ _ _ Hr H1)|].
      split; [apply (table_room_bump _ _ _ _ Hr H2)|].
      split; [apply table_room_less, H3|].
      split; [apply (table_room_bump _ _ _ _ Hr H4)|].
      split; [apply (table_room_bump _ _ _ _ Hr H5)|].
      apply (table_room_bump _ _ _ _ Hr H6).
    + split; [apply room_less, Hr|]. split; [apply room_next, Hc|].
      split; [apply table_room_less, H1|].
      split; [apply table_room_less, H2|].
      split; [apply (table_room_bump _ _ _ _ Hc H3)|].
      split; [apply table_room_less, H4|].
      split; [apply table_room_less, H5|].
      apply table_room_less, H6.
Qed.

Lemma in_range_within (es : list Event) (a : AnalyticsData) :
  Plain.in_range es a -> Plain.within es a.
Proof.
  revert a. induction es as [|e es IH]; intros a H; [exact I|].
  apply in_range_step in H as [H1 H2]. split; [exact H1|]. now apply IH.
Qed.

Lemma trackToolCalls_run (cs : list call) (a : AnalyticsData) :
  trackToolCalls cs a = run (map Plain.called cs) a.
Proof.
  revert a. induction cs as [|[[now name] req] cs IH]; intros a; [reflexivity|].
  unfold trackToolCalls, run in *. cbn [map fold_left Plain.called step]. apply IH.
Qed.

Lemma plain_trackToolCalls_run (cs : list call) (d : Plain.Data) :
  Plain.trackToolCalls cs d = Plain.run (map Plain.called cs) d.
Proof.
  revert d. induction cs as [|[[now name] req] cs IH]; intros d; [reflexivity|].
  cbn [map Plain.trackToolCalls Plain.run Plain.called Plain.step].
  destruct (Plain.trackToolCall now name req d); [apply IH|reflexivity].
Qed.

Lemma trackToolCalls_counts (cs : list call) (a : AnalyticsData) (name : string) :
  let a' := trackToolCalls cs a in
  totalToolCalls a' = totalToolCalls a + Z.of_nat (length cs)
  /\ default 0 (toolCalls a' !! name)
     = default 0 (toolCalls a !! name) + Z.of_nat (Trace.calls_of name cs)
  /\ totalRequests a' = totalRequests a
  /\ requestsByMethod a' = requestsByMethod a
  /\ requestsByEndpoint a' = requestsByEndpoint a
  /\ clientsByIp a' = clientsByIp a
  /\ clientsByUserAgent a' = clientsByUserAgent a
  /\ hourlyRequests a' = hourlyRequests a
  /\ serverStartTime a' = serverStartTime a.
Proof.
  cbn zeta. revert a. induction cs as [|[[now nm] req] cs IH]; intros a.
  - cbn. repeat split; lia.
  - unfold trackToolCalls in *. cbn [fold_left].
    destruct (IH (trackToolCall now nm req a))
      as (H1 & H2 & H3 & H4 & H5 & H6 & H7 & H8 & H9).
    rewrite H1, H2, H3, H4, H5, H6, H7, H8, H9.
    cbn [trackToolCall totalToolCalls toolCalls totalRequests requestsByMethod
         requestsByEndpoint clientsByIp clientsByUserAgent hourlyRequests
         serverStartTime].
    rewrite bump_lookup. unfold Trace.calls_of.
    cbn [map fst snd count_occ length].
    destruct (string_dec nm name) as [->|Hne].
    + rewrite decide_True by reflexivity. repeat split; lia.
    + rewrite decide_False by exact Hne. repeat split; lia.
Qed.

End Aggregator.

(** X5. A sequence of [trackToolCall] invocations whose tool names are own
    keys of [toolCalls] or names that a plain object does not inherit, on
    counts that are not negative and stay within 2^53: [totalToolCalls] grows
    by the number of invocations, the count of each tool by the number of
    invocations that name it, and no request counter or table changes. A
    single invocation under an inherited name that is not an own key, such
    as [constructor], still adds one to [totalToolCalls] but leaves a string
    in the slot of that name, and nothing at all under [__proto__]. *)
Theorem tool_counts_match_invocations (cs : list call) (a : AnalyticsData)
    (name : string) :
  (Plain.in_range (map Plain.called cs) a ->
   exists a',
     Plain.trackToolCalls cs (Plain.lift a) = Some (Plain.lift a')
     /\ totalToolCalls a' = totalToolCalls a + Z.of_nat (length cs)
     /\ default 0 (toolCalls a' !! name)
        = default 0 (toolCalls a !! name) + Z.of_nat (Trace.calls_of name cs)
     /\ totalRequests a' = totalRequests a
     /\ requestsByMethod a' = requestsByMethod a
     /\ requestsByEndpoint a' = requestsByEndpoint a
     /\ clientsByIp a' = clientsByIp a
     /\ clientsByUserAgent a' = clientsByUserAgent a
     /\ hourlyRequests a' = hourlyRequests a
     /\ serverStartTime a' = serverStartTime a)
  /\ (forall now req,
        Plain.inherited name = true ->
        toolCalls a !! name = None ->
        Plain.room 1 (totalToolCalls a) ->
        exists d,
          Plain.trackToolCall now name req (Plain.lift a) = Some d
          /\ Plain.totalToolCalls d = Plain.Count (totalToolCalls a + 1)
          /\ Plain.toolCalls d
             = (if String.eqb name "__proto__"
                then Plain.Count <$> toolCalls a
                else <[name := Plain.Text]> (Plain.Count <$> toolCalls a))).
Proof.
  split.
  - intros H. exists (trackToolCalls cs a). split.
    + rewrite plain_trackToolCalls_run, trackToolCalls_run.
      apply run_refines, in_range_within, H.
    + apply trackToolCalls_counts.
  - intros now req Hinh Hnone Hroom. unfold Plain.trackToolCall.
    cbn [Plain.lift Plain.totalToolCalls Plain.toolCalls].
    rewrite (incr_counts _ (room_fits_sum 0 _ Hroom)).
    rewrite (bump_inherited name (Plain.JInt 1) (Plain.Count <$> toolCalls a) Hinh)
      by (rewrite ?lookup_fmap, ?Hnone; try reflexivity; discriminate).
    eexists. split; [reflexivity|]. split; reflexivity.
Qed.

Lemma tool_counts_witness :
  Plain.in_range (map Plain.called [Scenario.nth_call 0; Scenario.nth_call 1])
    Samples.busy
  /\ exists a',
      Plain.trackToolCalls [Scenario.nth_call 0; Scenario.nth_call 1]
        (Plain.lift Samples.busy)
      = Some (Plain.lift a')
      /\ totalToolCalls a' = 4.
Proof.
  assert (H : Plain.in_range
                (map Plain.called [Scenario.nth_call 0; Scenario.nth_call 1])
                Samples.busy).
  { split.
    - intros e [<-|[<-|[]]]; left; vm_compute; eauto.
    - unfold Plain.table_room, Plain.room, Plain.MAX_EXACT.
      cbn [Samples.busy totalRequests totalToolCalls requestsByMethod
           requestsByEndpoint toolCalls clientsByIp clientsByUserAgent
           hourlyRequests length map].
      repeat split; try lia;
        repeat match goal with
               | H : <[_ := _]> _ !! _ = Some _ |- _ =>
                   apply lookup_insert_Some in H as [[_ <-]|[_ H]]
               | H : {[_ := _]} !! _ = Some _ |- _ =>
                   apply lookup_singleton_Some in H as [_ <-]
               end; lia. }
  split; [exact H|].
  destruct (proj1 (tool_counts_match_invocations
                     [Scenario.nth_call 0; Scenario.nth_call 1] Samples.busy
                     "bus_arrival") H) as (a' & Ha & Ht & _).
  exists a'. split; [exact Ha|exact Ht].
Defined.

(** X6. [trackRequest] and [trackToolCall] keep the tables consistent with
    the totals, on plain keys and exact counts: for a sequence of the two
    updates whose keys are own keys of their tables or names that a plain
    object does not inherit, on counts that are not negative and stay within
    2^53, if the counts of each of the five request tables add up to
    [totalRequests] and those of [toolCalls] to [totalToolCalls], they still
    do afterwards. An address [__proto__] that is not an own key breaks
    this: the request is added to [totalRequests] and nothing is stored in
    [clientsByIp]. *)
Theorem tables_stay_balanced (es : list Trace.Event) (a : AnalyticsData) :
  (Plain.in_range es a ->
   exists a',
     Plain.run es (Plain.lift a) = Some (Plain.lift a')
     /\ (Trace.balanced a -> Trace.balanced a'))
  /\ (forall now req endpoint d d',
        Plain.trackRequest now req endpoint d = Some d' ->
        client_ip req = "__proto__" ->
        Plain.clientsByIp d !! "__proto__" = None ->
        Plain.incr (Plain.totalRequests d) = Some (Plain.totalRequests d')
        /\ Plain.clientsByIp d' = Plain.clientsByIp d).
Proof.
  split.
  - intros H. exists (Trace.run es a). split.
    + apply run_refines, in_range_within, H.
    + apply run_balanced.
  - intros now req endpoint d d' H Hip Hnone. unfold Plain.trackRequest in H.
    destruct (Plain.incr (Plain.totalRequests d)) as [total|]; [|discriminate].
    destruct (Plain.bump (method req) _ _) as [m1|]; [|discriminate].
    destruct (Plain.bump endpoint _ _) as [m2|]; [|discriminate].
    rewrite Hip in H.
    rewrite (bump_inherited "__proto__" (Plain.JInt 1) _ eq_refl Hnone) in H
      by discriminate.
    cbn [String.eqb Ascii.eqb Bool.eqb] in H.
    destruct (Plain.bump (user_agent req) _ _) as [m4|]; [|discriminate].
    destruct (Plain.bump (prefix 13 now) _ _) as [m5|]; [|discriminate].
    injection H as <-. split; reflexivity.
Qed.

Lemma tables_stay_balanced_witness :
  let a := Analytics.initial "2025-01-01T00:00:00.000Z" in
  let req := Scenario.request "POST" None None in
  let es := [Trace.Requested Scenario.now req "/mcp";
             Trace.ToolCalled Scenario.now "bus_arrival" req;
             Trace.Requested Scenario.now req "/health"] in
  Plain.in_range es a
  /\ exists a', Plain.run es (Plain.lift a) = Some (Plain.lift a')
                /\ Trace.balanced a'.
Proof.
  cbn zeta.
  assert (H0 : Trace.balanced (Analytics.initial "2025-01-01T00:00:00.000Z")).
  { unfold Trace.balanced. cbn [Analytics.initial requestsByMethod
      requestsByEndpoint clientsByIp clientsByUserAgent hourlyRequests toolCalls
      totalRequests totalToolCalls].
    rewrite sum_values_empty. repeat split. }
  match goal with |- ?P /\ _ => assert (H : P) end.
  { split.
    - intros e [<-|[<-|[<-|[]]]]; cbn [Plain.keys_plain]; repeat split;
        right; vm_compute; reflexivity.
    - unfold Plain.table_room, Plain.room, Plain.MAX_EXACT.
      cbn [Analytics.initial totalRequests totalToolCalls requestsByMethod
           requestsByEndpoint toolCalls clientsByIp clientsByUserAgent
           hourlyRequests length].
      repeat split; try lia;
        match goal with
        | H : ∅ !! _ = Some _ |- _ => rewrite lookup_empty in H; discriminate H
        end. }
  split; [exact H|].
  destruct (proj1 (tables_stay_balanced _ _) H) as (a' & Ha & Hb).
  exists a'. split; [exact Ha|exact (Hb H0)].
Defined.

(** ** What is recorded about a client *)

Section Clients.
Import Text.

Lemma or_str_truthy (o : option string) (d : string) :
  truthy d = true -> truthy (or_str o d) = true.
Proof.
  intros Hd. unfold or_str. destruct o as [s|]; [|exact Hd].
  destruct (truthy s) eqn:E; [exact E|exact Hd].
Qed.

Lemma truthy_nonempty (s : string) : truthy s = true -> s <> EmptyString.
Proof. destruct s; [discriminate|discriminate]. Qed.

Lemma prefix_length (n : nat) (s : string) : (String.length (prefix n s) <= n)%nat.
Proof.
  unfold prefix. revert s. induction n as [|n IH]; intros s.
  - destruct s; cbn; lia.
  - destruct s as [|c r]; cbn; [lia|]. specialize (IH r). lia.
Qed.

Lemma prefix_truthy (n : nat) (s : string) :
  truthy s = true -> truthy (prefix (S n) s) = true.
Proof. destruct s; [discriminate|reflexivity]. Qed.

Lemma client_ip_truthy (req : Request) : truthy (client_ip req) = true.
Proof. unfold client_ip. now apply or_str_truthy. Qed.

Lemma user_agent_truthy (req : Request) : truthy (user_agent req) = true.
Proof. unfold user_agent. apply prefix_truthy. now apply or_str_truthy. Qed.

Lemma mk_record_well_formed (now name : string) (req : Request) :
  well_formed_record (mk_record now name req).
Proof.
  unfold well_formed_record. cbn [mk_record clientIp userAgent].
  split; [apply truthy_nonempty, client_ip_truthy|].
  split; [apply truthy_nonempty, user_agent_truthy|].
  apply prefix_length.
Qed.

Lemma push_recent_Forall (P : ToolCallRecord -> Prop) (r : ToolCallRecord)
    (l : list ToolCallRecord) :
  P r -> Forall P l -> Forall P (push_recent r l).
Proof.
  intros Hr Hl. unfold push_recent.
  destruct (Nat.ltb MAX_RECENT_CALLS (length (r :: l))).
  - rewrite removelast_firstn_len. apply Forall_take. now constructor.
  - now constructor.
Qed.

Lemma first_segment_no_comma (s : string) :
  Firebase.occurs "," (first_segment s) = false.
Proof.
  induction s as [|c r IH]; [reflexivity|]. cbn [first_segment].
  destruct (Ascii.eqb c ",") eqn:E; [reflexivity|].
  cbn [Firebase.occurs]. now rewrite E, IH.
Qed.

Lemma trim_start_occurs (c : ascii) (s : string) :
  Firebase.occurs c s = false -> Firebase.occurs c (trim_start s) = false.
Proof.
  induction s as [|x r IH]; [reflexivity|]. cbn [trim_start].
  destruct (is_space x); [|tauto].
  cbn [Firebase.occurs]. intros H. apply orb_false_elim in H as [_ H]. now apply IH.
Qed.

Lemma trim_end_occurs (c : ascii) (s : string) :
  Firebase.occurs c s = false -> Firebase.occurs c (trim_end s) = false.
Proof.
  induction s as [|x r IH]; [reflexivity|]. cbn [trim_end Firebase.occurs].
  intros H. apply orb_false_elim in H as [Hx Hr]. specialize (IH Hr).
  destruct (trim_end r) as [|y r'] eqn:E.
  - destruct (is_space x); [reflexivity|]. cbn [Firebase.occurs]. now rewrite Hx.
  - cbn [Firebase.occurs] in *. now rewrite Hx, IH.
Qed.

Lemma trim_start_first (s : string) :
  match first_char (trim_start s) with
  | Some c => is_space c = false
  | None => True
  end.
Proof.
  induction s as [|x r IH]; [exact I|]. cbn [trim_start].
  destruct (is_space x) eqn:E; [exact IH|exact E].
Qed.

Lemma trim_end_last (s : string) :
  match last_char (trim_end s) with
  | Some c => is_space c = false
  | None => True
  end.
Proof.
  induction s as [|x r IH]; [exact I|]. cbn [trim_end].
  destruct (trim_end r) as [|y r'] eqn:E.
  - destruct (is_space x) eqn:Ex; [exact I|exact Ex].
  - cbn [last_char] in *. destruct (last_char r'); exact IH.
Qed.

Lemma trim_end_first (s : string) :
  match first_char s with
  | Some c => is_space c = false
  | None => True
  end ->
  match first_char (trim_end s) with
  | Some c => is_space c = false
  | None => True
  end.
Proof.
  destruct s as [|x r]; [tauto|]. cbn [first_char trim_end]. intros Hx.
  destruct (trim_end r); [rewrite Hx|]; exact Hx.
Qed.

Lemma trim_not_padded (s : string) : padded (trim s) = false.
Proof.
  unfold padded, trim.
  pose proof (trim_end_first _ (trim_start_first s)) as Hf.
  pose proof (trim_end_last (trim_start s)) as Hl.
  destruct (first_char (trim_end (trim_start s))); [rewrite Hf|];
    (destruct (last_char (trim_end (trim_start s))); [rewrite Hl|]); reflexivity.
Qed.

End Clients.

(** X7. The client address recorded for a request is never empty: it is
    the first entry of [X-Forwarded-For] with surrounding white space
    removed when that is not empty, and then it holds no comma and neither
    starts nor ends with white space; when that entry is empty or made of
    white space only, the no-break space included, or when the header is
    missing, it is [req.ip], or [unknown] without one. The recorded user
    agent is never empty and has at most 50 characters. *)
Theorem recorded_client_fields (req : Request) :
  client_ip req <> EmptyString
  /\ user_agent req <> EmptyString
  /\ (String.length (user_agent req) <= 50)%nat
  /\ (forall h, header_forwarded req = Some h ->
                trim (first_segment h) <> EmptyString ->
                client_ip req = trim (first_segment h)
                /\ Firebase.occurs "," (client_ip req) = false
                /\ Text.padded (client_ip req) = false)
  /\ (header_forwarded req = None
      \/ (exists h, header_forwarded req = Some h
                    /\ trim (first_segment h) = EmptyString) ->
      client_ip req = or_str (ip req) "unknown").
Proof.
  split; [apply truthy_nonempty, client_ip_truthy|].
  split; [apply truthy_nonempty, user_agent_truthy|].
  split; [apply prefix_length|]. split.
  - intros h Hh Hne.
    assert (E : client_ip req = trim (first_segment h)).
    { unfold client_ip. rewrite Hh. cbn [option_map or_opt].
      destruct (trim (first_segment h)) as [|c r] eqn:Et; [congruence|].
      reflexivity. }
    rewrite E. split; [reflexivity|]. split.
    + unfold trim. apply trim_end_occurs, trim_start_occurs, first_segment_no_comma.
    + apply trim_not_padded.
  - intros [Hnone|(h & Hh & Hempty)]; unfold client_ip.
    + rewrite Hnone. cbn [option_map or_opt]. now destruct (ip req).
    + rewrite Hh. cbn [option_map or_opt]. rewrite Hempty. cbn [truthy].
      now destruct (ip req).
Qed.

Lemma recorded_client_fields_witness :
  client_ip Samples.proxied = "203.0.113.9"
  /\ client_ip Samples.blank_forwarded = "10.0.0.1".
Proof.
  split.
  - refine (eq_trans (proj1 (proj1 (proj2 (proj2 (proj2 (recorded_client_fields
                                                   Samples.proxied))))
                               " 203.0.113.9 , 10.0.0.1" eq_refl _)) _).
    + vm_compute. discriminate.
    + vm_compute. reflexivity.
  - refine (proj2 (proj2 (proj2 (proj2 (recorded_client_fields
                                          Samples.blank_forwarded)))) _).
    right. eexists. split; [reflexivity|]. vm_compute. reflexivity.
Defined.

(** X8. Every record that [trackToolCall] puts into the history has a
    non-empty client address and a non-empty user agent of at most 50
    characters, and a history whose records are so stays so under any
    sequence of invocations. *)
Theorem history_records_well_formed (cs : list call) (a : AnalyticsData) :
  Forall Text.well_formed_record (recentToolCalls a) ->
  Forall Text.well_formed_record (recentToolCalls (trackToolCalls cs a)).
Proof.
  revert a. induction cs as [|[[now name] req] cs IH]; intros a Ha; [exact Ha|].
  unfold trackToolCalls in *. cbn [fold_left]. apply IH.
  cbn [trackToolCall recentToolCalls].
  apply push_recent_Forall; [apply mk_record_well_formed|exact Ha].
Qed.

Lemma history_records_witness :
  Forall Text.well_formed_record
    (recentToolCalls
       (trackToolCalls (map Scenario.nth_call (seq 0 3))
          (Analytics.initial "2025-01-01T00:00:00.000Z"))).
Proof.
  apply history_records_well_formed. constructor.
Defined.

(** ** Sanitized keys and round trips through the stores *)

Section Keys.
Import Firebase.

Lemma sanitizeObjectKeys_from (m : gmap string Z) (k : string) (v : Z) :
  sanitizeObjectKeys m !! k = Some v ->
  exists k0, m !! k0 = Some v /\ sanitizeKey k0 = k.
Proof.
  intros H. apply (fold_ins_from _ ∅) in H as [H|(k0 & Hin & Hk)].
  - rewrite lookup_empty in H. discriminate.
  - exists k0. split; [now apply elem_of_map_to_list|exact Hk].
Qed.

Lemma sanitizeObjectKeys_injective (m : gmap string Z) (k : string) (v : Z) :
  (forall k1 k2, is_Some (m !! k1) -> is_Some (m !! k2) ->
                 sanitizeKey k1 = sanitizeKey k2 -> k1 = k2) ->
  m !! k = Some v ->
  sanitizeObjectKeys m !! sanitizeKey k = Some v.
Proof.
  intros Hinj Hk. apply (fold_ins_in _ ∅); [|now apply elem_of_map_to_list].
  replace ((fun kv : string * Z => sanitizeKey kv.1) <$> map_to_list m)
    with (sanitizeKey <$> (map_to_list m).*1)
    by (rewrite <- list_fmap_compose; reflexivity).
  apply NoDup_fmap_2_strong; [|apply NoDup_fst_map_to_list].
  intros k1 k2 H1 H2. apply Hinj.
  - apply list_elem_of_fmap in H1 as ([? v1] & -> & H1).
    apply elem_of_map_to_list in H1. eauto.
  - apply list_elem_of_fmap in H2 as ([? v2] & -> & H2).
    apply elem_of_map_to_list in H2. eauto.
Qed.

Lemma sanitizeObjectKeys_clean_id (m : gmap string Z) :
  keys_clean m -> sanitizeObjectKeys m = m.
Proof.
  intros Hm. apply map_eq. intros k.
  destruct (m !! k) as [v|] eqn:E.
  - rewrite <- (sanitizeKey_clean_id k) at 1 by (apply Hm; eauto).
    apply sanitizeObjectKeys_injective; [|exact E].
    intros k1 k2 H1 H2. rewrite !sanitizeKey_clean_id by (apply Hm; assumption).
    tauto.
  - destruct (sanitizeObjectKeys m !! k) as [v|] eqn:E'; [|reflexivity].
    apply sanitizeObjectKeys_from in E' as (k0 & Hk0 & Heq).
    rewrite sanitizeKey_clean_id in Heq by (apply Hm; eauto). congruence.
Qed.

End Keys.

(** X9. [sanitizeKey] leaves a key as it is exactly when the key holds none
    of the six characters, and it is idempotent: sanitizing twice is
    sanitizing once. So a key with one of the six characters and its
    sanitized form are two keys with the same sanitized form. *)
Theorem sanitizeKey_fixpoints_and_idempotence (key : string) :
  (Firebase.sanitizeKey key = key <-> Firebase.clean key = true)
  /\ Firebase.sanitizeKey (Firebase.sanitizeKey key) = Firebase.sanitizeKey key
  /\ (Firebase.clean key = false ->
      Firebase.sanitizeKey key <> key
      /\ Firebase.sanitizeKey (Firebase.sanitizeKey key) = Firebase.sanitizeKey key).
Proof.
  assert (Hidem : Firebase.sanitizeKey (Firebase.sanitizeKey key)
                  = Firebase.sanitizeKey key)
    by apply sanitizeKey_clean_id, sanitizeKey_clean.
  split; [split|split; [exact Hidem|]].
  - intros H. rewrite <- H. apply sanitizeKey_clean.
  - apply sanitizeKey_clean_id.
  - intros Hc. split; [|exact Hidem].
    intros H. rewrite <- H, sanitizeKey_clean in Hc. discriminate.
Qed.

Lemma sanitizeKey_fixpoints_witness :
  Firebase.clean "/mcp" = false /\ Firebase.sanitizeKey "/mcp" <> "/mcp".
Proof.
  split; [reflexivity|].
  exact (proj1 (proj2 (proj2 (sanitizeKey_fixpoints_and_idempotence "/mcp"))
                  eq_refl)).
Defined.



Section RoundTrips.

Lemma ensure_snapshot (now : string) (a : AnalyticsData) :
  serverStartTime a <> EmptyString ->
  lastUpdated a = None ->
  ensureAnalyticsStructure now (snapshot a) = a.
Proof.
  intros Hs Hl. destruct a as [s tr tt rm re tc rc ci cu hr lu].
  cbn in Hs, Hl. subst lu.
  unfold ensureAnalyticsStructure, snapshot.
  cbn [p_serverStartTime p_totalRequests p_totalToolCalls p_requestsByMethod
       p_requestsByEndpoint p_toolCalls p_recentToolCalls p_clientsByIp
       p_clientsByUserAgent p_hourlyRequests p_lastUpdated
       serverStartTime totalRequests totalToolCalls requestsByMethod
       requestsByEndpoint toolCalls recentToolCalls clientsByIp
       clientsByUserAgent hourlyRequests lastUpdated].
  rewrite !or_zero_default. cbn.
  destruct s as [|c r]; [congruence|]. reflexivity.
Qed.

End RoundTrips.

(** X11. Restart through the local file gives back the aggregator: if the
    file holds the JSON of [analytics] (every field present, as
    [saveAnalytics] writes it) and no remote copy is had, [loadAnalytics]
    restores exactly that value, for an aggregator with a non-empty
    [serverStartTime] and no [lastUpdated], as every in-memory one is. *)
Theorem local_file_round_trip (a : AnalyticsData) (env : Server.LoadEnv)
    (st : Server.State) :
  serverStartTime a <> EmptyString ->
  lastUpdated a = None ->
  Firebase.loadFromFirebase (Server.firebase st) (Server.remoteRead env) = None ->
  Server.loadDirOk env = true ->
  Server.fileRead env = Server.FileText (Some (Firebase.DocObject (snapshot a))) ->
  ensureAnalyticsStructure (Server.loadNow env) (snapshot a) = a
  /\ Server.loadAnalytics env st = Normal (Server.set_analytics a st).
Proof.
  intros Hs Hl Hr Hd Hf.
  pose proof (ensure_snapshot (Server.loadNow env) a Hs Hl) as E.
  split; [exact E|].
  unfold Server.loadAnalytics, Server.loadAnalytics_body.
  rewrite Hr, Hd, Hf. cbn [Server.ensure_doc try_catch]. now rewrite E.
Qed.

Lemma local_file_round_trip_witness :
  Server.loadAnalytics
    {| Server.remoteRead := Firebase.ReadFails;
       Server.loadDirOk := true;
       Server.fileRead :=
         Server.FileText (Some (Firebase.DocObject (snapshot Scenario.one_request)));
       Server.loadNow := Scenario.now |}
    Scenario.live
  = Normal (Server.set_analytics Scenario.one_request Scenario.live).
Proof.
  refine (proj2 (local_file_round_trip Scenario.one_request
                   {| Server.remoteRead := Firebase.ReadFails;
                      Server.loadDirOk := true;
                      Server.fileRead :=
                        Server.FileText
                          (Some (Firebase.DocObject (snapshot Scenario.one_request)));
                      Server.loadNow := Scenario.now |}
                   Scenario.live _ eq_refl eq_refl eq_refl eq_refl)).
  cbn. discriminate.
Defined.

(** X12. A snapshot read back from the remote store is not the one that was
    saved: [ensureAnalyticsStructure] applied to the document built by
    [saveToFirebase] gives the aggregator with each of its six tables under
    sanitized keys, since nothing undoes the sanitization, and without
    [lastUpdated]. A key holding one of the six characters, such as an
    endpoint path or a dotted address, is therefore gone from every restored
    table. For an aggregator with a start time and no [lastUpdated], the
    round trip is exact only when no key of the six tables holds one of the
    six characters, and it is exact then, [__proto__] not being a key. *)
Theorem remote_round_trip_keeps_sanitized_keys (now : string) (t : Z)
    (a : AnalyticsData) :
  let a' := ensureAnalyticsStructure now (snapshot (Firebase.sanitizedData t a)) in
  (Forall2 Firebase.sanitized_image (Firebase.tables a) (Firebase.tables a')
   /\ totalRequests a' = totalRequests a
   /\ totalToolCalls a' = totalToolCalls a
   /\ recentToolCalls a' = recentToolCalls a
   /\ lastUpdated a' = None)
  /\ (forall k, Firebase.clean k = false ->
                Forall (fun m : gmap string Z => m !! k = None) (Firebase.tables a'))
  /\ (serverStartTime a <> EmptyString ->
      lastUpdated a = None ->
      (a' = a -> Forall Firebase.keys_clean (Firebase.tables a))
      /\ (Forall Firebase.keys_clean (Firebase.tables a) ->
          Forall (fun m : gmap string Z => m !! "__proto__" = None)
                 (Firebase.tables a) ->
          a' = a)).
Proof.
  cbn zeta.
  assert (E : ensureAnalyticsStructure now (snapshot (Firebase.sanitizedData t a))
              = {| serverStartTime := or_str (Some (serverStartTime a)) now;
                   totalRequests := totalRequests a;
                   totalToolCalls := totalToolCalls a;
                   requestsByMethod := Firebase.sanitizeObjectKeys (requestsByMethod a);
                   requestsByEndpoint :=
                     Firebase.sanitizeObjectKeys (requestsByEndpoint a);
                   toolCalls := Firebase.sanitizeObjectKeys (toolCalls a);
                   recentToolCalls := recentToolCalls a;
                   clientsByIp := Firebase.sanitizeObjectKeys (clientsByIp a);
                   clientsByUserAgent :=
                     Firebase.sanitizeObjectKeys (clientsByUserAgent a);
                   hourlyRequests := Firebase.sanitizeObjectKeys (hourlyRequests a);
                   lastUpdated := None |}).
  { unfold ensureAnalyticsStructure, snapshot, Firebase.sanitizedData.
    cbn [p_serverStartTime p_totalRequests p_totalToolCalls p_requestsByMethod
       p_requestsByEndpoint p_toolCalls p_recentToolCalls p_clientsByIp
       p_clientsByUserAgent p_hourlyRequests p_lastUpdated
       serverStartTime totalRequests totalToolCalls requestsByMethod
       requestsByEndpoint toolCalls recentToolCalls clientsByIp
       clientsByUserAgent hourlyRequests lastUpdated].
    rewrite !or_zero_default. reflexivity. }
  rewrite E. clear E.
  unfold Firebase.tables.
  cbn [requestsByMethod requestsByEndpoint toolCalls clientsByIp
       clientsByUserAgent hourlyRequests totalRequests totalToolCalls
       recentToolCalls lastUpdated].
  split; [|split].
  - split; [|repeat split].
    repeat (apply Forall2_cons; split; [apply sanitizeObjectKeys_image|]).
    apply Forall2_nil_2.
  - intros k Hk.
    repeat (apply Forall_cons; split;
            [match goal with
             | |- Firebase.sanitizeObjectKeys ?m !! k = None =>
                 destruct (Firebase.sanitizeObjectKeys m !! k) eqn:E; [|reflexivity];
                 rewrite (sanitizeObjectKeys_clean m k) in Hk by eauto;
                 discriminate
             end|]).
    apply Forall_nil_2.
  - intros Hs Hl. split.
    + intros Heq. rewrite <- Heq.
      cbn [requestsByMethod requestsByEndpoint toolCalls clientsByIp
           clientsByUserAgent hourlyRequests].
      repeat (apply Forall_cons; split; [apply sanitizeObjectKeys_clean|]).
      apply Forall_nil_2.
    + intros Hc _.
      repeat match goal with
             | H : Forall _ (_ :: _) |- _ =>
                 apply Forall_cons in H as [? H]
             end.
      destruct a as [s tr tt rm re tc rc ci cu hr lu]. cbn in *. subst lu.
      rewrite !sanitizeObjectKeys_clean_id by assumption.
      destruct s as [|c r]; [congruence|]. reflexivity.
Qed.

Lemma remote_round_trip_witness :
  Firebase.clean "/mcp" = false
  /\ requestsByEndpoint
       (ensureAnalyticsStructure Scenario.now
          (snapshot (Firebase.sanitizedData 0 Scenario.one_request))) !! "/mcp"
     = None.
Proof.
  split; [reflexivity|].
  pose proof (proj1 (proj2 (remote_round_trip_keeps_sanitized_keys
                              Scenario.now 0 Scenario.one_request))
                "/mcp" eq_refl) as H.
  cbn zeta in H. unfold Firebase.tables in H.
  apply Forall_cons in H as [_ H]. apply Forall_cons in H as [H _]. exact H.
Defined.

(** ** Imports compose *)

Section ImportAlgebra.

Lemma merge_counts_comm (d1 d2 m : gmap string Z) :
  merge_counts d1 (merge_counts d2 m) = merge_counts d2 (merge_counts d1 m).
Proof.
  apply map_eq. intros k. rewrite !merge_counts_lookup.
  destruct (d1 !! k) as [c1|], (d2 !! k) as [c2|]; cbn [default from_option];
    unfold id; try reflexivity.
  f_equal. lia.
Qed.

Lemma merge_if_present_comm (d1 d2 : option (gmap string Z)) (m : gmap string Z) :
  merge_if_present d1 (merge_if_present d2 m)
  = merge_if_present d2 (merge_if_present d1 m).
Proof.
  destruct d1 as [t1|], d2 as [t2|]; cbn [merge_if_present]; try reflexivity.
  apply merge_counts_comm.
Qed.

Lemma merge_counts_no_entries (m : gmap string Z) : merge_counts ∅ m = m.
Proof.
  apply map_eq. intros k. now rewrite merge_counts_lookup, lookup_empty.
Qed.

End ImportAlgebra.

(** X13. Imports of integer bodies commute, and there are neutral bodies.
    When importing two bodies in either order stays on own or uninherited
    keys and within the exact integers, both orders succeed and leave the
    same aggregator, whatever the order of the entries in the bodies. A body
    with none of the four fields, or with zero totals and empty tables,
    leaves any aggregator as it was. *)
Theorem imports_commute (d1 d2 : PartialAnalytics) (a : AnalyticsData)
    (et1 em1 et2 em2 : list (string * Z)) :
  (Plain.ordered d1 et1 em1 -> Plain.ordered d2 et2 em2 ->
   Plain.imports_fit d1 d2 a -> Plain.imports_fit d2 d1 a ->
   exists a1 a2 both,
     Plain.importAnalytics (Plain.json_of d1 et1 em1) (Plain.lift a)
     = Some (Plain.lift a1)
     /\ Plain.importAnalytics (Plain.json_of d2 et2 em2) (Plain.lift a1)
        = Some (Plain.lift both)
     /\ Plain.importAnalytics (Plain.json_of d2 et2 em2) (Plain.lift a)
        = Some (Plain.lift a2)
     /\ Plain.importAnalytics (Plain.json_of d1 et1 em1) (Plain.lift a2)
        = Some (Plain.lift both))
  /\ (forall d, Plain.importAnalytics Plain.empty_body d = Some d)
  /\ (forall d, Plain.importAnalytics Plain.zero_body d = Some d).
Proof.
  split; [|split].
  - intros Ho1 Ho2 [F1 F12] [F2 F21].
    exists (importAnalytics d1 a), (importAnalytics d2 a),
      (importAnalytics d2 (importAnalytics d1 a)).
    split; [now apply import_refines|]. split; [now apply import_refines|].
    split; [now apply import_refines|].
    rewrite (import_refines d1 (importAnalytics d2 a) et1 em1 Ho1 F21).
    do 2 f_equal. unfold importAnalytics.
    cbn [serverStartTime totalRequests totalToolCalls requestsByMethod
         requestsByEndpoint toolCalls recentToolCalls clientsByIp
         clientsByUserAgent hourlyRequests lastUpdated].
    rewrite !add_if_truthy_sum.
    rewrite (merge_if_present_comm (p_requestsByMethod d1)).
    rewrite (merge_if_present_comm (p_toolCalls d1)).
    f_equal; lia.
  - intros d. destruct d. reflexivity.
  - intros d. destruct d as [s [n|] [m|] rm re tc rc ci cu hr lu]; reflexivity.
Qed.

Lemma imports_commute_witness :
  Plain.imports_fit Samples.satellite Samples.satellite Samples.busy
  /\ exists a1 both,
      Plain.importAnalytics
        (Plain.json_of Samples.satellite [("train_alerts", 1)] [("POST", 1)])
        (Plain.lift Samples.busy)
      = Some (Plain.lift a1)
      /\ Plain.importAnalytics
           (Plain.json_of Samples.satellite [("train_alerts", 1)] [("POST", 1)])
           (Plain.lift a1)
         = Some (Plain.lift both).
Proof.
  assert (Hord : Plain.ordered Samples.satellite [("train_alerts", 1)] [("POST", 1)]).
  { split; intros t [= <-]; apply enumerates_singleton. }
  assert (Hfit : Plain.imports_fit Samples.satellite Samples.satellite Samples.busy).
  { split.
    - split; [repeat split|]. split; [repeat split|].
      split; intros t k v [= <-] Hk; apply lookup_singleton_Some in Hk as [<- <-];
        (split; [right; reflexivity|repeat split]).
    - split; [repeat split|]. split; [repeat split|].
      split; intros t k v [= <-] Hk; apply lookup_singleton_Some in Hk as [<- <-];
        (split; [right; reflexivity|repeat split]). }
  split; [exact Hfit|].
  destruct (proj1 (imports_commute Samples.satellite Samples.satellite Samples.busy
                     [("train_alerts", 1)] [("POST", 1)]
                     [("train_alerts", 1)] [("POST", 1)]) Hord Hord Hfit Hfit)
    as (a1 & a2 & both & H1 & H2 & _).
  exists a1, both. split; [exact H1|exact H2].
Defined.

(** ** Uptime *)

Section UptimeFacts.
Import Uptime.

Lemma parts_nonneg (diff : Z) :
  0 <= diff ->
  let '(days, hours, minutes) := parts diff in
  0 <= days /\ 0 <= hours < 24 /\ 0 <= minutes < 60
  /\ (days * 24 + hours) * 60 + minutes = diff / MS_PER_MINUTE.
Proof.
  intros H. unfold parts, MS_PER_DAY, MS_PER_HOUR, MS_PER_MINUTE.
  rewrite !Z.rem_mod_nonneg by lia.
  change (1000 * 60 * 60 * 24) with 86400000.
  change (1000 * 60 * 60) with 3600000.
  change (1000 * 60) with 60000.
  pose proof (Z.div_mod diff 86400000 ltac:(lia)) as E1.
  pose proof (Z.mod_pos_bound diff 86400000 ltac:(lia)) as B1.
  pose proof (Z.div_mod (diff mod 86400000) 3600000 ltac:(lia)) as E2.
  pose proof (Z.mod_pos_bound (diff mod 86400000) 3600000 ltac:(lia)) as B2.
  pose proof (Z.div_mod diff 3600000 ltac:(lia)) as E3.
  pose proof (Z.mod_pos_bound diff 3600000 ltac:(lia)) as B3.
  pose proof (Z.div_mod (diff mod 3600000) 60000 ltac:(lia)) as E4.
  pose proof (Z.mod_pos_bound (diff mod 3600000) 60000 ltac:(lia)) as B4.
  pose proof (Z.div_mod diff 60000 ltac:(lia)) as E5.
  pose proof (Z.mod_pos_bound diff 60000 ltac:(lia)) as B5.
  repeat split; try (apply Z.div_pos; lia); try (apply Z.div_lt_upper_bound; lia).
  lia.
Qed.

End UptimeFacts.

(** X14. For a start time that is not after the clock, the three numbers
    of [getUptime] split the elapsed whole minutes: days are not negative,
    hours lie in 0..23, minutes in 0..59, and days, hours and minutes add up
    to the elapsed time in minutes, rounded down. The text shows the days
    only when there is at least one, the hours only when there is at least
    one of either, and less than a minute reads [0m]. A stored start time
    that is no date reads [NaNm]. *)
Theorem uptime_splits_elapsed_minutes (start now : Z) :
  start <= now ->
  let '(days, hours, minutes) := Uptime.parts (now - start) in
  0 <= days /\ 0 <= hours < 24 /\ 0 <= minutes < 60
  /\ (days * 24 + hours) * 60 + minutes = (now - start) / 60000
  /\ Uptime.getUptime (Some start) now
     = (if Z.ltb 0 days
        then pretty days +:+ "d " +:+ pretty hours +:+ "h " +:+ pretty minutes +:+ "m"
        else if Z.ltb 0 hours
             then pretty hours +:+ "h " +:+ pretty minutes +:+ "m"
             else pretty minutes +:+ "m")
  /\ (now - start < 60000 -> Uptime.getUptime (Some start) now = "0m")
  /\ Uptime.getUptime None now = "NaNm".
Proof.
  intros H. pose proof (parts_nonneg (now - start) ltac:(lia)) as P.
  unfold Uptime.getUptime, Uptime.render.
  destruct (Uptime.parts (now - start)) as [[days hours] minutes] eqn:E.
  destruct P as (Hd & Hh & Hm & Hsum).
  change Uptime.MS_PER_MINUTE with 60000 in Hsum.
  repeat split; try lia.
  intros Hlt. rewrite Z.div_small in Hsum by lia.
  assert (days = 0) by nia. assert (hours = 0) by nia. assert (minutes = 0) by nia.
  subst. reflexivity.
Qed.

Lemma uptime_witness :
  Uptime.getUptime (Some 1000) 60999 = "0m".
Proof.
  pose proof (uptime_splits_elapsed_minutes 1000 60999 ltac:(lia)) as H.
  destruct (Uptime.parts (60999 - 1000)) as [[days hours] minutes].
  exact (proj1 (proj2 (proj2 (proj2 (proj2 (proj2 H))))) ltac:(lia)).
Defined.

(** ** Requests and sessions of the server *)

Section ServerFacts.
Import Tools Server Http.

Lemma saveAnalytics_transports' (env : SaveEnv) (st : State) :
  transports (saveAnalytics env st) = transports st.
Proof.
  unfold saveAnalytics.
  destruct (dirOk env && writeOk env)%bool; [|reflexivity].
  destruct (Firebase.saveToFirebase _ _ _ _) as [[doc|] [|]]; reflexivity.
Qed.

Lemma sdk_step_inert (up : Upstream) (t : Transport) (h : Handling)
    (ev : SdkEvent) :
  closes_nothing t = true ->
  inert (transports (state h)) ->
  inert (transports (state (sdk_step up t h ev)))
  /\ forall k, is_Some (transports (state h) !! k) ->
               is_Some (transports (state (sdk_step up t h ev)) !! k).
Proof.
  intros Ht Hi. destruct ev as [id|name args| |]; cbn [sdk_step].
  - cbn [state transports set_transports]. split.
    + intros k t'. destruct (decide (id = k)) as [->|Hne].
      * rewrite lookup_insert_eq. intros [= <-]. exact Ht.
      * rewrite lookup_insert_ne by exact Hne. apply Hi.
    + intros k Hk. destruct (decide (id = k)) as [->|Hne].
      * rewrite lookup_insert_eq. eauto.
      * now rewrite lookup_insert_ne.
  - destruct (callTool up (boundKey t) name args) as [reqs r]. cbn [state]. auto.
  - auto.
  - cbn [state transports set_transports].
    assert (E : onclose t (transports (state h)) = transports (state h)).
    { unfold onclose. unfold closes_nothing in Ht.
      destruct (creatorSession t) as [sid|]; [|reflexivity].
      destruct (truthy sid); [discriminate|reflexivity]. }
    rewrite E. auto.
Qed.

Lemma handleRequest_inert (up : Upstream) (t : Transport) (evs : list SdkEvent)
    (st : State) :
  closes_nothing t = true ->
  inert (transports st) ->
  inert (transports (state (handleRequest up t evs st)))
  /\ forall k, is_Some (transports st !! k) ->
               is_Some (transports (state (handleRequest up t evs st)) !! k).
Proof.
  intros Ht. unfold handleRequest.
  change (transports st)
    with (transports (state {| state := st; upstream_log := []; results := [] |})).
  generalize {| state := st; upstream_log := []; results := [] |}.
  induction evs as [|ev evs IH]; intros h Hi; [now split|].
  cbn [fold_left].
  destruct (sdk_step_inert up t h ev Ht Hi) as [Hi' Hk'].
  destruct (IH _ Hi') as [Hi'' Hk'']. split; [exact Hi''|].
  intros k Hk. apply Hk'', Hk', Hk.
Qed.

End ServerFacts.

(** X15. Every request on [/mcp] is counted once, before anything else is
    decided, whether it is answered with HTTP 500, with HTTP 400 or handed
    to a transport. When the verb, the endpoint, the client address, the
    user agent and the hour are own keys of their tables or names that a
    plain object does not inherit, and the counts are integers that stay
    within 2^53, the aggregator afterwards is the one [trackRequest] leaves:
    [totalRequests], the [/mcp] entry of [requestsByEndpoint], the entry of
    the verb in [requestsByMethod] and the entry of the client address in
    [clientsByIp] each grow by one. Requests on [/] and [/health] are
    counted in the same way under their own endpoint. *)
Theorem mcp_request_always_counted (dflt now : string) (up : Tools.Upstream)
    (evs : list Server.SdkEvent) (req : Request) (st : Server.State) :
  let a := Server.analytics st in
  let counted (endpoint : string) (a' : AnalyticsData) :=
    Plain.request_fits now req endpoint a ->
    Plain.trackRequest now req endpoint (Plain.lift a) = Some (Plain.lift a')
    /\ totalRequests a' = totalRequests a + 1
    /\ default 0 (requestsByEndpoint a' !! endpoint)
       = default 0 (requestsByEndpoint a !! endpoint) + 1
    /\ default 0 (requestsByMethod a' !! method req)
       = default 0 (requestsByMethod a !! method req) + 1
    /\ default 0 (clientsByIp a' !! client_ip req)
       = default 0 (clientsByIp a !! client_ip req) + 1
    /\ serverStartTime a' = serverStartTime a in
  counted "/mcp" (Server.analytics (Server.mcp dflt now up evs req st).1.1)
  /\ counted "/" (Server.analytics (Http.root now req st))
  /\ counted "/health" (Server.analytics (Http.health now req st)).
Proof.
  cbn zeta.
  assert (H : forall endpoint,
            Plain.request_fits now req endpoint (Server.analytics st) ->
            let a := Server.analytics st in
            let a' := trackRequest now req endpoint a in
            Plain.trackRequest now req endpoint (Plain.lift a) = Some (Plain.lift a')
            /\ totalRequests a' = totalRequests a + 1
            /\ default 0 (requestsByEndpoint a' !! endpoint)
               = default 0 (requestsByEndpoint a !! endpoint) + 1
            /\ default 0 (requestsByMethod a' !! method req)
               = default 0 (requestsByMethod a !! method req) + 1
            /\ default 0 (clientsByIp a' !! client_ip req)
               = default 0 (clientsByIp a !! client_ip req) + 1
            /\ serverStartTime a' = serverStartTime a).
  { intros endpoint Hfit. cbn zeta. split; [now apply trackRequest_refines|].
    cbn [trackRequest totalRequests requestsByEndpoint requestsByMethod
         clientsByIp serverStartTime].
    rewrite !bump_lookup, !decide_True by reflexivity. auto. }
  rewrite mcp_analytics. unfold Http.root, Http.health.
  cbn [Server.analytics Server.set_analytics].
  split; [|split]; apply H.
Qed.

Lemma mcp_request_counted_witness :
  let req := Scenario.request "DELETE" None (Some "gone") in
  let r := Server.mcp "default-key" Scenario.now Scenario.upstream_ok [] req
             Scenario.live in
  Plain.request_fits Scenario.now req "/mcp" (Server.analytics Scenario.live)
  /\ r.1.2 = Server.JsonError 400 "No active session. Send a POST request first."
  /\ Plain.trackRequest Scenario.now req "/mcp"
       (Plain.lift (Server.analytics Scenario.live))
     = Some (Plain.lift (Server.analytics r.1.1))
  /\ totalRequests (Server.analytics r.1.1) = 1.
Proof.
  cbn zeta.
  assert (Hfit : Plain.request_fits Scenario.now
                   (Scenario.request "DELETE" None (Some "gone")) "/mcp"
                   (Server.analytics Scenario.live)).
  { split; [repeat split|].
    repeat split; try (right; vm_compute; reflexivity). }
  split; [exact Hfit|]. split; [vm_compute; reflexivity|].
  pose proof (proj1 (mcp_request_always_counted "default-key" Scenario.now
                Scenario.upstream_ok []
                (Scenario.request "DELETE" None (Some "gone")) Scenario.live)
                Hfit) as H.
  split; [exact (proj1 H)|exact (proj1 (proj2 H))].
Defined.

(** X16. A session is found again under the id it was registered with. When
    a request that belongs to no live session, is neither [GET] nor
    [DELETE] and resolves to a key has its transport initialised under [id],
    the mapping gains exactly the entry [id], older entries under other ids
    are kept, a later request carrying [id] is routed to that transport, and
    the upstream calls of that later request use the key of the first one. *)
Theorem session_registered_then_found (dflt now : string) (up : Tools.Upstream)
    (req : Request) (st : Server.State) (id : string) :
  Server.find_session req (Server.transports st) = None ->
  Server.is_get_or_delete (method req) = false ->
  truthy (Server.getApiKey dflt req) = true ->
  truthy id = true ->
  let t := {| Server.boundKey := Server.getApiKey dflt req;
              Server.creatorSession := header_session req |} in
  let st' := (Server.mcp dflt now up [Server.SessionInitialized id] req st).1.1 in
  Server.transports st' = <[id := t]> (Server.transports st)
  /\ (forall other, other <> id ->
                    Server.transports st' !! other = Server.transports st !! other)
  /\ (forall req2, header_session req2 = Some id ->
                   Server.find_session req2 (Server.transports st') = Some t)
  /\ (forall now2 up2 evs2 req2 rq,
        header_session req2 = Some id ->
        In rq (Server.mcp dflt now2 up2 evs2 req2 st').2 ->
        Tools.accountKey rq = Server.getApiKey dflt req).
Proof.
  intros Hnone Hverb Hkey Hid. cbn zeta.
  set (t := {| Server.boundKey := Server.getApiKey dflt req;
               Server.creatorSession := header_session req |}).
  set (st1 := (Server.mcp dflt now up [Server.SessionInitialized id] req st).1.1).
  assert (E : Server.transports st1 = <[id := t]> (Server.transports st)).
  { unfold st1, Server.mcp. rewrite Hkey. cbn [negb].
    cbn [Server.transports Server.set_analytics]. rewrite Hnone, Hverb.
    reflexivity. }
  clearbody st1.
  assert (F : forall req2, header_session req2 = Some id ->
                Server.find_session req2 (Server.transports st1) = Some t).
  { intros req2 H2. unfold Server.find_session. rewrite H2, Hid, E.
    apply lookup_insert_eq. }
  split; [exact E|]. split; [|split].
  - intros other Hne. rewrite E. apply lookup_insert_ne. congruence.
  - exact F.
  - intros now2 up2 evs2 req2 rq H2. unfold Server.mcp.
    destruct (negb (truthy (Server.getApiKey dflt req2))); cbn [snd]; [intros []|].
    cbn [Server.transports Server.set_analytics]. rewrite (F req2 H2). cbn [snd].
    intros Hin. now apply handleRequest_keys in Hin.
Qed.

Lemma session_registered_witness :
  let req := Scenario.request "POST" (Some "key-B") None in
  Server.find_session (Scenario.request "POST" None (Some "s2"))
    (Server.transports
       (Server.mcp "default-key" Scenario.now Scenario.upstream_ok
          [Server.SessionInitialized "s2"] req Scenario.live).1.1)
  = Some {| Server.boundKey := "key-B"; Server.creatorSession := None |}.
Proof.
  cbn zeta.
  exact (proj1 (proj2 (proj2 (session_registered_then_found "default-key"
                                Scenario.now Scenario.upstream_ok
                                (Scenario.request "POST" (Some "key-B") None)
                                Scenario.live "s2" eq_refl eq_refl eq_refl eq_refl)))
           (Scenario.request "POST" None (Some "s2")) eq_refl).
Defined.

(** X17. Sessions created by requests without a session id are never
    removed from the live mapping. If no transport of the mapping deletes
    anything on close, then after a request on [/mcp] that either belongs to
    a live session or carries no session id, whatever the transport does
    with it (a [DELETE], a close, tool calls), every id that was live is
    still live, and still no transport of the mapping deletes anything on
    close. *)
Theorem headerless_sessions_never_removed (dflt now : string)
    (up : Tools.Upstream) (evs : list Server.SdkEvent) (req : Request)
    (st : Server.State) :
  Http.inert (Server.transports st) ->
  is_Some (Server.find_session req (Server.transports st))
  \/ Http.no_session_header req = true ->
  let st' := (Server.mcp dflt now up evs req st).1.1 in
  Http.inert (Server.transports st')
  /\ forall k, is_Some (Server.transports st !! k) ->
               is_Some (Server.transports st' !! k).
Proof.
  intros Hi Hreq. cbn zeta. unfold Server.mcp.
  destruct (negb (truthy (Server.getApiKey dflt req))); cbn [fst];
    [now split|].
  cbn [Server.transports Server.set_analytics].
  destruct (Server.find_session req (Server.transports st)) as [t|] eqn:Ef;
    cbn [fst].
  - assert (Ht : Http.closes_nothing t = true).
    { unfold Server.find_session in Ef.
      destruct (header_session req) as [sid|]; [|discriminate].
      destruct (truthy sid); [|discriminate]. eapply Hi, Ef. }
    apply (handleRequest_inert up t evs (Server.set_analytics _ st) Ht Hi).
  - destruct (Server.is_get_or_delete (method req)); cbn [fst]; [now split|].
    destruct Hreq as [[? Habs]|Hno]; [discriminate|].
    apply (handleRequest_inert up _ evs (Server.set_analytics _ st)); [|exact Hi].
    exact Hno.
Qed.

Lemma headerless_sessions_witness :
  let req := Scenario.request "DELETE" None (Some "s1") in
  is_Some
    (Server.transports
       (Server.mcp "default-key" Scenario.now Scenario.upstream_ok [Server.Closed]
          req Scenario.live).1.1 !! "s1").
Proof.
  cbn zeta.
  assert (Hi : Http.inert (Server.transports Scenario.live)).
  { intros k t Hk. cbn in Hk. apply lookup_singleton_Some in Hk as [_ <-].
    reflexivity. }
  refine (proj2 (headerless_sessions_never_removed "default-key" Scenario.now
                   Scenario.upstream_ok [Server.Closed]
                   (Scenario.request "DELETE" None (Some "s1")) Scenario.live Hi _)
            "s1" _).
  - left. vm_compute. eauto.
  - vm_compute. eauto.
Defined.

(** X19. A save reaches the remote store only after the local write
    succeeded: the remote document becomes the sanitized snapshot exactly
    when the data directory and the file write succeed and Firebase is
    enabled, has its reference and accepts the write; in every other case
    the remote document stays what it was. When the directory or the file
    write fails the save changes nothing at all. *)
Theorem save_reaches_remote_only_after_local (env : Server.SaveEnv)
    (st : Server.State) :
  Server.remoteDoc (Server.saveAnalytics env st)
  = (if (Server.dirOk env && Server.writeOk env
         && Firebase.firebaseEnabled (Server.firebase st)
         && Firebase.analyticsRef (Server.firebase st)
         && Server.setOk env)%bool
     then Some (Firebase.sanitizedData (Server.nowMs env) (Server.analytics st))
     else Server.remoteDoc st)
  /\ ((Server.dirOk env && Server.writeOk env)%bool = false ->
      Server.saveAnalytics env st = st)
  /\ Server.transports (Server.saveAnalytics env st) = Server.transports st.
Proof.
  split; [|split].
  - unfold Server.saveAnalytics, Firebase.saveToFirebase.
    destruct (Server.dirOk env), (Server.writeOk env),
      (Firebase.firebaseEnabled (Server.firebase st)),
      (Firebase.analyticsRef (Server.firebase st)), (Server.setOk env);
      reflexivity.
  - intros H. unfold Server.saveAnalytics. now rewrite H.
  - apply saveAnalytics_transports'.
Qed.

Lemma save_reaches_remote_witness :
  Server.saveAnalytics Samples.failing_save Scenario.live = Scenario.live.
Proof.
  exact (proj1 (proj2 (save_reaches_remote_only_after_local Samples.failing_save
                         Scenario.live)) eq_refl).
Defined.

(** X20. A closed session stays registered. When a request creates a
    transport, the transport is initialised under a generated [id] that
    differs from the session header of the request, and the transport then
    closes, the close handler deletes the header's id and not [id]: the
    mapping still holds the closed transport under [id], and a request that
    carries [id] afterwards is routed to it instead of being answered with
    HTTP 400. *)
Theorem closed_session_stays_registered (dflt now : string) (up : Tools.Upstream)
    (req : Request) (st : Server.State) (id : string) :
  Server.find_session req (Server.transports st) = None ->
  Server.is_get_or_delete (method req) = false ->
  truthy (Server.getApiKey dflt req) = true ->
  truthy id = true ->
  header_session req <> Some id ->
  let t := {| Server.boundKey := Server.getApiKey dflt req;
              Server.creatorSession := header_session req |} in
  let r := Server.mcp dflt now up [Server.SessionInitialized id; Server.Closed]
             req st in
  r.1.2 = Server.TransportReply []
  /\ Server.transports r.1.1 !! id = Some t
  /\ (forall req2, header_session req2 = Some id ->
                   Server.find_session req2 (Server.transports r.1.1) = Some t).
Proof.
  intros Hnone Hverb Hkey Hid Hne. cbn zeta.
  set (t := {| Server.boundKey := Server.getApiKey dflt req;
               Server.creatorSession := header_session req |}).
  unfold Server.mcp. rewrite Hkey. cbn [negb].
  cbn [Server.transports Server.set_analytics]. rewrite Hnone, Hverb.
  cbn [Server.handleRequest fold_left Server.sdk_step Server.state
       Server.results Server.upstream_log Server.transports
       Server.set_transports fst snd].
  fold t.
  assert (E : Server.onclose t (<[id := t]> (Server.transports st)) !! id = Some t).
  { unfold Server.onclose. cbn [t Server.creatorSession].
    destruct (header_session req) as [sid|]; [|apply lookup_insert_eq].
    destruct (truthy sid); [|apply lookup_insert_eq].
    rewrite lookup_delete_ne by congruence. apply lookup_insert_eq. }
  split; [reflexivity|]. split; [exact E|].
  intros req2 H2. unfold Server.find_session. now rewrite H2, Hid.
Qed.

Lemma closed_session_witness :
  let req := Scenario.request "POST" None (Some "stale") in
  Server.transports
    (Server.mcp "default-key" Scenario.now Scenario.upstream_ok
       [Server.SessionInitialized "s2"; Server.Closed] req Scenario.live).1.1
    !! "s2"
  = Some {| Server.boundKey := "default-key";
            Server.creatorSession := Some "stale" |}.
Proof.
  cbn zeta.
  refine (proj1 (proj2 (closed_session_stays_registered "default-key" Scenario.now
                          Scenario.upstream_ok
                          (Scenario.request "POST" None (Some "stale"))
                          Scenario.live "s2" _ eq_refl eq_refl eq_refl _))).
  - vm_compute. reflexivity.
  - discriminate.
Defined.

(** X21. One [trackToolCall] puts its record first in the history. The
    history grows by one while it holds fewer than 100 records and keeps its
    length from then on: exactly one record is dropped per invocation, so a
    history that was restored with more than 100 records is never cut back
    to 100. *)
Theorem history_step_length (now name : string) (req : Request)
    (a : AnalyticsData) :
  let a' := trackToolCall now name req a in
  hd_error (recentToolCalls a') = Some (mk_record now name req)
  /\ length (recentToolCalls a')
     = (if Nat.ltb (length (recentToolCalls a)) MAX_RECENT_CALLS
        then S (length (recentToolCalls a))
        else length (recentToolCalls a))
  /\ ((MAX_RECENT_CALLS < length (recentToolCalls a))%nat ->
      (MAX_RECENT_CALLS < length (recentToolCalls a'))%nat).
Proof.
  cbn zeta. cbn [trackToolCall recentToolCalls]. unfold push_recent.
  set (l := recentToolCalls a). set (r := mk_record now name req).
  assert (Hlen : length (removelast (r :: l)) = length l).
  { rewrite removelast_firstn_len. cbn [length Nat.pred].
    rewrite length_firstn. cbn [length]. lia. }
  assert (Hhd : l <> [] -> hd_error (removelast (r :: l)) = Some r).
  { destruct l; [congruence|reflexivity]. }
  destruct (Nat.ltb MAX_RECENT_CALLS (length (r :: l))) eqn:E.
  - apply Nat.ltb_lt in E. cbn [length] in E.
    assert (Hl : l <> []) by (destruct l; cbn in E; [unfold MAX_RECENT_CALLS in E; lia|congruence]).
    rewrite Hlen, (Hhd Hl).
    split; [reflexivity|]. split; [|tauto].
    destruct (Nat.ltb_spec (length l) MAX_RECENT_CALLS); [lia|reflexivity].
  - apply Nat.ltb_ge in E. cbn [length] in E. cbn [hd_error length].
    split; [reflexivity|]. split; [|lia].
    destruct (Nat.ltb_spec (length l) MAX_RECENT_CALLS); [reflexivity|lia].
Qed.

Lemma history_step_witness :
  let a := trackToolCalls (map Scenario.nth_call (seq 0 3))
             (Analytics.initial "2025-01-01T00:00:00.000Z") in
  length (recentToolCalls
            (trackToolCall Scenario.now "train_alerts" Samples.proxied a))
  = 4%nat.
Proof.
  cbn zeta.
  exact (proj1 (proj2 (history_step_length Scenario.now "train_alerts"
                         Samples.proxied _))).
Defined.
